(** * The task orchestrator of [services/agent_service.py]

    A shallow embedding of [AgentService]: the two task collections, their
    JSON files, the step planner and the step-execution loop, followed by the
    properties of the specification that can be settled on it.

    Python objects are modelled by [pyval]; a [dict] is an association list
    in insertion order.  Methods run in a state-and-exception monad whose
    state holds [self.active_tasks], [self.task_history] and the environment
    (files, wall clock, completion client, logger).  A raised exception keeps
    every mutation made before it, as in Python. *)

From stdpp Require Import base option list strings gmap pretty.
From Stdlib Require Import ZArith Ascii.

Open Scope string_scope.
Open Scope list_scope.
Set Warnings "-register-all".

(** ** Python values *)

(** A naive [datetime.datetime]. *)
Record datetime := mk_datetime {
  year : nat; month : nat; day : nat;
  hour : nat; minute : nat; second : nat; microsecond : nat
}.

Global Instance datetime_eq_dec : EqDecision datetime.
Proof. solve_decision. Defined.

(** The values the orchestrator handles.  [PObject] stands for any other
    object, compared by identity and not JSON serializable (for instance the
    coroutine an un-awaited [async def] returns). *)
Inductive pyval : Type :=
| PNone
| PBool (b : bool)
| PInt (z : Z)
| PStr (s : string)
| PDatetime (d : datetime)
| PObject (ident : nat)
| PList (items : list pyval)
| PDict (entries : list (string * pyval)).

Definition dict : Type := list (string * pyval).

(** [d.get(k)]: the first binding of [k]. *)
Fixpoint dict_get {V : Type} (k : string) (d : list (string * V)) : option V :=
  match d with
  | [] => None
  | (k', v) :: rest => if String.eqb k k' then Some v else dict_get k rest
  end.

(** [d[k] = v]: an existing key keeps its place, a new key goes last. *)
Fixpoint dict_set {V : Type} (k : string) (v : V) (d : list (string * V))
  : list (string * V) :=
  match d with
  | [] => [(k, v)]
  | (k', v') :: rest =>
      if String.eqb k k' then (k', v) :: rest else (k', v') :: dict_set k v rest
  end.

(** [k in d]. *)
Definition dict_has {V : Type} (k : string) (d : list (string * V)) : bool :=
  match dict_get k d with Some _ => true | None => false end.

(** [d.get(k, default)]. *)
Definition dict_get_default (k : string) (default : pyval) (d : dict) : pyval :=
  match dict_get k d with Some v => v | None => default end.

(** Python's [==] on this universe: [bool] is a subtype of [int], lists
    compare pointwise, dicts compare as unordered maps, objects by identity,
    and values of unrelated types are unequal. *)
Fixpoint py_eq (a b : pyval) {struct a} : bool :=
  match a, b with
  | PNone, PNone => true
  | PBool x, PBool y => Bool.eqb x y
  | PBool x, PInt z => Z.eqb (Z.b2z x) z
  | PInt z, PBool x => Z.eqb z (Z.b2z x)
  | PInt x, PInt y => Z.eqb x y
  | PStr x, PStr y => String.eqb x y
  | PDatetime x, PDatetime y => bool_decide (x = y)
  | PObject x, PObject y => Nat.eqb x y
  | PList xs, PList ys =>
      (fix pointwise (xs ys : list pyval) {struct xs} : bool :=
         match xs, ys with
         | [], [] => true
         | x :: xs', y :: ys' => py_eq x y && pointwise xs' ys'
         | _, _ => false
         end) xs ys
  | PDict xs, PDict ys =>
      Nat.eqb (length xs) (length ys) &&
      (fix included (xs : list (string * pyval)) {struct xs} : bool :=
         match xs with
         | [] => true
         | (k, v) :: xs' =>
             match dict_get k ys with
             | Some w => py_eq v w
             | None => false
             end && included xs'
         end) xs
  | _, _ => false
  end.

(** [x in l] for a list [l]. *)
Definition py_in (x : pyval) (l : list pyval) : bool :=
  existsb (fun e => py_eq x e) l.

(** ** JSON documents *)

Inductive json : Type :=
| JNull
| JBool (b : bool)
| JNum (z : Z)
| JStr (s : string)
| JArr (items : list json)
| JObj (members : list (string * json)).

Definition jobject : Type := list (string * json).

(** What [json.load] builds from a document. *)
Fixpoint of_json (j : json) : pyval :=
  match j with
  | JNull => PNone
  | JBool b => PBool b
  | JNum z => PInt z
  | JStr s => PStr s
  | JArr items => PList (map of_json items)
  | JObj members => PDict (map (fun kv => (fst kv, of_json (snd kv))) members)
  end.

Definition of_jobject (o : jobject) : dict :=
  map (fun kv => (fst kv, of_json (snd kv))) o.

(** What [json.dump] writes; [None] is its
    [TypeError: Object of type ... is not JSON serializable]. *)
Fixpoint to_json (v : pyval) : option json :=
  match v with
  | PNone => Some JNull
  | PBool b => Some (JBool b)
  | PInt z => Some (JNum z)
  | PStr s => Some (JStr s)
  | PDatetime _ => None
  | PObject _ => None
  | PList items =>
      option_map JArr
        ((fix each (l : list pyval) : option (list json) :=
            match l with
            | [] => Some []
            | x :: l' =>
                match to_json x, each l' with
                | Some j, Some js => Some (j :: js)
                | _, _ => None
                end
            end) items)
  | PDict entries =>
      option_map JObj
        ((fix each (l : list (string * pyval)) : option (list (string * json)) :=
            match l with
            | [] => Some []
            | (k, x) :: l' =>
                match to_json x, each l' with
                | Some j, Some js => Some ((k, j) :: js)
                | _, _ => None
                end
            end) entries)
  end.

Definition to_jobject (d : dict) : option jobject :=
  match to_json (PDict d) with
  | Some (JObj members) => Some members
  | _ => None
  end.

Fixpoint to_jobjects (ds : list dict) : option (list jobject) :=
  match ds with
  | [] => Some []
  | d :: ds' =>
      match to_jobject d, to_jobjects ds' with
      | Some o, Some os => Some (o :: os)
      | _, _ => None
      end
  end.

(** ** Strings and timestamps *)

(** A [str] is held as the bytes of its UTF-8 encoding, the way a string
    literal of this file holds it: a character below U+0080 is one byte, and
    the fences, keys and log texts of the service, which are ASCII, are
    their own encoding.  U+00A0, the no-break space, is the two bytes 194
    and 160. *)
Definition chars (s : string) : list ascii := String.list_ascii_of_string s.
Definition text (l : list ascii) : string := String.string_of_list_ascii l.

Definition code (c : ascii) : N := N_of_ascii c.

Definition between (lo hi : N) (c : ascii) : bool :=
  ((lo <=? code c) && (code c <=? hi))%N.

(** The white space [str.strip()] removes is every character on which
    [str.isspace()] holds.  In one byte: U+0009 to U+000D, U+001C to U+001F
    and the space U+0020. *)
Definition is_space (c : ascii) : bool :=
  between 9 13 c || between 28 32 c.

(** In two bytes: U+0085 (194 133) and U+00A0 (194 160). *)
Definition is_space2 (a b : ascii) : bool :=
  between 194 194 a && (between 133 133 b || between 160 160 b).

(** In three bytes: U+1680 (225 154 128); U+2000 to U+200A (226 128 128 to
    226 128 138), U+2028, U+2029 and U+202F (226 128 168, 169 and 175);
    U+205F (226 129 159); U+3000 (227 128 128).  No other character is
    white space. *)
Definition is_space3 (a b c : ascii) : bool :=
  (between 225 225 a && between 154 154 b && between 128 128 c)
  || (between 226 226 a && between 128 128 b &&
      (between 128 138 c || between 168 169 c || between 175 175 c))
  || (between 226 226 a && between 129 129 b && between 159 159 c)
  || (between 227 227 a && between 128 128 b && between 128 128 c).

(** [lstrip]: white space goes from the front, one character at a time. *)
Fixpoint lstrip_chars (l : list ascii) : list ascii :=
  match l with
  | a :: l1 =>
      if is_space a then lstrip_chars l1 else
      match l1 with
      | b :: l2 =>
          if is_space2 a b then lstrip_chars l2 else
          match l2 with
          | c :: l3 => if is_space3 a b c then lstrip_chars l3 else l
          | [] => l
          end
      | [] => l
      end
  | [] => []
  end.

(** [rstrip], on the reversed bytes: those of the last character come
    first, last byte first. *)
Fixpoint rstrip_rev (l : list ascii) : list ascii :=
  match l with
  | a :: l1 =>
      if is_space a then rstrip_rev l1 else
      match l1 with
      | b :: l2 =>
          if is_space2 b a then rstrip_rev l2 else
          match l2 with
          | c :: l3 => if is_space3 c b a then rstrip_rev l3 else l
          | [] => l
          end
      | [] => l
      end
  | [] => []
  end.

Definition strip (s : string) : string :=
  text (rev (rstrip_rev (rev (lstrip_chars (chars s))))).

(** A fence is ASCII, so it is a prefix or a suffix of the characters
    exactly when it is one of the bytes, and the slices [s[7:]] and
    [s[:-3]], taken behind such a test, cut as many bytes as characters. *)
Definition startswith (p s : string) : bool := String.prefix p s.

Definition endswith (p s : string) : bool :=
  String.prefix (text (rev (chars p))) (text (rev (chars s))).

(** [s[n:]] and [s[:-n]] for [n > 0], counted in bytes. *)
Definition drop_prefix (n : nat) (s : string) : string := text (drop n (chars s)).
Definition drop_suffix (n : nat) (s : string) : string :=
  text (take (String.length s - n) (chars s)).

(** The characters of a string, as [iter] yields them: a byte from 128 to
    191 continues the character begun before it. *)
Definition continues (c : ascii) : bool := between 128 191 c.

Fixpoint split_chars (l : list ascii) : list ascii * list string :=
  match l with
  | [] => ([], [])
  | c :: l' =>
      let (pending, found) := split_chars l' in
      if continues c then (c :: pending, found)
      else ([], text (c :: pending) :: found)
  end.

Definition characters (s : string) : list string :=
  let (pending, found) := split_chars (chars s) in
  match pending with
  | [] => found
  | _ => text pending :: found
  end.

(** [needle in hay] on strings. *)
Definition substring_of (needle hay : string) : bool :=
  match String.index 0 needle hay with Some _ => true | None => false end.

(** Decimal rendering padded with zeros to [width] digits ([{n:0wd}]). *)
Definition zpad (width n : nat) : string :=
  let digits := pretty n in
  text (replicate (width - String.length digits) "0"%char) +:+ digits.

(** [datetime.isoformat()]: [YYYY-MM-DDTHH:MM:SS], followed by [.ffffff]
    when the microsecond field is not zero. *)
Definition isoformat (d : datetime) : string :=
  zpad 4 (year d) +:+ "-" +:+ zpad 2 (month d) +:+ "-" +:+ zpad 2 (day d) +:+ "T"
  +:+ zpad 2 (hour d) +:+ ":" +:+ zpad 2 (minute d) +:+ ":" +:+ zpad 2 (second d)
  +:+ (if Nat.eqb (microsecond d) 0 then "" else "." +:+ zpad 6 (microsecond d)).

(** Chronological order of two datetimes. *)
Definition datetime_key (d : datetime) : list nat :=
  [year d; month d; day d; hour d; minute d; second d; microsecond d].

Fixpoint lex_le (a b : list nat) : bool :=
  match a, b with
  | x :: a', y :: b' => (x <? y)%nat || ((x =? y)%nat && lex_le a' b')
  | [], _ => true
  | _ :: _, [] => false
  end.

Definition datetime_le (a b : datetime) : bool :=
  lex_le (datetime_key a) (datetime_key b).

(** Library functions the orchestrator calls and whose text-level behaviour
    is not reproduced here: [json.loads] ([None] is [JSONDecodeError]),
    [datetime.fromisoformat] ([None] is [ValueError]) and [str()] of a value
    that is not a string. *)
Class Builtins := {
  json_loads : string -> option json;
  fromisoformat : string -> option datetime;
  py_repr : pyval -> string
}.

(** ** Exceptions, state and the method monad *)

Inductive exn : Type :=
| KeyError (key : string)
| IndexError (msg : string)
| TypeError (msg : string)
| AttributeError (msg : string)
| ValueError (msg : string)
| JSONDecodeError (msg : string)
| OSError (msg : string)
| ProviderError (msg : string).

(** [str(e)]. *)
Definition str_exn (e : exn) : string :=
  match e with
  | KeyError key => "'" +:+ key +:+ "'"
  | IndexError msg | TypeError msg | AttributeError msg | ValueError msg
  | JSONDecodeError msg | OSError msg | ProviderError msg => msg
  end.

(** [type(v).__name__]. *)
Definition type_name (v : pyval) : string :=
  match v with
  | PNone => "NoneType"
  | PBool _ => "bool"
  | PInt _ => "int"
  | PStr _ => "str"
  | PDatetime _ => "datetime"
  | PObject _ => "object"
  | PList _ => "list"
  | PDict _ => "dict"
  end.

(** A backing file: text that [json.load] reads as an array of objects,
    text on which it raises [JSONDecodeError], or what is left of a file
    that was opened for writing when [json.dump] raised before finishing
    (empty or cut short, so it does not parse either). *)
Inductive file : Type :=
| JsonDoc (tasks : list jobject)
| BadText (raw : string)
| TornWrite.

(** The outcome of one call of the completion client. *)
Inductive reply : Type :=
| Returns (v : pyval)
| Raises (msg : string).

Record state := mk_state {
  active_tasks : list dict;       (* self.active_tasks *)
  task_history : list dict;       (* self.task_history *)
  fs : gmap string file;          (* the files on disk, by path *)
  unwritable : string -> bool;    (* paths that open(..., 'w') refuses *)
  wallclock : nat -> datetime;    (* successive readings of datetime.now() *)
  ticks : nat;                    (* readings taken so far *)
  completions : nat -> reply;     (* successive outcomes of get_completion *)
  calls : nat;                    (* completion calls made so far *)
  log : list (string * string)    (* logger records: level, message *)
}.

Definition set_active (l : list dict) (s : state) : state :=
  mk_state l (task_history s) (fs s) (unwritable s) (wallclock s) (ticks s)
           (completions s) (calls s) (log s).
Definition set_history (l : list dict) (s : state) : state :=
  mk_state (active_tasks s) l (fs s) (unwritable s) (wallclock s) (ticks s)
           (completions s) (calls s) (log s).
Definition set_fs (m : gmap string file) (s : state) : state :=
  mk_state (active_tasks s) (task_history s) m (unwritable s) (wallclock s) (ticks s)
           (completions s) (calls s) (log s).
Definition set_ticks (n : nat) (s : state) : state :=
  mk_state (active_tasks s) (task_history s) (fs s) (unwritable s) (wallclock s) n
           (completions s) (calls s) (log s).
Definition set_calls (n : nat) (s : state) : state :=
  mk_state (active_tasks s) (task_history s) (fs s) (unwritable s) (wallclock s) (ticks s)
           (completions s) n (log s).
Definition set_log (l : list (string * string)) (s : state) : state :=
  mk_state (active_tasks s) (task_history s) (fs s) (unwritable s) (wallclock s) (ticks s)
           (completions s) (calls s) l.

Inductive outcome (A : Type) : Type :=
| Ok (a : A)
| Raise (e : exn).
Arguments Ok {A} a.
Arguments Raise {A} e.

Definition M (A : Type) : Type := state -> outcome A * state.

Definition ret {A : Type} (a : A) : M A := fun s => (Ok a, s).
Definition raise {A : Type} (e : exn) : M A := fun s => (Raise e, s).
Definition bind {A B : Type} (m : M A) (k : A -> M B) : M B :=
  fun s => match m s with
           | (Ok a, s') => k a s'
           | (Raise e, s') => (Raise e, s')
           end.

(** [try: m  except Exception as e: handler e]. *)
Definition try_except {A : Type} (m : M A) (handler : exn -> M A) : M A :=
  fun s => match m s with
           | (Ok a, s') => (Ok a, s')
           | (Raise e, s') => handler e s'
           end.

(** Lifting a pure computation that may raise. *)
Definition lift {A : Type} (o : outcome A) : M A := fun s => (o, s).

Notation "'let*' x ':=' m 'in' k" := (bind m (fun x => k))
  (at level 10, x binder, m at level 100, k at level 200).
Notation "m '>>' k" := (bind m (fun _ => k))
  (at level 100, k at level 200, right associativity).

Definition get_state : M state := fun s => (Ok s, s).
Definition modify (f : state -> state) : M unit := fun s => (Ok tt, f s).

(** ** The environment *)

(** [datetime.now()]. *)
Definition now : M pyval :=
  fun s => (Ok (PDatetime (wallclock s (ticks s))), set_ticks (S (ticks s)) s).

(** [self.logger.<level>(msg)]. *)
Definition logger (level msg : string) : M unit :=
  modify (fun s => set_log (log s ++ [(level, msg)]) s).

(** [self.openai_service.get_completion(prompt)]: the reply is the
    environment's choice; the prompt text is not part of the model. *)
Definition get_completion : M pyval :=
  fun s => let s' := set_calls (S (calls s)) s in
           match completions s (calls s) with
           | Returns v => (Ok v, s')
           | Raises msg => (Raise (ProviderError msg), s')
           end.

(** The two backing files live next to each other in the project root;
    paths are given relative to it. *)
Definition history_file : string := "task_history.json".
Definition tasks_file : string := "active_tasks.json".

(** [os.path.exists(path)]. *)
Definition path_exists (path : string) : M bool :=
  fun s => (Ok (bool_decide (is_Some (fs s !! path))), s).

(** [with open(path, 'r') as f: json.load(f)]. *)
Definition json_load_file (path : string) : M (list jobject) :=
  fun s => match fs s !! path with
           | Some (JsonDoc tasks) => (Ok tasks, s)
           | Some (BadText _) | Some TornWrite =>
               (Raise (JSONDecodeError "Expecting value"), s)
           | None => (Raise (OSError "No such file or directory"), s)
           end.

(** [with open(path, 'w') as f: json.dump(data, f, indent=2)].  Opening
    fails before anything is written; a value that is not serializable makes
    [json.dump] raise after the file has been truncated. *)
Definition json_dump_file (path : string) (data : list dict) : M unit :=
  fun s => if unwritable s path
           then (Raise (OSError "Permission denied"), s)
           else match to_jobjects data with
                | Some doc => (Ok tt, set_fs (<[path := JsonDoc doc]> (fs s)) s)
                | None =>
                    (Raise (TypeError "Object is not JSON serializable"),
                     set_fs (<[path := TornWrite]> (fs s)) s)
                end.

(** [os.rename(src, dst)]. *)
Definition os_rename (src dst : string) : M unit :=
  fun s => match fs s !! src with
           | Some f => (Ok tt, set_fs (<[dst := f]> (delete src (fs s))) s)
           | None => (Raise (OSError "No such file or directory"), s)
           end.

(** ** Operations on Python values that may raise *)

Definition and_then {A B : Type} (o : outcome A) (k : A -> outcome B) : outcome B :=
  match o with
  | Ok a => k a
  | Raise e => Raise e
  end.

(** [v.isoformat()]. *)
Definition py_isoformat (v : pyval) : outcome pyval :=
  match v with
  | PDatetime d => Ok (PStr (isoformat d))
  | _ => Raise (AttributeError
                  ("'" +:+ type_name v +:+ "' object has no attribute 'isoformat'"))
  end.

(** [json.dumps(v)], of which only success or failure matters. *)
Definition json_dumps (v : pyval) : outcome unit :=
  match to_json v with
  | Some _ => Ok tt
  | None => Raise (TypeError "Object is not JSON serializable")
  end.

(** [iter(v)]: a dict yields its keys, a string its characters. *)
Definition py_iter (v : pyval) : outcome (list pyval) :=
  match v with
  | PList items => Ok items
  | PDict entries => Ok (map (fun kv => PStr (fst kv)) entries)
  | PStr s => Ok (map PStr (characters s))
  | _ => Raise (TypeError ("'" +:+ type_name v +:+ "' object is not iterable"))
  end.

(** [v[k]] for a string key [k]. *)
Definition py_getitem (v : pyval) (k : string) : outcome pyval :=
  match v with
  | PDict d => match dict_get k d with
               | Some x => Ok x
               | None => Raise (KeyError k)
               end
  | PList _ => Raise (TypeError "list indices must be integers or slices, not str")
  | PStr _ => Raise (TypeError "string indices must be integers, not 'str'")
  | _ => Raise (TypeError ("'" +:+ type_name v +:+ "' object is not subscriptable"))
  end.

(** [v[k] = x] for a string key [k]. *)
Definition py_setitem (v : pyval) (k : string) (x : pyval) : outcome pyval :=
  match v with
  | PDict d => Ok (PDict (dict_set k x d))
  | PList _ => Raise (TypeError "list indices must be integers or slices, not str")
  | _ => Raise (TypeError
                  ("'" +:+ type_name v +:+ "' object does not support item assignment"))
  end.

(** [k in v] for a string [k]. *)
Definition py_contains (v : pyval) (k : string) : outcome bool :=
  match v with
  | PDict d => Ok (dict_has k d)
  | PList items => Ok (py_in (PStr k) items)
  | PStr s => Ok (substring_of k s)
  | _ => Raise (TypeError ("argument of type '" +:+ type_name v +:+ "' is not iterable"))
  end.

(** The position [l[idx]] denotes in a list of length [n]. *)
Definition list_index (idx : pyval) (n : nat) : outcome nat :=
  let at_int (z : Z) : outcome nat :=
    let z' := if (z <? 0)%Z then (z + Z.of_nat n)%Z else z in
    if ((0 <=? z') && (z' <? Z.of_nat n))%Z
    then Ok (Z.to_nat z')
    else Raise (IndexError "list index out of range") in
  match idx with
  | PInt z => at_int z
  | PBool b => at_int (Z.b2z b)
  | _ => Raise (TypeError
                  ("list indices must be integers or slices, not " +:+ type_name idx))
  end.

(** [l.remove(x)] where [x] is the object at position [i] of [l]: the first
    element that is [x] itself or compares equal to it goes. *)
Fixpoint list_remove (i : nat) (x : dict) (l : list dict) : outcome (list dict) :=
  match l with
  | [] => Raise (ValueError "list.remove(x): x not in list")
  | y :: rest =>
      if Nat.eqb i 0 || py_eq (PDict y) (PDict x)
      then Ok rest
      else and_then (list_remove (pred i) x rest) (fun rest' => Ok (y :: rest'))
  end.

(** [context or {}]. *)
Definition context_or_empty (context : option dict) : dict :=
  match context with
  | Some (binding :: rest) => binding :: rest
  | _ => []
  end.

(** A reference to a task object: where it sits in the two lists. *)
Inductive place : Type :=
| InActive (i : nat)
| InHistory (i : nat).

Definition task_at (p : place) (s : state) : dict :=
  match p with
  | InActive i => default ([] : dict) (active_tasks s !! i)
  | InHistory i => default ([] : dict) (task_history s !! i)
  end.

Definition alter_task (f : dict -> dict) (p : place) (s : state) : state :=
  match p with
  | InActive i => set_active (alter f i (active_tasks s)) s
  | InHistory i => set_history (alter f i (task_history s)) s
  end.

(** The step objects mutated by [execute_step] live in the list stored under
    ["steps"]; this puts the mutated step [k] back there.  When the value is
    not a list the loop runs over immutable strings and nothing changes. *)
Definition store_step (p : place) (k : nat) (step : pyval) : M unit :=
  modify (alter_task
            (fun task => match dict_get "steps" task with
                         | Some (PList items) =>
                             dict_set "steps" (PList (<[k := step]> items)) task
                         | _ => task
                         end) p).

(** The result records handed back by step execution. *)
Definition result_error (msg : string) : dict :=
  [("status", PStr "error"); ("error", PStr msg)].
Definition result_success (response : pyval) : dict :=
  [("status", PStr "success"); ("result", response)].

(** ** The service *)

Section Service.
Context `{Builtins}.

(** [datetime.fromisoformat(v)]. *)
Definition py_fromisoformat (v : pyval) : outcome pyval :=
  match v with
  | PStr s => match fromisoformat s with
              | Some d => Ok (PDatetime d)
              | None => Raise (ValueError ("Invalid isoformat string: '" +:+ s +:+ "'"))
              end
  | _ => Raise (TypeError "fromisoformat: argument must be str")
  end.

(** [str(v)]. *)
Definition str_of (v : pyval) : string :=
  match v with
  | PStr s => s
  | _ => py_repr v
  end.

(** *** Loading and saving the two collections *)

(** [if k in task: task[k] = datetime.fromisoformat(task[k])]. *)
Definition parse_stamp (k : string) (task : dict) : outcome dict :=
  match dict_get k task with
  | None => Ok task
  | Some v => and_then (py_fromisoformat v) (fun v' => Ok (dict_set k v' task))
  end.

Fixpoint parse_stamps (keys : list string) (task : dict) : outcome dict :=
  match keys with
  | [] => Ok task
  | k :: keys' => and_then (parse_stamp k task) (parse_stamps keys')
  end.

(** The [for task in data] loop of the two loaders, over the listed keys. *)
Fixpoint parse_tasks (keys : list string) (data : list dict) : outcome (list dict) :=
  match data with
  | [] => Ok []
  | task :: rest =>
      and_then (parse_stamps keys task) (fun task' =>
      and_then (parse_tasks keys rest) (fun rest' => Ok (task' :: rest')))
  end.

Definition _load_task_history : M unit :=
  try_except
    (logger "INFO" ("Looking for task history file at: " +:+ history_file) >>
     let* found := path_exists history_file in
     if found : bool then
       let* doc := json_load_file history_file in
       let* history_data :=
         lift (parse_tasks ["created_at"; "completed_at"; "updated_at"]
                           (map of_jobject doc)) in
       modify (set_history history_data) >>
       logger "INFO" ("Loaded " +:+ pretty (length history_data) +:+ " tasks from history")
     else
       logger "INFO" "No task history file found, creating new file" >>
       modify (set_history []) >>
       json_dump_file history_file [])
    (fun e =>
       logger "ERROR" ("Error loading task history: " +:+ str_exn e) >>
       modify (set_history [])).

(** [if k in d: d[k] = d[k].isoformat()] on a task copy. *)
Definition iso_key (k : string) (d : dict) : outcome dict :=
  match dict_get k d with
  | None => Ok d
  | Some v => and_then (py_isoformat v) (fun v' => Ok (dict_set k v' d))
  end.

(** The rows [_save_task_history] dumps: shallow copies with the three
    task-level timestamps rendered; the steps are left as they are. *)
Fixpoint history_rows (tasks : list dict) : outcome (list dict) :=
  match tasks with
  | [] => Ok []
  | task :: rest =>
      and_then (iso_key "created_at" task) (fun c1 =>
      and_then (iso_key "completed_at" c1) (fun c2 =>
      and_then (iso_key "updated_at" c2) (fun c3 =>
      and_then (history_rows rest) (fun rows => Ok (c3 :: rows)))))
  end.

Definition _save_task_history : M unit :=
  try_except
    (logger "INFO" ("Saving task history to: " +:+ history_file) >>
     let* s := get_state in
     let* history_data := lift (history_rows (task_history s)) in
     json_dump_file history_file history_data >>
     logger "INFO" ("Saved " +:+ pretty (length (task_history s)) +:+ " tasks to history"))
    (fun e => logger "ERROR" ("Error saving task history: " +:+ str_exn e)).

Definition is_json_decode_error (e : exn) : bool :=
  match e with
  | JSONDecodeError _ => true
  | _ => false
  end.

(** [try: m  except json.JSONDecodeError: handler]. *)
Definition try_except_json {A : Type} (m : M A) (handler : M A) : M A :=
  fun s => match m s with
           | (Ok a, s') => (Ok a, s')
           | (Raise e, s') =>
               if is_json_decode_error e then handler s' else (Raise e, s')
           end.

Definition _load_active_tasks : M unit :=
  try_except
    (logger "INFO" ("Looking for active tasks file at: " +:+ tasks_file) >>
     let* found := path_exists tasks_file in
     if found : bool then
       try_except_json
         (let* doc := json_load_file tasks_file in
          let* tasks_data :=
            lift (parse_tasks ["created_at"; "updated_at"] (map of_jobject doc)) in
          modify (set_active tasks_data) >>
          logger "INFO" ("Loaded " +:+ pretty (length tasks_data) +:+ " active tasks"))
         (logger "WARNING" "Active tasks file is corrupted, creating new file" >>
          modify (set_active []) >>
          let backup_file := tasks_file +:+ ".bak" in
          let* still_there := path_exists tasks_file in
          (if still_there : bool then os_rename tasks_file backup_file else ret tt) >>
          json_dump_file tasks_file [])
     else
       logger "INFO" "No active tasks file found, creating new file" >>
       modify (set_active []) >>
       json_dump_file tasks_file [])
    (fun e =>
       logger "ERROR" ("Error loading active tasks: " +:+ str_exn e) >>
       modify (set_active [])).

(** One turn of the inner loop of [_save_active_tasks] for one key:
    [if k in step: step[k] = step[k].isoformat()].  The step is the object
    stored in the task, so the assignment is seen by the task in memory. *)
Definition iso_step_key (k : string) (step : pyval) : outcome pyval :=
  match step with
  | PDict d => and_then (iso_key k d) (fun d' => Ok (PDict d'))
  | _ => and_then (py_contains step k) (fun present =>
         if present : bool
         then and_then (py_getitem step k) (fun v =>
              and_then (py_isoformat v) (fun v' => py_setitem step k v'))
         else Ok step)
  end.

(** [for step in task_copy['steps']]: the steps as the loop leaves them, and
    the exception that stopped it, if any. *)
Fixpoint iso_steps (steps : list pyval) : list pyval * option exn :=
  match steps with
  | [] => ([], None)
  | step :: rest =>
      match iso_step_key "created_at" step with
      | Raise e => (step :: rest, Some e)
      | Ok step1 =>
          match iso_step_key "updated_at" step1 with
          | Raise e => (step1 :: rest, Some e)
          | Ok step2 => let (rest', r) := iso_steps rest in (step2 :: rest', r)
          end
      end
  end.

Definition iso_steps_value (v : pyval) : pyval * option exn :=
  match py_iter v with
  | Raise e => (v, Some e)
  | Ok items =>
      let (items', r) := iso_steps items in
      (match v with PList _ => PList items' | _ => v end, r)
  end.

(** The body of [for task in self.active_tasks] in [_save_active_tasks]: the
    task as it is in memory afterwards, and the row to dump or the exception
    raised.  [task.copy()] is shallow: the task-level timestamps change in
    the copy only, the step timestamps in the shared step objects. *)
Definition active_row (task : dict) : dict * outcome dict :=
  match iso_key "created_at" task with
  | Raise e => (task, Raise e)
  | Ok c1 =>
      match iso_key "updated_at" c1 with
      | Raise e => (task, Raise e)
      | Ok c2 =>
          match dict_get "steps" c2 with
          | None => (task, Ok c2)
          | Some v =>
              let (v', r) := iso_steps_value v in
              (dict_set "steps" v' task,
               match r with
               | Some e => Raise e
               | None => Ok (dict_set "steps" v' c2)
               end)
          end
      end
  end.

Fixpoint active_rows (tasks : list dict) : list dict * outcome (list dict) :=
  match tasks with
  | [] => ([], Ok [])
  | task :: rest =>
      match active_row task with
      | (task', Raise e) => (task' :: rest, Raise e)
      | (task', Ok row) =>
          let (rest', r) := active_rows rest in
          (task' :: rest', and_then r (fun rows => Ok (row :: rows)))
      end
  end.

Definition _save_active_tasks : M unit :=
  try_except
    (logger "INFO" ("Saving active tasks to: " +:+ tasks_file) >>
     let* s := get_state in
     let (tasks', rows) := active_rows (active_tasks s) in
     modify (set_active tasks') >>
     let* tasks_data := lift rows in
     json_dump_file tasks_file tasks_data >>
     logger "INFO" ("Saved " +:+ pretty (length tasks') +:+ " active tasks"))
    (fun e =>
       logger "ERROR" ("Error saving active tasks: " +:+ str_exn e) >>
       raise e).

(** [AgentService.__init__], storage part. *)
Definition init : M unit :=
  modify (set_active []) >>
  modify (set_history []) >>
  _load_task_history >>
  _load_active_tasks.

(** *** Planning and creating tasks *)

(** [response.strip()]: a method of [str] only. *)
Definition py_strip (v : pyval) : outcome string :=
  match v with
  | PStr s => Ok (strip s)
  | _ => Raise (AttributeError
                  ("'" +:+ type_name v +:+ "' object has no attribute 'strip'"))
  end.

(** The body of [for i, step in enumerate(steps, 1)]. *)
Definition stamp_step (i : nat) (step : pyval) : M pyval :=
  let* step1 := lift (py_setitem step "id" (PStr ("step_" +:+ pretty i))) in
  let* step2 := lift (py_setitem step1 "status" (PStr "pending")) in
  let* created := now in
  let* step3 := lift (py_setitem step2 "created_at" created) in
  let* updated := now in
  lift (py_setitem step3 "updated_at" updated).

Fixpoint stamp_steps (i : nat) (steps : list pyval) : M (list pyval) :=
  match steps with
  | [] => ret []
  | step :: rest =>
      let* step' := stamp_step i step in
      let* rest' := stamp_steps (S i) rest in
      ret (step' :: rest')
  end.

(** The cleaning of the model's answer before it is parsed. *)
Definition clean_response (response : string) : string :=
  let response :=
    if startswith "```json" response then drop_prefix 7 response else response in
  let response :=
    if endswith "```" response then drop_suffix 3 response else response in
  strip response.

Definition _plan_task_steps (description : string) (context : option dict) : M pyval :=
  try_except
    (let* _ := lift (json_dumps (PDict (context_or_empty context))) in
     let* response := get_completion in
     let* response := lift (py_strip response) in
     let response := clean_response response in
     let* steps :=
       match json_loads response with
       | Some j => ret (of_json j)
       | None =>
           logger "ERROR" ("Failed to parse steps from response: " +:+ response) >>
           ret (PList [])
       end in
     let* items := lift (py_iter steps) in
     let* items' := stamp_steps 1 items in
     ret (match steps with PList _ => PList items' | _ => steps end))
    (fun e =>
       logger "ERROR" ("Error planning task steps: " +:+ str_exn e) >>
       ret (PList [])).

Definition task_name (n : nat) : string := "task_" +:+ pretty n.

(** The task record [create_task] builds. *)
Definition new_task (task_id description : string) (context : option dict)
    (steps created updated : pyval) : dict :=
  [("task_id", PStr task_id);
   ("description", PStr description);
   ("context", PDict (context_or_empty context));
   ("status", PStr "pending");
   ("steps", steps);
   ("created_at", created);
   ("updated_at", updated)].

Definition create_task (description : string) (context : option dict) : M dict :=
  try_except
    (let* s := get_state in
     let task_id := task_name (length (active_tasks s) + length (task_history s) + 1) in
     let* steps := _plan_task_steps description context in
     let* created := now in
     let* updated := now in
     let task := new_task task_id description context steps created updated in
     modify (fun s => set_active (active_tasks s ++ [task]) s) >>
     _save_active_tasks >>
     logger "INFO" ("Created new task: " +:+ task_id) >>
     (* the object returned is the one appended, as the save left it *)
     let* s := get_state in
     ret (default task (last (active_tasks s))))
    (fun e =>
       logger "ERROR" ("Error creating task: " +:+ str_exn e) >>
       raise e).

(** *** Looking tasks up, archiving, status updates *)

Definition get_active_tasks : M (list dict) :=
  let* s := get_state in ret (active_tasks s).

(** [for t in tasks: if t["task_id"] == task_id: ...]: the position of the
    first match, counted from [i]. *)
Fixpoint find_task (task_id : string) (i : nat) (tasks : list dict)
  : outcome (option nat) :=
  match tasks with
  | [] => Ok None
  | t :: rest =>
      and_then (py_getitem (PDict t) "task_id") (fun v =>
      if py_eq v (PStr task_id) then Ok (Some i) else find_task task_id (S i) rest)
  end.

Definition get_task (task_id : string) : M (option place) :=
  let* s := get_state in
  let* in_active := lift (find_task task_id 0 (active_tasks s)) in
  match in_active with
  | Some i => ret (Some (InActive i))
  | None =>
      let* in_history := lift (find_task task_id 0 (task_history s)) in
      match in_history with
      | Some i => ret (Some (InHistory i))
      | None => ret None
      end
  end.

Definition get_task_history : M (list dict) :=
  let* s := get_state in
  logger "INFO" ("Retrieved " +:+ pretty (length (task_history s)) +:+ " tasks from history") >>
  ret (task_history s).

Definition archive_task (task_id : string) : M unit :=
  try_except
    (let* s := get_state in
     let* found := lift (find_task task_id 0 (active_tasks s)) in
     match found with
     | Some i =>
         let* completed := now in
         modify (alter_task (dict_set "completed_at" completed) (InActive i)) >>
         let* updated := now in
         modify (alter_task (dict_set "updated_at" updated) (InActive i)) >>
         let* s := get_state in
         let task := task_at (InActive i) s in
         modify (set_history (task_history s ++ [task])) >>
         let* remaining := lift (list_remove i task (active_tasks s)) in
         modify (set_active remaining) >>
         _save_task_history >>
         _save_active_tasks >>
         logger "INFO" ("Archived task: " +:+ task_id)
     | None =>
         logger "WARNING" ("Task not found: " +:+ task_id)
     end)
    (fun e =>
       logger "ERROR" ("Error archiving task: " +:+ str_exn e) >>
       raise e).

(** [self.active_tasks[task_id]] indexes a list with a string; the guard
    [task_id in self.active_tasks] compares the string with the task
    dicts. *)
Definition update_task_status (task_id status : string) : M unit :=
  let* s := get_state in
  if py_in (PStr task_id) (map PDict (active_tasks s)) then
    let* i := lift (list_index (PStr task_id) (length (active_tasks s))) in
    modify (alter_task (dict_set "status" (PStr status)) (InActive i)) >>
    let* updated := now in
    let* s := get_state in
    let* i := lift (list_index (PStr task_id) (length (active_tasks s))) in
    modify (alter_task (dict_set "updated_at" updated) (InActive i))
  else ret tt.

(** The loop of [update_step_status] over the steps of the selected task. *)
Fixpoint mark_step (step_id : pyval) (status : string) (steps : list pyval)
  : M (list pyval) :=
  match steps with
  | [] => ret []
  | step :: rest =>
      let* sid := lift (py_getitem step "id") in
      if py_eq sid step_id then
        let* step1 := lift (py_setitem step "status" (PStr status)) in
        let* updated := now in
        let* step2 := lift (py_setitem step1 "updated_at" updated) in
        ret (step2 :: rest)
      else
        let* rest' := mark_step step_id status rest in
        ret (step :: rest')
  end.

Definition update_step_status (task_id : string) (step_id : pyval) (status : string)
  : M unit :=
  let* s := get_state in
  if py_in (PStr task_id) (map PDict (active_tasks s)) then
    let* i := lift (list_index (PStr task_id) (length (active_tasks s))) in
    let task := task_at (InActive i) s in
    let* steps := lift (py_getitem (PDict task) "steps") in
    let* items := lift (py_iter steps) in
    let* items' := mark_step step_id status items in
    modify (alter_task
              (fun t => match steps with
                        | PList _ => dict_set "steps" (PList items') t
                        | _ => t
                        end) (InActive i))
  else ret tt.

(** *** Executing steps and tasks *)

(** [step.get(...)]: a method of [dict] only. *)
Definition py_as_dict (v : pyval) : outcome dict :=
  match v with
  | PDict d => Ok d
  | _ => Raise (AttributeError
                  ("'" +:+ type_name v +:+ "' object has no attribute 'get'"))
  end.

Definition _execute_analysis_step (step : dict) (context : pyval) : M dict :=
  try_except
    (let* _ := lift (json_dumps context) in
     let* response := get_completion in
     ret (result_success response))
    (fun e =>
       logger "ERROR" ("Error executing analysis step: " +:+ str_exn e) >>
       ret (result_error (str_exn e))).

Definition _execute_action_step (step : dict) (context : pyval) : M dict :=
  try_except
    (let* _ := lift (json_dumps context) in
     let* response := get_completion in
     ret (result_success response))
    (fun e =>
       logger "ERROR" ("Error executing action step: " +:+ str_exn e) >>
       ret (result_error (str_exn e))).

(** Returns the result record together with the step object as the call
    leaves it. *)
Definition execute_step (task_id : string) (step : pyval) : M (dict * pyval) :=
  try_except
    (let* found := get_task task_id in
     match found with
     | None => ret (result_error "Task not found", step)
     | Some p =>
         let* s := get_state in
         let task := task_at p s in
         let* d := lift (py_as_dict step) in
         let step_type := dict_get_default "type" (PStr "unknown") d in
         let* result :=
           if py_eq step_type (PStr "analysis") then
             let* context := lift (py_getitem (PDict task) "context") in
             _execute_analysis_step d context
           else if py_eq step_type (PStr "action") then
             let* context := lift (py_getitem (PDict task) "context") in
             _execute_action_step d context
           else
             ret (result_error ("Unknown step type: " +:+ str_of step_type)) in
         let d1 := dict_set "result" (PDict result) d in
         let d2 := dict_set "status" (dict_get_default "status" (PStr "failed") result) d1 in
         let* updated := now in
         ret (result, PDict (dict_set "updated_at" updated d2))
     end)
    (fun e =>
       logger "ERROR" ("Error executing step: " +:+ str_exn e) >>
       ret (result_error (str_exn e), step)).

(** The [for step in steps] loop of [execute_task], from step number [k] of
    the task at [p]: [Some result] when a step stopped the loop. *)
Fixpoint run_steps (task_id : string) (p : place) (k : nat) (steps : list pyval)
  : M (option dict) :=
  match steps with
  | [] => ret None
  | step :: rest =>
      let* executed := execute_step task_id step in
      let result := fst executed in
      let step' := snd executed in
      store_step p k step' >>
      if py_eq (dict_get_default "status" PNone result) (PStr "success") then
        let* step_id := lift (py_getitem step' "id") in
        update_step_status task_id step_id "completed" >>
        run_steps task_id p (S k) rest
      else
        let* step_id := lift (py_getitem step' "id") in
        update_step_status task_id step_id "failed" >>
        update_task_status task_id "failed" >>
        ret (Some result)
  end.

Definition execute_task (task_id : string) : M dict :=
  try_except
    (let* found := get_task task_id in
     match found with
     | None => ret (result_error "Task not found")
     | Some p =>
         update_task_status task_id "running" >>
         let* s := get_state in
         let* steps :=
           lift (py_iter (dict_get_default "steps" (PList []) (task_at p s))) in
         let* halted := run_steps task_id p 0 steps in
         match halted with
         | Some result => ret result
         | None =>
             update_task_status task_id "completed" >>
             archive_task task_id >>
             logger "INFO"
               ("Task " +:+ task_id +:+ " completed successfully and archived") >>
             ret [("status", PStr "success");
                  ("task_id", PStr task_id);
                  ("message", PStr "Task completed successfully")]
         end
     end)
    (fun e =>
       logger "ERROR" ("Error executing task: " +:+ str_exn e) >>
       update_task_status task_id "failed" >>
       ret (result_error (str_exn e))).

End Service.

(** ** Further methods of the service: status lookup and log analysis *)

Section Analysis.
Context `{Builtins}.

(** [async get_task_status]: the same membership test as the status
    updates, negated. *)
Definition get_task_status (task_id : string) : M dict :=
  let* s := get_state in
  if negb (py_in (PStr task_id) (map PDict (active_tasks s))) then
    raise (ValueError ("Task " +:+ task_id +:+ " not found"))
  else
    let* i := lift (list_index (PStr task_id) (length (active_tasks s))) in
    ret (task_at (InActive i) s).

(** [json.loads(v)]: [TypeError] unless [v] is a string. *)
Definition py_json_loads (v : pyval) : outcome pyval :=
  match v with
  | PStr s => match json_loads s with
              | Some j => Ok (of_json j)
              | None => Raise (JSONDecodeError "Expecting value")
              end
  | _ => Raise (TypeError
                  ("the JSON object must be str, bytes or bytearray, not "
                   +:+ type_name v))
  end.

(** [async _execute_step]: the prompt reads four keys of the step and dumps
    its parameters and the context; nothing here is caught except a
    response that does not parse. *)
Definition _execute_step (step : dict) (context : dict) : M pyval :=
  let* _ := lift (py_getitem (PDict step) "name") in
  let* _ := lift (py_getitem (PDict step) "description") in
  let* _ := lift (py_getitem (PDict step) "action") in
  let* parameters := lift (py_getitem (PDict step) "parameters") in
  let* _ := lift (json_dumps parameters) in
  let* _ := lift (json_dumps (PDict context)) in
  let* response := get_completion in
  try_except_json
    (lift (py_json_loads response))
    (ret (PDict [("error", PStr "Failed to parse result");
                 ("raw_response", response)])).

(** One element of [log_data] in [analyze_logs] and [detect_anomalies]. *)
Definition log_record (log : dict) : dict :=
  [("timestamp", match dict_get "timestamp" log with
                 | Some (PDatetime d) => PStr (isoformat d)
                 | Some v => v
                 | None => PStr EmptyString
                 end);
   ("level", dict_get_default "level" (PStr EmptyString) log);
   ("message", dict_get_default "message" (PStr EmptyString) log);
   ("component", dict_get_default "component" (PStr EmptyString) log);
   ("server", dict_get_default "server" (PStr EmptyString) log);
   ("duration_ms", dict_get_default "duration_ms" (PInt 0) log);
   ("status_code", dict_get_default "status_code" (PInt 0) log)].

(** What can raise while the prompt of the two methods is formatted: the
    time range reads [logs[0]['timestamp']] and [logs[-1]['timestamp']],
    then [log_data] is dumped. *)
Definition log_prompt (logs : list dict) : outcome unit :=
  match logs with
  | [] => Raise (IndexError "list index out of range")
  | first :: _ =>
      and_then (py_getitem (PDict first) "timestamp") (fun _ =>
      and_then (py_getitem (PDict (List.last logs first)) "timestamp") (fun _ =>
      json_dumps (PList (map (fun log => PDict (log_record log)) logs))))
  end.

(** [datetime.now().isoformat()]. *)
Definition now_iso : M pyval :=
  let* t := now in lift (py_isoformat t).

Definition analyze_logs (prompt : string) (logs : list dict) : M pyval :=
  try_except
    (let* _ := lift (log_prompt logs) in
     let* response := get_completion in
     try_except_json
       (let* analysis := lift (py_json_loads response) in
        let* stamp := now_iso in
        lift (py_setitem analysis "timestamp" stamp))
       (let* stamp := now_iso in
        ret (PDict [("summary", response);
                    ("key_events", PList []);
                    ("issues", PList []);
                    ("recommendations", PList []);
                    ("timestamp", stamp)])))
    (fun e =>
       logger "ERROR" ("Error analyzing logs: " +:+ str_exn e) >>
       let* stamp := now_iso in
       ret (PDict [("error", PStr (str_exn e)); ("timestamp", stamp)])).

(** [for anomaly in anomalies: if 'timestamp' not in anomaly: ...]. *)
Fixpoint stamp_anomalies (anomalies : list pyval) : M (list pyval) :=
  match anomalies with
  | [] => ret []
  | anomaly :: rest =>
      let* present := lift (py_contains anomaly "timestamp") in
      let* anomaly' :=
        if present : bool then ret anomaly
        else let* stamp := now_iso in
             lift (py_setitem anomaly "timestamp" stamp) in
      let* rest' := stamp_anomalies rest in
      ret (anomaly' :: rest')
  end.

(** The single anomaly both failure paths of [detect_anomalies] return. *)
Definition error_anomaly (description advice : string) (stamp : pyval) : pyval :=
  PList [PDict [("type", PStr "error");
                ("description", PStr description);
                ("severity", PStr "high");
                ("affected_components", PList [PStr "system"]);
                ("recommendations", PList [PStr advice]);
                ("timestamp", stamp)]].

Definition detect_anomalies (prompt : string) (logs : list dict) : M pyval :=
  try_except
    (let* _ := lift (log_prompt logs) in
     let* response := get_completion in
     try_except_json
       (let* anomalies := lift (py_json_loads response) in
        let* items := lift (py_iter anomalies) in
        let* items' := stamp_anomalies items in
        ret (match anomalies with PList _ => PList items' | _ => anomalies end))
       (let* stamp := now_iso in
        ret (error_anomaly ("Error parsing AI response: " +:+ str_of response)
                           "Check AI service configuration" stamp)))
    (fun e =>
       logger "ERROR" ("Error in anomaly detection: " +:+ str_exn e) >>
       let* stamp := now_iso in
       ret (error_anomaly ("Error in anomaly detection: " +:+ str_exn e)
                          "Check system logs for more details" stamp)).

End Analysis.

(** ** A concrete environment for the examples *)

Module Demo.

(** The double quote character. *)
Definition dq : string := String (ascii_of_nat 34) EmptyString.

(** A plan of three typed steps, as the model writes it and as [json.loads]
    reads it. *)
Definition step_text (description kind : string) : string :=
  "{" +:+ dq +:+ "description" +:+ dq +:+ ": " +:+ dq +:+ description +:+ dq +:+ ", "
  +:+ dq +:+ "type" +:+ dq +:+ ": " +:+ dq +:+ kind +:+ dq +:+ "}".

Definition step_doc (description kind : string) : json :=
  JObj [("description", JStr description); ("type", JStr kind)].

Definition plan3_text : string :=
  "[" +:+ step_text "collect the logs" "analysis" +:+ ", "
  +:+ step_text "rotate the logs" "action" +:+ ", "
  +:+ step_text "report" "analysis" +:+ "]".

Definition plan3_doc : json :=
  JArr [step_doc "collect the logs" "analysis";
        step_doc "rotate the logs" "action";
        step_doc "report" "analysis"].

Definition plan2_text : string :=
  "[" +:+ step_text "collect the logs" "analysis" +:+ ", "
  +:+ step_text "rotate the logs" "action" +:+ "]".

Definition plan2_doc : json :=
  JArr [step_doc "collect the logs" "analysis";
        step_doc "rotate the logs" "action"].

Definition plan1_text : string := "[" +:+ step_text "report" "analysis" +:+ "]".
Definition plan1_doc : json := JArr [step_doc "report" "analysis"].

(** An answer that is not JSON. *)
Definition chatter : string := "Sorry, I cannot plan this task.".

(** [json.loads] on the texts used below; every other text is taken not to
    parse, which is what Python does with [chatter]. *)
Definition demo_json_loads (s : string) : option json :=
  if String.eqb s plan3_text then Some plan3_doc
  else if String.eqb s plan2_text then Some plan2_doc
  else if String.eqb s plan1_text then Some plan1_doc
  else if String.eqb s "[]" then Some (JArr [])
  else None.

Definition digit_value (c : ascii) : option nat :=
  let n := nat_of_ascii c in
  if ((48 <=? n) && (n <=? 57))%nat then Some (n - 48) else None.

Fixpoint number (acc : nat) (l : list ascii) : option nat :=
  match l with
  | [] => Some acc
  | c :: l' => match digit_value c with
               | Some d => number (10 * acc + d) l'
               | None => None
               end
  end.

(** [datetime.fromisoformat] on the two layouts [isoformat] writes. *)
Definition demo_fromisoformat (s : string) : option datetime :=
  let l := chars s in
  let field (from len : nat) := number 0 (take len (drop from l)) in
  let sep (at_ : nat) (c : ascii) := bool_decide (l !! at_ = Some c) in
  if sep 4 "-"%char && sep 7 "-"%char && sep 10 "T"%char
     && sep 13 ":"%char && sep 16 ":"%char
  then
    match field 0 4, field 5 2, field 8 2, field 11 2, field 14 2, field 17 2 with
    | Some y, Some mo, Some d, Some h, Some mi, Some se =>
        if Nat.eqb (length l) 19 then Some (mk_datetime y mo d h mi se 0)
        else if Nat.eqb (length l) 26 && sep 19 "."%char then
          match field 20 6 with
          | Some us => Some (mk_datetime y mo d h mi se us)
          | None => None
          end
        else None
    | _, _, _, _, _, _ => None
    end
  else None.

(** [str()] of the values that are not strings, as far as the examples go. *)
Definition demo_repr (v : pyval) : string :=
  match v with
  | PNone => "None"
  | PBool true => "True"
  | PBool false => "False"
  | PInt z => pretty z
  | _ => "<object>"
  end.

#[export] Instance demo_builtins : Builtins := {
  json_loads := demo_json_loads;
  fromisoformat := demo_fromisoformat;
  py_repr := demo_repr
}.

(** Successive readings of the clock: one microsecond apart. *)
Definition demo_clock (n : nat) : datetime := mk_datetime 2024 3 1 12 0 0 n.

(** A service object before [__init__] has run, on a disk [disk]. *)
Definition blank (disk : gmap string file) (locked : string -> bool)
                 (replies : nat -> reply) : state :=
  mk_state [] [] disk locked demo_clock 0 replies 0 [].

Definition nothing_locked (path : string) : bool := false.

(** The state a method leaves and the value it returns. *)
Definition after {A : Type} (m : M A) (s : state) : state := snd (m s).
Definition value {A : Type} (m : M A) (s : state) : outcome A := fst (m s).

End Demo.

(** ** Vocabulary of the properties *)

(** [m] takes every state to one related to it by [R], however it ends. *)
Definition preserves (R : relation state) {A : Type} (m : M A) : Prop :=
  forall s, R s (snd (m s)).

(** Two states agree on a component. *)
Definition same_on {X : Type} (proj : state -> X) : relation state :=
  fun s s' => proj s' = proj s.

(** The [task_id] entries of a collection, in order. *)
Definition ids (tasks : list dict) : list (option pyval) :=
  map (dict_get "task_id") tasks.

Definition all_ids (s : state) : list (option pyval) :=
  ids (active_tasks s ++ task_history s).

Definition collection_ids (s : state) : list (option pyval) * list (option pyval) :=
  (ids (active_tasks s), ids (task_history s)).

(** No task of the collection carries the id: each has a [task_id] entry
    and it differs. *)
Definition absent (task_id : string) (tasks : list dict) : Prop :=
  Forall (fun t => exists v, dict_get "task_id" t = Some v /\
                             py_eq v (PStr task_id) = false) tasks.

(** Every task has a string id and no two tasks share one. *)
Definition unique_ids (tasks : list dict) : Prop :=
  exists names : list string,
    ids tasks = map (fun n => Some (PStr n)) names /\ NoDup names.

(** At most one task of the collection carries the id: when one does,
    every other task has an id and it differs. *)
Definition carried_once (task_id : string) (tasks : list dict) : Prop :=
  forall i t, tasks !! i = Some t ->
              dict_get "task_id" t = Some (PStr task_id) ->
              absent task_id (delete i tasks).

(** The state after the warning [archive_task] logs for an id it does not
    find: nothing but the log differs. *)
Definition warned (task_id : string) (s : state) : state :=
  set_log (log s ++ [("WARNING", "Task not found: " +:+ task_id)]) s.

(** The ids [task_1] ... [task_n]. *)
Definition names_up_to (n : nat) : list (option pyval) :=
  map (fun k => Some (PStr (task_name k))) (seq 1 n).

(** The ids in use are exactly the first ones, one for each task. *)
Definition counted (s : state) : Prop :=
  all_ids s ≡ₚ names_up_to (length (all_ids s)).

(** The operations of the orchestrator, run one at a time, and the states
    they lead to from a service whose tasks are numbered without gaps (a
    service with no tasks in particular). *)
Inductive operation : Type :=
| Create (description : string) (context : option dict)
| Execute (task_id : string)
| Archive (task_id : string).

Definition perform `{Builtins} (o : operation) (s : state) : state :=
  match o with
  | Create description context => snd (create_task description context s)
  | Execute task_id => snd (execute_task task_id s)
  | Archive task_id => snd (archive_task task_id s)
  end.

Inductive reachable `{Builtins} : state -> Prop :=
| reach_start (s : state) : counted s -> reachable s
| reach_step (s : state) (o : operation) :
    reachable s -> reachable (perform o s).

(** The second state holds the same ids as the first, possibly in other
    places. *)
Definition ids_moved : relation state :=
  fun s s' => all_ids s' ≡ₚ all_ids s.

(** The active collection can be written out: the file accepts writes,
    every timestamp the save renders is still a datetime, and every value
    is serializable. *)
Definition saveable `{Builtins} (s : state) : Prop :=
  unwritable s tasks_file = false /\
  exists rows docs, snd (active_rows (active_tasks s)) = Ok rows /\
                    to_jobjects rows = Some docs.

(** Reading a task record. *)
Definition steps_of (task : dict) : list pyval :=
  match dict_get "steps" task with
  | Some (PList steps) => steps
  | _ => []
  end.

Definition field (k : string) (v : pyval) : option pyval :=
  match v with
  | PDict d => dict_get k d
  | _ => None
  end.

(** The status and the result of each step of a task, in order. *)
Definition step_statuses (task : dict) : list (option pyval) :=
  map (field "status") (steps_of task).



(** Whatever [m] returns satisfies [Q]. *)
Definition ensures {A : Type} (Q : A -> Prop) (m : M A) : Prop :=
  forall s a s', m s = (Ok a, s') -> Q a.

(** [m] returns a value from every state: no exception leaves it. *)
Definition returns {A : Type} (m : M A) : Prop :=
  forall s, exists a, fst (m s) = Ok a.

(** The record [execute_task] returns after archiving. *)
Definition success_record (task_id : string) : dict :=
  [("status", PStr "success"); ("task_id", PStr task_id);
   ("message", PStr "Task completed successfully")].

(** A result record of a step: success with the model's answer, or an
    error with its text. *)
Definition step_result (r : dict) : Prop :=
  (exists v, r = result_success v) \/ (exists msg, r = result_error msg).


(** The keys of a step that the prompt of [_execute_step] reads, in the
    order it reads them. *)
Definition prompt_keys : list string :=
  ["name"; "description"; "action"; "parameters"].

(** An anomaly that has a timestamp is returned as it is; one that has none
    gets one as its last entry. *)
Definition stamped (anomaly out : pyval) : Prop :=
  exists d : dict, anomaly = PDict d /\
    ((dict_has "timestamp" d = true /\ out = anomaly) \/
     (dict_has "timestamp" d = false /\
      exists stamp, out = PDict (d ++ [("timestamp", PStr stamp)]))).

(** The step the planner makes of the model's object [d], as number [i],
    with the clock readings [t] and [t + 1]. *)
Definition planned_step (clock : nat -> datetime) (i t : nat) (d : dict) : pyval :=
  PDict (dict_set "updated_at" (PDatetime (clock (S t)))
           (dict_set "created_at" (PDatetime (clock t))
              (dict_set "status" (PStr "pending")
                 (dict_set "id" (PStr ("step_" +:+ pretty i)) d)))).

Fixpoint planned_steps (clock : nat -> datetime) (i t : nat) (ds : list dict)
  : list pyval :=
  match ds with
  | [] => []
  | d :: ds' => planned_step clock i t d :: planned_steps clock (S i) (S (S t)) ds'
  end.

(** White space only: stripping from either side leaves nothing. *)
Definition white (s : string) : Prop :=
  lstrip_chars (chars s) = [] /\ rstrip_rev (rev (chars s)) = [].

(** What [.isoformat()] raises on a timestamp that is already a string. *)
Definition str_isoformat_error : exn :=
  AttributeError "'str' object has no attribute 'isoformat'".

(** The task holds, in the list under [steps], a step dict with a
    [created_at] or an [updated_at] entry. *)
Definition has_stamped_step (task : dict) : Prop :=
  exists (steps : list pyval) (j : nat) (d : dict),
    dict_get "steps" task = Some (PList steps) /\
    steps !! j = Some (PDict d) /\
    (dict_has "created_at" d = true \/ dict_has "updated_at" d = true).

(** Saving a task once more: the save goes through and leaves the task as it
    is, or it stops at a string timestamp and leaves the task as it is. *)
Definition resaves (task : dict) : Prop :=
  (exists row, active_row task = (task, Ok row)) \/
  active_row task = (task, Raise str_isoformat_error).

(** The two ways a step that went through one save meets the next one. *)
Definition step_passes (e : pyval) : Prop :=
  iso_step_key "created_at" e = Ok e /\ iso_step_key "updated_at" e = Ok e.

Definition step_stops (e : pyval) : Prop :=
  iso_step_key "created_at" e = Raise str_isoformat_error \/
  (iso_step_key "created_at" e = Ok e /\
   iso_step_key "updated_at" e = Raise str_isoformat_error).

(** Applying [f] to the value of the first binding of [k], if there is
    one. *)
Fixpoint alter_key {V : Type} (f : V -> V) (k : string) (d : list (string * V))
  : list (string * V) :=
  match d with
  | [] => []
  | (k', v) :: rest =>
      if String.eqb k k' then (k', f v) :: rest else (k', v) :: alter_key f k rest
  end.

(** A timestamp as the saves write it and as the loaders read it back. *)
Definition rendered (v : pyval) : pyval :=
  match v with
  | PDatetime t => PStr (isoformat t)
  | _ => v
  end.

Definition reread `{Builtins} (v : pyval) : pyval :=
  match v with
  | PStr s => match fromisoformat s with
              | Some t => PDatetime t
              | None => v
              end
  | _ => v
  end.

(** The timestamps of the task under the given keys are read back from
    their ISO text as the datetimes they are. *)
Definition stamps_reread `{Builtins} (keys : list string) (task : dict) : Prop :=
  forall k t, k ∈ keys -> dict_get k task = Some (PDatetime t) ->
              fromisoformat (isoformat t) = Some t.

(** The task has, under one of the keys, a value that
    [datetime.fromisoformat] does not accept. *)
Definition bad_stamp `{Builtins} (keys : list string) (task : dict) : Prop :=
  exists k v e, k ∈ keys /\ dict_get k task = Some v /\
                py_fromisoformat v = Raise e.

(** The history can be written out: the file accepts writes, the task-level
    timestamps are datetimes and every value is serializable. *)
Definition history_saveable `{Builtins} (s : state) : Prop :=
  unwritable s history_file = false /\
  exists rows docs, history_rows (task_history s) = Ok rows /\
                    to_jobjects rows = Some docs.

(** Induction on values that reaches into lists and dicts. *)
Section PyvalInduction.
Variable P : pyval -> Prop.
Hypothesis HNone : P PNone.
Hypothesis HBool : forall b, P (PBool b).
Hypothesis HInt : forall z, P (PInt z).
Hypothesis HStr : forall s, P (PStr s).
Hypothesis HDatetime : forall d, P (PDatetime d).
Hypothesis HObject : forall ident, P (PObject ident).
Hypothesis HList : forall items, Forall P items -> P (PList items).
Hypothesis HDict :
  forall entries, Forall (fun kv => P (snd kv)) entries -> P (PDict entries).

Fixpoint pyval_nested_ind (v : pyval) : P v :=
  match v with
  | PNone => HNone
  | PBool b => HBool b
  | PInt z => HInt z
  | PStr s => HStr s
  | PDatetime d => HDatetime d
  | PObject ident => HObject ident
  | PList items =>
      HList items
        ((fix each (l : list pyval) : Forall P l :=
            match l with
            | [] => List.Forall_nil P
            | x :: l' => List.Forall_cons P x l' (pyval_nested_ind x) (each l')
            end) items)
  | PDict entries =>
      HDict entries
        ((fix each (l : list (string * pyval)) : Forall (fun kv => P (snd kv)) l :=
            match l with
            | [] => List.Forall_nil _
            | (k, x) :: l' =>
                List.Forall_cons (fun kv => P (snd kv)) (k, x) l'
                                 (pyval_nested_ind x) (each l')
            end) entries)
  end.
End PyvalInduction.

(** The task holds, in the list under [steps], a step dict one of whose
    values is a datetime. *)
Definition has_datetime_step (task : dict) : Prop :=
  exists (steps : list pyval) (j : nat) (d : dict) (k : string) (t0 : datetime),
    dict_get "steps" task = Some (PList steps) /\
    steps !! j = Some (PDict d) /\
    dict_get k d = Some (PDatetime t0).

(** ** Scenarios *)

Module Scenario.
Import Demo.

(** A plan of three steps; the first step's call succeeds, the second
    raises. *)
Definition replies_halt (n : nat) : reply :=
  match n with
  | 0 => Returns (PStr plan3_text)
  | 1 => Returns (PStr "fine")
  | 2 => Raises "timeout"
  | _ => Returns (PStr "fine")
  end.

Definition halt0 : state := after init (blank ∅ nothing_locked replies_halt).
Definition halt1 : state := after (create_task "Rotate the logs" None) halt0.
Definition halt2 : state := after (execute_task "task_1") halt1.


(** A plan of two steps whose calls both succeed. *)
Definition replies_fine (n : nat) : reply :=
  match n with
  | 0 => Returns (PStr plan2_text)
  | _ => Returns (PStr "fine")
  end.

Definition fine0 : state := after init (blank ∅ nothing_locked replies_fine).
Definition fine1 : state := after (create_task "Rotate the logs" None) fine0.
Definition fine2 : state := after (execute_task "task_1") fine1.

(** A first task with one step, then an answer that is not JSON. *)
Definition replies_chatter (n : nat) : reply :=
  match n with
  | 0 => Returns (PStr plan1_text)
  | _ => Returns (PStr chatter)
  end.

Definition chat0 : state := after init (blank ∅ nothing_locked replies_chatter).
Definition chat1 : state := after (create_task "Send the report" None) chat0.

(** An answer that is not JSON, on a fresh service. *)
Definition replies_only_chatter (n : nat) : reply := Returns (PStr chatter).

Definition mute0 : state := after init (blank ∅ nothing_locked replies_only_chatter).

(** The same service with a first task in place, and after two tasks were
    created and the first one archived. *)
Definition mute1 : state := perform (Create "First task" None) mute0.

Definition busy : state :=
  perform (Archive "task_1")
    (perform (Create "Rotate the logs" None)
       (perform (Create "Collect the logs" None) mute0)).

Definition pair : state :=
  perform (Create "Rotate the logs" None)
    (perform (Create "Collect the logs" None) mute0).

(** A run of the service and a second start on the files it left.  Two
    tasks without steps are created and the first is archived; a third task
    with one step is created and executed.  The service is then started
    again, and a task is created. *)
Definition replies_restart (n : nat) : reply :=
  match n with
  | 0 => Returns (PStr chatter)
  | 1 => Returns (PStr chatter)
  | 2 => Returns (PStr plan1_text)
  | _ => Returns (PStr "fine")
  end.

Definition first_run : state :=
  perform (Execute "task_3")
    (perform (Create "Send the report" None)
       (perform (Archive "task_1")
          (perform (Create "Rotate the logs" None)
             (perform (Create "Collect the logs" None)
                (after init (blank ∅ nothing_locked replies_restart)))))).

Definition restarted : state :=
  after init
    (set_ticks (ticks first_run)
       (blank (fs first_run) nothing_locked replies_only_chatter)).

Definition restarted1 : state :=
  after (create_task "File the report" None) restarted.

(** The same, with an active-tasks file that cannot be written. *)
Definition tasks_locked (path : string) : bool := String.eqb path tasks_file.

Definition locked0 : state :=
  mk_state [] [] ∅ tasks_locked demo_clock 0 replies_only_chatter 0 [].

(** Both backing files hold text that is not JSON. *)
Definition garbage : file := BadText "{not json".

Definition corrupt_disk : gmap string file :=
  <[history_file := garbage]> (<[tasks_file := garbage]> ∅).

Definition corrupt0 : state := blank corrupt_disk nothing_locked replies_fine.
Definition corrupt1 : state := after init corrupt0.

(** One task with one step, timestamps as the planner and [create_task]
    set them. *)
Definition sample_step : pyval :=
  PDict [("description", PStr "report"); ("type", PStr "analysis");
         ("id", PStr "step_1"); ("status", PStr "pending");
         ("created_at", PDatetime (demo_clock 0));
         ("updated_at", PDatetime (demo_clock 1))].

Definition sample_task : dict :=
  new_task "task_1" "Send the report" None (PList [sample_step])
           (PDatetime (demo_clock 2)) (PDatetime (demo_clock 3)).

(** A service holding that task in both collections, on a disk that
    refuses every write. *)
Definition all_locked (path : string) : bool := true.

Definition readonly0 : state :=
  mk_state [sample_task] [sample_task] ∅ all_locked demo_clock 4 replies_fine 0 [].

(** Saving the task as the active collection and loading it back in a new
    service; the same for the history. *)
Definition trip0 : state :=
  mk_state [sample_task] [] ∅ nothing_locked demo_clock 4 replies_fine 0 [].
Definition trip1 : state := after _save_active_tasks trip0.
Definition trip2 : state :=
  after _load_active_tasks (blank (fs trip1) nothing_locked replies_fine).

Definition past0 : state :=
  mk_state [] [sample_task] ∅ nothing_locked demo_clock 4 replies_fine 0 [].
Definition past1 : state := after _save_task_history past0.
Definition past2 : state :=
  after _load_task_history (blank (fs past1) nothing_locked replies_fine).

End Scenario.

(** Inputs for the analysis methods and the step executor. *)
Module Examples.
Import Demo Scenario.

(** A step that lacks the [action] and [parameters] the prompt reads. *)
Definition bare_step : dict :=
  [("name", PStr "rotate"); ("description", PStr "rotate the logs")].

Definition full_step : dict :=
  [("name", PStr "rotate"); ("description", PStr "rotate the logs");
   ("action", PStr "logrotate"); ("parameters", PDict [("path", PStr "/var/log")])].

(** A step whose type is neither [analysis] nor [action]. *)
Definition odd_step : dict :=
  [("description", PStr "ask for a review"); ("type", PStr "review")].

Definition one_log : dict :=
  [("timestamp", PDatetime (demo_clock 0)); ("level", PStr "ERROR");
   ("message", PStr "disk full")].

(** A new service whose next completion call raises. *)
Definition failing0 : state := set_calls 2 halt0.

(** An analysis step as the planner's model describes it. *)
Definition typed_step : dict :=
  [("description", PStr "collect the logs"); ("type", PStr "analysis")].

(** An active-tasks file whose only task has a [created_at] that is not an
    ISO timestamp. *)
Definition stale_doc : jobject :=
  [("task_id", JStr "task_1"); ("created_at", JStr "yesterday")].

Definition stale0 : state :=
  blank (<[tasks_file := JsonDoc [stale_doc]]> ∅) nothing_locked replies_fine.

(** U+00A0, the no-break space. *)
Definition nbsp : string :=
  String (ascii_of_nat 194) (String (ascii_of_nat 160) EmptyString).

(** A service whose history holds one task without steps. *)
Definition plain_task : dict :=
  new_task "task_1" "Send the report" None (PList [])
           (PDatetime (demo_clock 2)) (PDatetime (demo_clock 3)).

Definition plain0 : state :=
  mk_state [] [plain_task] ∅ nothing_locked demo_clock 4 replies_fine 0 [].

End Examples.

(** * Properties *)

(** ** Status updates *)

Lemma py_in_str_dicts (task_id : string) (tasks : list dict) :
  py_in (PStr task_id) (map PDict tasks) = false.
Proof.
  unfold py_in. induction tasks as [|t tasks IH]; simpl; auto.
Qed.

Lemma update_task_status_skips (task_id status : string) (s : state) :
  update_task_status task_id status s = (Ok tt, s).
Proof.
  unfold update_task_status, bind, get_state.
  rewrite py_in_str_dicts. reflexivity.
Qed.

Lemma update_step_status_skips (task_id : string) (step_id : pyval)
    (status : string) (s : state) :
  update_step_status task_id step_id status s = (Ok tt, s).
Proof.
  unfold update_step_status, bind, get_state.
  rewrite py_in_str_dicts. reflexivity.
Qed.

(** C4. Whatever the state, the task id, the step id and the status,
    [update_task_status] and [update_step_status] return normally and leave
    the whole state, hence the active collection and every status field in
    it, as it was: their guard looks for the id string among the task dicts
    and never finds it. *)
Theorem update_status_changes_nothing (s : state) (task_id : string)
    (step_id : pyval) (status : string) :
  update_task_status task_id status s = (Ok tt, s) /\
  update_step_status task_id step_id status s = (Ok tt, s).
Proof.
  split.
  - apply update_task_status_skips.
  - apply update_step_status_skips.
Qed.

(** ** Framing: what a method leaves alone *)

Section Frame.
Context (R : relation state) `{!PreOrder R}.

Lemma preserves_ret {A : Type} (a : A) : preserves R (ret a).
Proof. intros s. reflexivity. Qed.

Lemma preserves_raise {A : Type} (e : exn) : preserves R (@raise A e).
Proof. intros s. reflexivity. Qed.

Lemma preserves_lift {A : Type} (o : outcome A) : preserves R (lift o).
Proof. intros s. reflexivity. Qed.

Lemma preserves_get_state : preserves R get_state.
Proof. intros s. reflexivity. Qed.

Lemma preserves_modify (f : state -> state) :
  (forall s, R s (f s)) -> preserves R (modify f).
Proof. intros Hf s. apply Hf. Qed.

Lemma preserves_bind {A B : Type} (m : M A) (k : A -> M B) :
  preserves R m -> (forall a, preserves R (k a)) -> preserves R (bind m k).
Proof.
  intros Hm Hk s. unfold bind. specialize (Hm s).
  destruct (m s) as [[a|e] s1]; simpl in *; [|exact Hm].
  etransitivity; [exact Hm|apply Hk].
Qed.

Lemma preserves_try_except {A : Type} (m : M A) (handler : exn -> M A) :
  preserves R m -> (forall e, preserves R (handler e)) ->
  preserves R (try_except m handler).
Proof.
  intros Hm Hh s. unfold try_except. specialize (Hm s).
  destruct (m s) as [[a|e] s1]; simpl in *; [exact Hm|].
  etransitivity; [exact Hm|apply Hh].
Qed.

Lemma preserves_try_except_json {A : Type} (m handler : M A) :
  preserves R m -> preserves R handler -> preserves R (try_except_json m handler).
Proof.
  intros Hm Hh s. unfold try_except_json. specialize (Hm s).
  destruct (m s) as [[a|e] s1]; simpl in *; [exact Hm|].
  destruct (is_json_decode_error e); simpl; [|exact Hm].
  etransitivity; [exact Hm|apply Hh].
Qed.

End Frame.

Global Instance same_on_preorder {X : Type} (proj : state -> X) :
  PreOrder (same_on proj).
Proof.
  split.
  - intros s. reflexivity.
  - intros s1 s2 s3 H12 H23. unfold same_on in *. congruence.
Qed.

Create HintDb frame.

Ltac frame_step :=
  lazymatch goal with
  | |- preserves _ (bind _ _) =>
      apply preserves_bind; [typeclasses eauto| |intros]
  | |- preserves _ (try_except _ _) =>
      apply preserves_try_except; [typeclasses eauto| |intros]
  | |- preserves _ (try_except_json _ _) =>
      apply preserves_try_except_json; [typeclasses eauto| |]
  | |- preserves _ (ret _) => apply preserves_ret; typeclasses eauto
  | |- preserves _ (raise _) => apply preserves_raise; typeclasses eauto
  | |- preserves _ (lift _) => apply preserves_lift; typeclasses eauto
  | |- preserves _ get_state => apply preserves_get_state; typeclasses eauto
  | |- preserves _ (match ?x with _ => _ end) => destruct x
  | |- _ => solve [eauto with frame]
  end.

Ltac frame := repeat frame_step.

(** Methods that touch neither the collections' ids nor the files: they see
    the state only through a component [proj] that ignores the clock, the
    call counter, the log and the contents of the step lists. *)
Section Quiet.
Context `{Builtins} {X : Type} (proj : state -> X).
Hypothesis proj_ticks : forall n s, proj (set_ticks n s) = proj s.
Hypothesis proj_calls : forall n s, proj (set_calls n s) = proj s.
Hypothesis proj_log : forall l s, proj (set_log l s) = proj s.
Hypothesis proj_steps :
  forall p k step s, proj (snd (store_step p k step s)) = proj s.

Lemma quiet_now : preserves (same_on proj) now.
Proof. intros s. apply proj_ticks. Qed.

Lemma quiet_logger (level msg : string) : preserves (same_on proj) (logger level msg).
Proof. intros s. apply proj_log. Qed.

Lemma quiet_get_completion : preserves (same_on proj) get_completion.
Proof.
  intros s. unfold get_completion.
  destruct (completions s (calls s)); apply proj_calls.
Qed.

Lemma quiet_store_step (p : place) (k : nat) (step : pyval) :
  preserves (same_on proj) (store_step p k step).
Proof. intros s. apply proj_steps. Qed.

Lemma quiet_update_task_status (task_id status : string) :
  preserves (same_on proj) (update_task_status task_id status).
Proof. intros s. rewrite update_task_status_skips. reflexivity. Qed.

Lemma quiet_update_step_status (task_id : string) (step_id : pyval) (status : string) :
  preserves (same_on proj) (update_step_status task_id step_id status).
Proof. intros s. rewrite update_step_status_skips. reflexivity. Qed.

Local Hint Resolve quiet_now quiet_logger quiet_get_completion quiet_store_step
  quiet_update_task_status quiet_update_step_status : frame.

Lemma quiet_get_task (task_id : string) : preserves (same_on proj) (get_task task_id).
Proof. unfold get_task. frame. Qed.

Lemma quiet_execute_analysis_step (step : dict) (context : pyval) :
  preserves (same_on proj) (_execute_analysis_step step context).
Proof. unfold _execute_analysis_step. frame. Qed.

Lemma quiet_execute_action_step (step : dict) (context : pyval) :
  preserves (same_on proj) (_execute_action_step step context).
Proof. unfold _execute_action_step. frame. Qed.

Local Hint Resolve quiet_get_task quiet_execute_analysis_step
  quiet_execute_action_step : frame.

Lemma quiet_execute_step (task_id : string) (step : pyval) :
  preserves (same_on proj) (execute_step task_id step).
Proof. unfold execute_step. frame. Qed.

Local Hint Resolve quiet_execute_step : frame.

Lemma quiet_run_steps (task_id : string) (p : place) (steps : list pyval) :
  forall k, preserves (same_on proj) (run_steps task_id p k steps).
Proof.
  induction steps as [|step rest IH]; intros k; simpl; frame.
Qed.

Lemma quiet_stamp_steps (steps : list pyval) :
  forall i, preserves (same_on proj) (stamp_steps i steps).
Proof.
  induction steps as [|step rest IH]; intros i; simpl.
  - frame.
  - unfold stamp_step. frame.
Qed.

Local Hint Resolve quiet_run_steps quiet_stamp_steps : frame.

Lemma quiet_plan_task_steps (description : string) (context : option dict) :
  preserves (same_on proj) (_plan_task_steps description context).
Proof. unfold _plan_task_steps. frame. Qed.

End Quiet.

(** ** Dictionaries *)

Lemma dict_get_set_eq {V : Type} (k : string) (v : V) (d : list (string * V)) :
  dict_get k (dict_set k v d) = Some v.
Proof.
  induction d as [|[k' v'] d IH]; simpl.
  - rewrite String.eqb_refl. reflexivity.
  - destruct (String.eqb k k') eqn:E; simpl; rewrite E; auto.
Qed.

Lemma dict_get_set_ne {V : Type} (k k' : string) (v : V) (d : list (string * V)) :
  k <> k' -> dict_get k (dict_set k' v d) = dict_get k d.
Proof.
  intros Hne. induction d as [|[k0 v0] d IH]; simpl.
  - destruct (String.eqb_spec k k'); [contradiction|reflexivity].
  - destruct (String.eqb_spec k' k0) as [->|Hk0]; simpl.
    + destruct (String.eqb_spec k k0); [contradiction|reflexivity].
    + destruct (String.eqb k k0); auto.
Qed.

Lemma ids_app (l1 l2 : list dict) : ids (l1 ++ l2) = ids l1 ++ ids l2.
Proof. unfold ids. apply map_app. Qed.

Lemma ids_alter (f : dict -> dict) (i : nat) (l : list dict) :
  (forall t, dict_get "task_id" (f t) = dict_get "task_id" t) ->
  ids (alter f i l) = ids l.
Proof.
  intros Hf. unfold ids. revert i.
  induction l as [|t l IH]; intros [|i]; simpl; auto.
  - rewrite Hf. reflexivity.
  - f_equal. apply IH.
Qed.

Lemma collection_ids_alter_task (f : dict -> dict) (p : place) (s : state) :
  (forall t, dict_get "task_id" (f t) = dict_get "task_id" t) ->
  collection_ids (alter_task f p s) = collection_ids s.
Proof.
  intros Hf. unfold collection_ids.
  destruct p; simpl; rewrite ids_alter; auto.
Qed.

Lemma store_step_ids (p : place) (k : nat) (step : pyval) (s : state) :
  collection_ids (snd (store_step p k step s)) = collection_ids s.
Proof.
  unfold store_step, modify. simpl.
  apply collection_ids_alter_task. intros t.
  destruct (dict_get "steps" t) as [[]|]; auto.
  apply dict_get_set_ne. discriminate.
Qed.

Lemma store_step_fs (p : place) (k : nat) (step : pyval) (s : state) :
  fs (snd (store_step p k step s)) = fs s.
Proof. destruct p; reflexivity. Qed.

(** The step loop of [execute_task] leaves the files and the ids of both
    collections alone. *)
Lemma run_steps_fs `{Builtins} (task_id : string) (p : place) (k : nat)
    (steps : list pyval) (s : state) :
  fs (snd (run_steps task_id p k steps s)) = fs s.
Proof.
  apply (quiet_run_steps fs); auto. apply store_step_fs.
Qed.

Lemma run_steps_ids `{Builtins} (task_id : string) (p : place) (k : nat)
    (steps : list pyval) (s : state) :
  collection_ids (snd (run_steps task_id p k steps s)) = collection_ids s.
Proof.
  apply (quiet_run_steps collection_ids); auto. apply store_step_ids.
Qed.

Lemma plan_task_steps_memory `{Builtins} (description : string)
    (context : option dict) (s : state) :
  let s' := snd (_plan_task_steps description context s) in
  active_tasks s' = active_tasks s /\ task_history s' = task_history s /\
  fs s' = fs s /\ unwritable s' = unwritable s.
Proof.
  pose proof (quiet_plan_task_steps
                (fun s => (active_tasks s, task_history s, fs s, unwritable s))
                (fun _ _ => eq_refl) (fun _ _ => eq_refl) (fun _ _ => eq_refl)
                description context s) as Hq.
  unfold same_on in Hq. simpl. inversion Hq. auto.
Qed.

(** ** Equality of Python values *)

Lemma py_eq_str_true (v : pyval) (x : string) :
  py_eq v (PStr x) = true -> v = PStr x.
Proof.
  destruct v; simpl; try discriminate.
  intros E. apply String.eqb_eq in E. congruence.
Qed.

Lemma py_eq_str_refl (x : string) : py_eq (PStr x) (PStr x) = true.
Proof. simpl. apply String.eqb_refl. Qed.

Lemma py_eq_dict_unfold (a b : dict) :
  py_eq (PDict a) (PDict b) =
  Nat.eqb (length a) (length b) &&
  forallb (fun kv => match dict_get (fst kv) b with
                     | Some w => py_eq (snd kv) w
                     | None => false
                     end) a.
Proof.
  simpl. f_equal.
  induction a as [|[k v] a IH]; simpl; [reflexivity|].
  rewrite IH. reflexivity.
Qed.

(** Equal dicts agree on every key of the first. *)
Lemma py_eq_dict_key (a b : dict) (k : string) (v : pyval) :
  py_eq (PDict a) (PDict b) = true ->
  dict_get k a = Some v ->
  exists w, dict_get k b = Some w /\ py_eq v w = true.
Proof.
  rewrite py_eq_dict_unfold. intros E Hk.
  apply andb_prop in E as [_ E].
  induction a as [|[k0 v0] a IH]; simpl in *; [discriminate|].
  apply andb_prop in E as [E0 E].
  destruct (String.eqb_spec k k0) as [->|Hne].
  - inversion Hk; subst. destruct (dict_get k0 b) as [w|]; [|discriminate].
    exists w. auto.
  - auto.
Qed.

(** Dicts whose [task_id] entries differ are different objects for
    [list.remove]. *)
Lemma py_eq_dict_task_id (a b : dict) (v : pyval) (task_id : string) :
  dict_get "task_id" a = Some v ->
  py_eq v (PStr task_id) = false ->
  dict_get "task_id" b = Some (PStr task_id) ->
  py_eq (PDict a) (PDict b) = false.
Proof.
  intros Ha Hv Hb.
  destruct (py_eq (PDict a) (PDict b)) eqn:E; [|reflexivity].
  destruct (py_eq_dict_key a b "task_id" v E Ha) as (w & Hw & Evw).
  rewrite Hb in Hw. inversion Hw; subst. congruence.
Qed.

(** ** Looking a task up *)

Lemma find_task_absent (task_id : string) (tasks : list dict) :
  forall k, absent task_id tasks -> find_task task_id k tasks = Ok None.
Proof.
  induction tasks as [|t tasks IH]; intros k Habs; simpl; [reflexivity|].
  inversion Habs as [|? ? (v & Hv & Hne) Hrest]; subst.
  rewrite Hv. simpl. rewrite Hne. apply IH. exact Hrest.
Qed.

Lemma find_task_None (task_id : string) (tasks : list dict) :
  forall k, find_task task_id k tasks = Ok None -> absent task_id tasks.
Proof.
  induction tasks as [|t tasks IH]; intros k Hfind; simpl in *.
  - constructor.
  - destruct (dict_get "task_id" t) as [v|] eqn:Hv; simpl in *; [|discriminate].
    destruct (py_eq v (PStr task_id)) eqn:E; [discriminate|].
    constructor; [exists v; auto|eapply IH; eauto].
Qed.

(** What a successful search found: position [i] holds the id and no
    earlier position does. *)
Lemma find_task_Some (task_id : string) (tasks : list dict) :
  forall k j, find_task task_id k tasks = Ok (Some j) ->
  exists (i : nat) (t : dict), j = k + i /\ tasks !! i = Some t /\
              dict_get "task_id" t = Some (PStr task_id) /\
              absent task_id (take i tasks).
Proof.
  induction tasks as [|t tasks IH]; intros k j Hfind; simpl in *; [discriminate|].
  destruct (dict_get "task_id" t) as [v|] eqn:Hv; simpl in *; [|discriminate].
  destruct (py_eq v (PStr task_id)) eqn:E.
  - inversion Hfind; subst. apply py_eq_str_true in E. subst.
    exists 0, t. repeat split; auto with lia. constructor.
  - destruct (IH _ _ Hfind) as (i & t' & -> & Hi & Ht' & Habs).
    exists (S i), t'. repeat split; auto with lia.
    simpl. constructor; eauto.
Qed.

(** [list.remove] takes out the object itself when no earlier task carries
    its id. *)
Lemma list_remove_found (task_id : string) (tasks : list dict) :
  forall i x,
    i < length tasks ->
    absent task_id (take i tasks) ->
    dict_get "task_id" x = Some (PStr task_id) ->
    list_remove i x tasks = Ok (delete i tasks).
Proof.
  induction tasks as [|t tasks IH]; intros i x Hi Habs Hx; [simpl in Hi; lia|].
  destruct i as [|i]; [reflexivity|].
  cbn [take] in Habs. simpl in Hi.
  inversion Habs as [|? ? (v & Hv & Hne) Hrest]; subst.
  cbn [list_remove Nat.eqb orb Nat.pred].
  rewrite (py_eq_dict_task_id t x v task_id Hv Hne Hx).
  rewrite IH; auto with lia.
Qed.

(** ** What the two saves do to the collections in memory *)

Ltac unfold_monad :=
  unfold logger, now, get_completion, path_exists, json_load_file, json_dump_file,
    os_rename in *;
  unfold try_except, try_except_json, bind, ret, raise, lift, get_state, modify in *.

(** Reduces the projections of updated states and nothing else. *)
Ltac state_simpl :=
  cbn [fs active_tasks task_history unwritable wallclock ticks completions calls
       log set_active set_history set_fs set_ticks set_calls set_log fst snd].

Ltac state_simpl_in H :=
  cbn [fs active_tasks task_history unwritable wallclock ticks completions calls
       log set_active set_history set_fs set_ticks set_calls set_log fst snd] in H.

Lemma save_task_history_effect (s : state) :
  let r := _save_task_history s in
  fst r = Ok tt /\ active_tasks (snd r) = active_tasks s /\
  task_history (snd r) = task_history s.
Proof.
  unfold _save_task_history. unfold_monad. simpl.
  destruct (history_rows (task_history s)) as [rows|e]; simpl; auto.
  destruct (unwritable s history_file); simpl; auto.
  destruct (to_jobjects rows); simpl; auto.
Qed.

Lemma active_row_task_id (task : dict) :
  dict_get "task_id" (fst (active_row task)) = dict_get "task_id" task.
Proof.
  unfold active_row.
  destruct (iso_key "created_at" task) as [c1|e]; [|reflexivity].
  destruct (iso_key "updated_at" c1) as [c2|e]; [|reflexivity].
  destruct (dict_get "steps" c2) as [v|]; [|reflexivity].
  destruct (iso_steps_value v) as [v' r]. simpl.
  apply dict_get_set_ne. discriminate.
Qed.

Lemma active_rows_ids (tasks : list dict) :
  ids (fst (active_rows tasks)) = ids tasks.
Proof.
  induction tasks as [|task rest IH]; simpl; [reflexivity|].
  pose proof (active_row_task_id task) as Hid.
  destruct (active_row task) as [task' [row|e]]; simpl in *.
  - destruct (active_rows rest) as [rest' r]. simpl in *. congruence.
  - congruence.
Qed.

Lemma save_active_tasks_effect (s : state) :
  let r := _save_active_tasks s in
  active_tasks (snd r) = fst (active_rows (active_tasks s)) /\
  task_history (snd r) = task_history s.
Proof.
  unfold _save_active_tasks. unfold_monad. simpl.
  destruct (active_rows (active_tasks s)) as [tasks' [rows|e]]; simpl; auto.
  destruct (unwritable s tasks_file); simpl; auto.
  destruct (to_jobjects rows); simpl; auto.
Qed.

Lemma save_active_tasks_ids (s : state) :
  collection_ids (snd (_save_active_tasks s)) = collection_ids s.
Proof.
  destruct (save_active_tasks_effect s) as [Ha Hh].
  unfold collection_ids. rewrite Ha, Hh, active_rows_ids. reflexivity.
Qed.

(** ** Archiving *)

Lemma ids_delete (i : nat) (l : list dict) : ids (delete i l) = delete i (ids l).
Proof.
  revert i. induction l as [|t l IH]; intros [|i]; simpl; auto.
  f_equal. apply IH.
Qed.

Lemma take_alter_same {A : Type} (f : A -> A) (i : nat) (l : list A) :
  take i (alter f i l) = take i l.
Proof.
  revert i. induction l as [|x l IH]; intros [|i]; simpl; auto.
  f_equal. apply IH.
Qed.

Lemma alter_twice {A : Type} (f g : A -> A) (i : nat) (l : list A) :
  alter g i (alter f i l) = alter (fun x => g (f x)) i l.
Proof.
  revert i. induction l as [|x l IH]; intros [|i]; simpl; auto.
  f_equal. apply IH.
Qed.

Lemma archive_move (task_id : string) (f : dict -> dict) (l : list dict)
    (i : nat) (t : dict) :
  l !! i = Some t ->
  dict_get "task_id" t = Some (PStr task_id) ->
  absent task_id (take i l) ->
  (forall t, dict_get "task_id" (f t) = dict_get "task_id" t) ->
  let moved := default ([] : dict) (alter f i l !! i) in
  dict_get "task_id" moved = Some (PStr task_id) /\
  list_remove i moved (alter f i l) = Ok (delete i (alter f i l)) /\
  ids (delete i (alter f i l)) = delete i (ids l).
Proof.
  intros Hi Hid Habs Hf moved.
  assert (Hm : alter f i l !! i = Some (f t)).
  { rewrite list_lookup_alter_eq, Hi. reflexivity. }
  assert (Hmoved : dict_get "task_id" moved = Some (PStr task_id)).
  { unfold moved. rewrite Hm. simpl. rewrite Hf. exact Hid. }
  split; [exact Hmoved|]. split.
  - apply (list_remove_found task_id); auto.
    + rewrite length_alter. eapply lookup_lt_Some; eauto.
    + rewrite take_alter_same. exact Habs.
  - rewrite ids_delete, ids_alter; auto.
Qed.

Lemma archive_task_found (s : state) (task_id : string) (i : nat) :
  find_task task_id 0 (active_tasks s) = Ok (Some i) ->
  let s' := snd (archive_task task_id s) in
  ids (active_tasks s') = delete i (ids (active_tasks s)) /\
  ids (task_history s') = ids (task_history s) ++ [Some (PStr task_id)].
Proof.
  intros Hfind.
  destruct (find_task_Some _ _ _ _ Hfind) as (i' & t & Hi & Ht & Hid & Habs).
  simpl in Hi. subst i'.
  unfold archive_task. unfold_monad. rewrite Hfind. simpl.
  rewrite alter_twice.
  match goal with
  | |- context [alter ?f i (active_tasks s)] =>
      destruct (archive_move task_id f (active_tasks s) i t Ht Hid Habs)
        as (Hmoved & Hremove & Hids)
  end.
  { intros t0. rewrite !dict_get_set_ne by discriminate. reflexivity. }
  rewrite Hremove.
  match goal with
  | |- context [_save_task_history ?S] =>
      destruct (save_task_history_effect S) as (Hok & Ha1 & Hh1);
      destruct (_save_task_history S) as [o1 s1]
  end.
  simpl in Hok, Ha1, Hh1. subst o1.
  pose proof (save_active_tasks_effect s1) as [Ha2 Hh2].
  pose proof (active_rows_ids (active_tasks s1)) as Hrows.
  destruct (_save_active_tasks s1) as [[[]|e] s2]; simpl in *;
    rewrite Ha2, Hh2, Hrows, Ha1, Hh1, Hids, ids_app; simpl;
    rewrite Hmoved; auto.
Qed.

Lemma archive_task_absent (s : state) (task_id : string) :
  absent task_id (active_tasks s) ->
  archive_task task_id s = (Ok tt, warned task_id s).
Proof.
  intros Habs. unfold archive_task. unfold_monad.
  rewrite (find_task_absent _ _ 0 Habs). reflexivity.
Qed.

Lemma archive_task_lookup_raises (s : state) (task_id : string) (e : exn) :
  find_task task_id 0 (active_tasks s) = Raise e ->
  exists s', archive_task task_id s = (Raise e, s').
Proof.
  intros Hfind. unfold archive_task. unfold_monad. rewrite Hfind.
  simpl. eauto.
Qed.

Lemma absent_of_names (task_id : string) (names : list string) :
  forall tasks,
    ids tasks = map (fun n => Some (PStr n)) names ->
    task_id ∉ names ->
    absent task_id tasks.
Proof.
  induction names as [|n names IH]; intros [|t tasks] Hids Hnot;
    simpl in *; try discriminate; [constructor|].
  inversion Hids as [[Ht Hrest]].
  constructor.
  - exists (PStr n). split; [exact Ht|]. simpl.
    apply String.eqb_neq. intros ->. apply Hnot. left.
  - apply IH; [exact Hrest|]. intros Hin. apply Hnot. right. exact Hin.
Qed.

Lemma NoDup_delete_lookup {A : Type} (l : list A) (i : nat) (x : A) :
  NoDup l -> l !! i = Some x -> x ∉ delete i l.
Proof.
  revert i. induction l as [|y l IH]; intros [|i] Hnd Hi; simpl in *;
    try discriminate.
  - inversion Hi; subst. apply NoDup_cons_1_1 in Hnd. exact Hnd.
  - apply NoDup_cons in Hnd as [Hy Hnd].
    intros Hin. apply elem_of_cons in Hin as [->|Hin].
    + apply Hy. eapply list_elem_of_lookup_2; eauto.
    + eapply IH; eauto.
Qed.

Lemma map_delete {A B : Type} (f : A -> B) (i : nat) (l : list A) :
  map f (delete i l) = delete i (map f l).
Proof.
  revert i. induction l as [|x l IH]; intros [|i]; simpl; auto.
  f_equal. apply IH.
Qed.

Lemma map_lookup {A B : Type} (f : A -> B) (i : nat) (l : list A) :
  map f l !! i = option_map f (l !! i).
Proof.
  revert i. induction l as [|x l IH]; intros [|i]; simpl; auto.
Qed.

Lemma absent_ids (task_id : string) (l l' : list dict) :
  ids l = ids l' -> absent task_id l -> absent task_id l'.
Proof.
  unfold absent. revert l'.
  induction l as [|t l IH]; intros [|t' l'] Hids Habs; try discriminate;
    [constructor|].
  simpl in Hids. injection Hids as Ht Hl.
  apply Forall_cons in Habs as [Hhead Hrest].
  constructor; [rewrite <- Ht; exact Hhead|]. apply IH; assumption.
Qed.

Lemma unique_ids_carried_once (task_id : string) (tasks : list dict) :
  unique_ids tasks -> carried_once task_id tasks.
Proof.
  intros (names & Hnames & Hnd) i t Hi Hid.
  apply (absent_of_names task_id (delete i names)).
  - rewrite ids_delete, Hnames. symmetry. apply map_delete.
  - apply NoDup_delete_lookup; [exact Hnd|].
    assert (Hlook : ids tasks !! i = Some (Some (PStr task_id))).
    { unfold ids, dict in *. rewrite map_lookup, Hi. simpl. rewrite Hid. reflexivity. }
    rewrite Hnames, map_lookup in Hlook.
    destruct (names !! i) as [n|]; simpl in Hlook; congruence.
Qed.

(** C10, as amended.  Archiving an id that no active task carries returns
    normally, logs one warning and changes nothing else; and when at most
    one active task carries the id, a second [archive_task] after one that
    returned normally is such a call: both collections and the files stay
    as the first call left them. *)
Theorem archive_task_idempotent (s : state) (task_id : string) :
  (absent task_id (active_tasks s) ->
   archive_task task_id s = (Ok tt, warned task_id s)) /\
  (carried_once task_id (active_tasks s) ->
   forall s', archive_task task_id s = (Ok tt, s') ->
              archive_task task_id s' = (Ok tt, warned task_id s')).
Proof.
  split; [apply archive_task_absent|].
  intros Honce s' Hfirst.
  apply archive_task_absent.
  destruct (find_task task_id 0 (active_tasks s)) as [[i|]|e] eqn:Hfind.
  - destruct (archive_task_found s task_id i Hfind) as [Ha _].
    rewrite Hfirst in Ha. simpl in Ha.
    destruct (find_task_Some _ _ _ _ Hfind) as (i' & t & Hi & Ht & Hid & _).
    simpl in Hi. subst i'.
    apply (absent_ids task_id (delete i (active_tasks s))).
    + rewrite Ha. apply ids_delete.
    + exact (Honce i t Ht Hid).
  - apply find_task_None in Hfind.
    rewrite (archive_task_absent s task_id Hfind) in Hfirst.
    inversion Hfirst; subst. exact Hfind.
  - destruct (archive_task_lookup_raises s task_id e Hfind) as [s0 Hr].
    rewrite Hr in Hfirst. discriminate.
Qed.

(** ** Creating tasks *)

Section Creation.
Context `{Builtins}.

Lemma plan_task_steps_returns (description : string) (context : option dict)
    (s : state) :
  exists steps, fst (_plan_task_steps description context s) = Ok steps.
Proof.
  unfold _plan_task_steps, try_except.
  match goal with |- context [match ?m s with _ => _ end] => destruct (m s) as [[steps|e] s1] end.
  - eauto.
  - unfold_monad. simpl. eauto.
Qed.

Lemma ids_last (tasks : list dict) (front : list (option pyval))
    (x : option pyval) (d : dict) :
  ids tasks = front ++ [x] ->
  dict_get "task_id" (default d (last tasks)) = x.
Proof.
  intros Hids.
  destruct tasks as [|t tasks _] using rev_ind.
  - destruct front; discriminate.
  - rewrite last_snoc. simpl.
    rewrite ids_app in Hids. simpl in Hids.
    apply app_inj_tail in Hids as [_ Hx]. exact Hx.
Qed.

Lemma create_task_effect (description : string) (context : option dict) (s : state) :
  let r := create_task description context s in
  let new_id :=
    Some (PStr (task_name (length (active_tasks s) + length (task_history s) + 1))) in
  ids (active_tasks (snd r)) = ids (active_tasks s) ++ [new_id] /\
  ids (task_history (snd r)) = ids (task_history s) /\
  (forall task, fst r = Ok task -> dict_get "task_id" task = new_id).
Proof.
  cbv zeta. unfold create_task.
  destruct (plan_task_steps_returns description context s) as [steps Hsteps].
  destruct (plan_task_steps_memory description context s) as (Ha & Hh & _).
  unfold_monad. simpl.
  destruct (_plan_task_steps description context s) as [o s1].
  simpl in Hsteps, Ha, Hh. subst o.
  match goal with
  | |- context [_save_active_tasks ?S] =>
      pose proof (save_active_tasks_effect S) as [Ha2 Hh2];
      pose proof (active_rows_ids (active_tasks S)) as Hrows;
      destruct (_save_active_tasks S) as [[[]|e] s2]
  end; simpl in *; rewrite Ha2, Hh2, Hrows, ids_app, Ha, Hh;
    (split; [reflexivity|split; [reflexivity|]]); intros task Htask;
    [|discriminate].
  inversion Htask; subst.
  apply (ids_last _ (ids (active_tasks s))).
  rewrite active_rows_ids, ids_app. reflexivity.
Qed.
End Creation.

(** ** Task ids *)

Global Instance ids_moved_preorder : PreOrder ids_moved.
Proof.
  split.
  - intros s. unfold ids_moved. reflexivity.
  - intros s1 s2 s3 H12 H23. unfold ids_moved in *.
    etransitivity; eauto.
Qed.

Section TaskIds.
Context `{Builtins}.

Lemma all_ids_split (s : state) :
  all_ids s = fst (collection_ids s) ++ snd (collection_ids s).
Proof. unfold all_ids. apply ids_app. Qed.

Lemma preserves_ids_moved {A : Type} (m : M A) :
  preserves (same_on collection_ids) m -> preserves ids_moved m.
Proof.
  intros Hm s. specialize (Hm s). unfold same_on, ids_moved in *.
  rewrite !all_ids_split, Hm. reflexivity.
Qed.

Lemma archive_task_raises (s : state) (task_id : string) (e : exn) :
  find_task task_id 0 (active_tasks s) = Raise e ->
  snd (archive_task task_id s) =
  set_log (log s ++ [("ERROR", "Error archiving task: " +:+ str_exn e)]) s.
Proof.
  intros Hfind. unfold archive_task. unfold_monad. rewrite Hfind. reflexivity.
Qed.

Lemma archive_task_moves (task_id : string) :
  preserves ids_moved (archive_task task_id).
Proof.
  intros s. unfold ids_moved.
  destruct (find_task task_id 0 (active_tasks s)) as [[i|]|e] eqn:Hfind.
  - destruct (archive_task_found s task_id i Hfind) as [Ha Hh].
    destruct (find_task_Some _ _ _ _ Hfind) as (i' & t & Hi & Ht & Hid & _).
    simpl in Hi. subst i'.
    assert (Hlook : ids (active_tasks s) !! i = Some (Some (PStr task_id))).
    { unfold ids, dict in *. rewrite map_lookup, Ht. simpl. rewrite Hid. reflexivity. }
    rewrite !all_ids_split. unfold collection_ids. simpl.
    rewrite Ha, Hh.
    rewrite (delete_Permutation _ _ _ Hlook) at 2.
    rewrite app_assoc. rewrite <- Permutation_cons_append. reflexivity.
  - apply find_task_None in Hfind.
    rewrite (archive_task_absent s task_id Hfind). reflexivity.
  - rewrite (archive_task_raises s task_id e Hfind). reflexivity.
Qed.

Lemma execute_task_moves (task_id : string) :
  preserves ids_moved (execute_task task_id).
Proof.
  pose proof (fun id => preserves_ids_moved _ (quiet_get_task collection_ids id)).
  pose proof (fun id st => preserves_ids_moved _
                (quiet_update_task_status collection_ids id st)).
  pose proof (fun l m => preserves_ids_moved _
                (quiet_logger collection_ids (fun _ _ => eq_refl) l m)).
  pose proof (fun id p steps k => preserves_ids_moved _
                (quiet_run_steps collection_ids (fun _ _ => eq_refl)
                   (fun _ _ => eq_refl) (fun _ _ => eq_refl) store_step_ids
                   id p steps k)).
  pose proof archive_task_moves.
  unfold execute_task. frame.
Qed.

Lemma task_name_inj (a b : nat) : task_name a = task_name b -> a = b.
Proof.
  unfold task_name. intros E.
  apply String.app_inj in E. apply pretty_nat_inj in E. exact E.
Qed.

Lemma names_up_to_S (n : nat) :
  names_up_to (S n) = names_up_to n ++ [Some (PStr (task_name (n + 1)))].
Proof.
  unfold names_up_to. rewrite seq_S, map_app. simpl.
  replace (n + 1) with (S n) by lia. reflexivity.
Qed.

Lemma names_up_to_NoDup (n : nat) : NoDup (names_up_to n).
Proof.
  unfold names_up_to. apply NoDup_fmap_2.
  - intros a b E. apply task_name_inj. congruence.
  - apply NoDup_seq.
Qed.

Lemma names_up_to_fresh (n : nat) :
  Some (PStr (task_name (n + 1))) ∉ names_up_to n.
Proof.
  unfold names_up_to. intros Hin.
  apply list_elem_of_fmap in Hin as (k & E & Hk).
  assert (E' : task_name (n + 1) = task_name k) by congruence.
  apply task_name_inj in E'. subst k.
  apply elem_of_seq in Hk. lia.
Qed.

Lemma counted_moved (s s' : state) : ids_moved s s' -> counted s -> counted s'.
Proof.
  unfold ids_moved, counted. intros Hm Hc.
  rewrite Hm at 1. rewrite (Permutation_length Hm). exact Hc.
Qed.

Lemma all_ids_length (s : state) :
  length (all_ids s) = length (active_tasks s) + length (task_history s).
Proof. unfold all_ids, ids. rewrite length_map, length_app. reflexivity. Qed.

Lemma counted_create (description : string) (context : option dict) (s : state) :
  counted s -> counted (snd (create_task description context s)).
Proof.
  unfold counted. intros Hc.
  destruct (create_task_effect description context s) as (Ha & Hh & _).
  assert (Hall : all_ids (snd (create_task description context s))
                 ≡ₚ all_ids s ++ [Some (PStr (task_name (length (all_ids s) + 1)))]).
  { rewrite all_ids_length, !all_ids_split. unfold collection_ids. simpl.
    rewrite Ha, Hh.
    rewrite <- !app_assoc. apply Permutation_app_head. apply Permutation_app_comm. }
  rewrite Hall at 1. rewrite (Permutation_length Hall).
  rewrite length_app. simpl.
  replace (length (all_ids s) + 1) with (S (length (all_ids s))) at 2 by lia.
  rewrite names_up_to_S. apply Permutation_app_tail. exact Hc.
Qed.

Lemma reachable_counted (s : state) : reachable s -> counted s.
Proof.
  induction 1 as [s Hc|s o Hs IH].
  - exact Hc.
  - destruct o as [description context|task_id|task_id]; simpl.
    + apply counted_create. exact IH.
    + eapply counted_moved; [apply execute_task_moves|exact IH].
    + eapply counted_moved; [apply archive_task_moves|exact IH].
Qed.

(** C9, as amended.  In a service whose tasks carry the ids [task_1] to
    [task_n], one for each task (a service with no tasks in particular),
    and after any sequence of create, execute and archive operations run
    one at a time from there, a task returned by [create_task] carries the
    id [task_<active + archived + 1>], that id differs from the id of
    every task that was active or archived when the call was made, and
    afterwards no two tasks of the two collections share an id. *)
Theorem created_task_id_is_fresh (s : state) (description : string)
    (context : option dict) (task : dict) (s' : state) :
  reachable s ->
  create_task description context s = (Ok task, s') ->
  dict_get "task_id" task =
    Some (PStr (task_name (length (active_tasks s) + length (task_history s) + 1))) /\
  (forall other, other ∈ active_tasks s ++ task_history s ->
                 dict_get "task_id" other <> dict_get "task_id" task) /\
  NoDup (all_ids s').
Proof.
  intros Hreach Hcreate.
  pose proof (reachable_counted s Hreach) as Hc.
  destruct (create_task_effect description context s) as (_ & _ & Hid).
  rewrite Hcreate in Hid. simpl in Hid. specialize (Hid task eq_refl).
  split; [exact Hid|]. split.
  - intros other Hin Heq. rewrite Hid in Heq.
    assert (Hmem : dict_get "task_id" other ∈ all_ids s).
    { unfold all_ids, ids. apply list_elem_of_In, in_map, list_elem_of_In. exact Hin. }
    rewrite Heq in Hmem. unfold counted in Hc. rewrite Hc in Hmem.
    rewrite all_ids_length in Hmem.
    exact (names_up_to_fresh _ Hmem).
  - pose proof (reachable_counted _ (reach_step s (Create description context) Hreach))
      as Hc'.
    simpl in Hc'. rewrite Hcreate in Hc'. simpl in Hc'.
    unfold counted in Hc'. rewrite Hc'. apply names_up_to_NoDup.
Qed.
End TaskIds.

(** ** A plan that does not parse *)

Section Degrade.
Context `{Builtins}.

Lemma active_rows_length (tasks : list dict) :
  length (fst (active_rows tasks)) = length tasks.
Proof.
  induction tasks as [|task rest IH]; simpl; [reflexivity|].
  destruct (active_row task) as [task' [row|e]]; simpl; [|reflexivity].
  destruct (active_rows rest) as [rest' r]. simpl in *. congruence.
Qed.

Lemma active_rows_snoc (tasks : list dict) (t : dict) :
  active_rows (tasks ++ [t]) =
  match snd (active_rows tasks) with
  | Ok rows =>
      (fst (active_rows tasks) ++ [fst (active_row t)],
       and_then (snd (active_row t)) (fun row => Ok (rows ++ [row])))
  | Raise e => (fst (active_rows tasks) ++ [t], Raise e)
  end.
Proof.
  induction tasks as [|task rest IH]; simpl.
  - destruct (active_row t) as [t' [row|e]]; reflexivity.
  - destruct (active_row task) as [task' [row|e]]; simpl; [|reflexivity].
    rewrite IH.
    destruct (active_rows rest) as [rest' [rows|e]]; simpl; [|reflexivity].
    destruct (active_row t) as [t' [row'|e]]; reflexivity.
Qed.

Lemma to_jobjects_snoc (rows : list dict) (row : dict) (docs : list jobject)
    (doc : jobject) :
  to_jobjects rows = Some docs -> to_jobject row = Some doc ->
  to_jobjects (rows ++ [row]) = Some (docs ++ [doc]).
Proof.
  revert docs. induction rows as [|r rows IH]; intros docs Hrows Hrow; simpl in *.
  - inversion Hrows; subst. rewrite Hrow. reflexivity.
  - destruct (to_jobject r) as [o|]; [|discriminate].
    destruct (to_jobjects rows) as [os|]; [|discriminate].
    inversion Hrows; subst. rewrite (IH os eq_refl Hrow). reflexivity.
Qed.

Lemma plan_unparsable (description : string) (context : option dict)
    (text : string) (s : state) :
  completions s (calls s) = Returns (PStr text) ->
  json_loads (clean_response (strip text)) = None ->
  fst (_plan_task_steps description context s) = Ok (PList []).
Proof.
  intros Hreply Hparse. unfold _plan_task_steps. unfold_monad.
  destruct (json_dumps (PDict (context_or_empty context))); [|reflexivity].
  rewrite Hreply. simpl. rewrite Hparse. reflexivity.
Qed.


Lemma active_row_new_task (task_id description : string) (context : option dict)
    (c u : datetime) :
  active_row (new_task task_id description context (PList [])
                       (PDatetime c) (PDatetime u)) =
  (new_task task_id description context (PList []) (PDatetime c) (PDatetime u),
   Ok (new_task task_id description context (PList [])
                (PStr (isoformat c)) (PStr (isoformat u)))).
Proof. reflexivity. Qed.

Lemma to_jobject_new_task (task_id description : string) (context : option dict)
    (c u : string) :
  is_Some (to_json (PDict (context_or_empty context))) ->
  is_Some (to_jobject (new_task task_id description context (PList [])
                                (PStr c) (PStr u))).
Proof.
  intros [j Hj]. unfold to_jobject, new_task.
  cbn [to_json option_map]. cbn [to_json option_map] in Hj.
  rewrite Hj. simpl. eauto.
Qed.

(** Saving right after a task without steps was appended. *)
Lemma save_after_append (s : state) (old : list dict) (task_id description : string)
    (context : option dict) (c u : datetime) :
  let task := new_task task_id description context (PList [])
                       (PDatetime c) (PDatetime u) in
  active_tasks s = old ++ [task] ->
  let r := _save_active_tasks s in
  active_tasks (snd r) = fst (active_rows old) ++ [task] /\
  (unwritable s tasks_file = false ->
   (exists rows docs, snd (active_rows old) = Ok rows /\ to_jobjects rows = Some docs) ->
   is_Some (to_json (PDict (context_or_empty context))) ->
   fst r = Ok tt).
Proof.
  intros task Hactive r. subst r.
  unfold _save_active_tasks. unfold_monad. simpl.
  rewrite Hactive, active_rows_snoc. unfold task.
  rewrite active_row_new_task. simpl.
  destruct (active_rows old) as [old' [rows|e]]; simpl.
  - destruct (unwritable s tasks_file) eqn:Hw; simpl.
    + split; [reflexivity|]. intros; discriminate.
    + match goal with
      | |- context [to_jobjects (rows ++ [?row])] =>
          destruct (to_jobjects (rows ++ [row])) as [docs'|] eqn:Hd
      end; simpl; (split; [reflexivity|]); [reflexivity|].
      intros _ (rows0 & docs & Hrows & Hdocs) Hctx.
      inversion Hrows; subst rows0.
      destruct (to_jobject_new_task task_id description context
                  (isoformat c) (isoformat u) Hctx) as [doc Hdoc].
      rewrite (to_jobjects_snoc _ _ _ _ Hdocs Hdoc) in Hd. discriminate.
  - split; [reflexivity|]. intros _ (rows0 & docs & Hrows & _). discriminate.
Qed.

(** What a save returns is decided by the tasks and by the lock on the
    file. *)
Lemma save_active_tasks_outcome (s : state) :
  fst (_save_active_tasks s) =
  match snd (active_rows (active_tasks s)) with
  | Raise e => Raise e
  | Ok rows =>
      if unwritable s tasks_file then Raise (OSError "Permission denied")
      else match to_jobjects rows with
           | Some _ => Ok tt
           | None => Raise (TypeError "Object is not JSON serializable")
           end
  end.
Proof.
  unfold _save_active_tasks. unfold_monad. state_simpl.
  destruct (active_rows (active_tasks s)) as [tasks' [rows|e]]; state_simpl;
    [|reflexivity].
  destruct (unwritable s tasks_file); state_simpl; [reflexivity|].
  destruct (to_jobjects rows); reflexivity.
Qed.

Lemma save_active_tasks_saveable (s : state) :
  fst (_save_active_tasks s) = Ok tt <-> saveable s.
Proof.
  rewrite save_active_tasks_outcome. unfold saveable. split.
  - destruct (snd (active_rows (active_tasks s))) as [rows|e]; [|discriminate].
    destruct (unwritable s tasks_file); [discriminate|].
    destruct (to_jobjects rows) as [docs|] eqn:Hdocs; [|discriminate].
    intros _. split; [reflexivity|]. eauto.
  - intros (-> & rows & docs & -> & ->). reflexivity.
Qed.

Lemma save_active_tasks_fails (s : state) :
  ~ saveable s -> exists e, fst (_save_active_tasks s) = Raise e.
Proof.
  intros Hnot. destruct (fst (_save_active_tasks s)) as [[]|e] eqn:Hrun; [|eauto].
  exfalso. apply Hnot, save_active_tasks_saveable, Hrun.
Qed.

Lemma to_jobjects_app_inv (rows more : list dict) (docs : list jobject) :
  to_jobjects (rows ++ more) = Some docs ->
  is_Some (to_jobjects rows) /\ is_Some (to_jobjects more).
Proof.
  revert docs. induction rows as [|r rows IH]; intros docs; simpl.
  - intros Hm. split; eauto.
  - destruct (to_jobject r) as [o|]; [|discriminate].
    destruct (to_jobjects (rows ++ more)) as [os|] eqn:Hrest; [|discriminate].
    intros _. destruct (IH os eq_refl) as [[ds ->] Hmore]. split; eauto.
Qed.

Lemma to_jobject_new_task_context (task_id description : string)
    (context : option dict) (c u : string) :
  is_Some (to_jobject (new_task task_id description context (PList [])
                                (PStr c) (PStr u))) ->
  is_Some (to_json (PDict (context_or_empty context))).
Proof.
  unfold to_jobject, new_task. cbn [to_json option_map].
  destruct (to_json (PDict (context_or_empty context))) as [j|] eqn:Hj.
  - eauto.
  - cbn [to_json option_map] in Hj. rewrite Hj. simpl. intros [x Hx]. discriminate.
Qed.

(** Saving with a task without steps appended goes through exactly when
    saving without it does and the context of the task is serializable. *)
Lemma saveable_with_new_task (s : state) (task_id description : string)
    (context : option dict) (c u : datetime) :
  let task := new_task task_id description context (PList [])
                       (PDatetime c) (PDatetime u) in
  saveable (set_active (active_tasks s ++ [task]) s) <->
  saveable s /\ is_Some (to_json (PDict (context_or_empty context))).
Proof.
  intros task. unfold saveable. state_simpl.
  rewrite active_rows_snoc. unfold task. rewrite active_row_new_task.
  cbn [fst snd and_then].
  destruct (snd (active_rows (active_tasks s))) as [rows|e]; cbn [and_then snd].
  - split.
    + intros (Hw & rows' & docs & Hrows & Hdocs). inversion Hrows; subst rows'.
      destruct (to_jobjects_app_inv _ _ _ Hdocs) as [[ds Hds] [dn Hdn]].
      split; [split; [exact Hw|eauto]|].
      apply (to_jobject_new_task_context task_id description context
               (isoformat c) (isoformat u)).
      simpl in Hdn.
      match type of Hdn with
      | context [to_jobject ?row] => destruct (to_jobject row); [eauto|discriminate]
      end.
    + intros [(Hw & rows' & docs & Hrows & Hdocs) Hctx]. inversion Hrows; subst rows'.
      split; [exact Hw|].
      destruct (to_jobject_new_task task_id description context
                  (isoformat c) (isoformat u) Hctx) as [doc Hdoc].
      eexists _, _. split; [reflexivity|].
      apply (to_jobjects_snoc _ _ _ _ Hdocs Hdoc).
  - split.
    + intros (_ & rows & docs & Hrows & _). discriminate.
    + intros [(_ & rows & docs & Hrows & _) _]. discriminate.
Qed.

(** A save that raises has logged its error last. *)
Lemma save_active_tasks_raise_log (s s' : state) (e : exn) :
  _save_active_tasks s = (Raise e, s') ->
  exists before,
    log s' = before ++ [("ERROR", "Error saving active tasks: " +:+ str_exn e)].
Proof.
  unfold _save_active_tasks. unfold_monad. state_simpl.
  destruct (active_rows (active_tasks s)) as [tasks' [rows|e0]]; state_simpl.
  - destruct (unwritable s tasks_file); state_simpl.
    + intros [= <- <-]. state_simpl. eauto.
    + destruct (to_jobjects rows); state_simpl; [discriminate|].
      intros [= <- <-]. state_simpl. eauto.
  - intros [= <- <-]. state_simpl. eauto.
Qed.

(** C8, as amended.  When the cleaned answer of the model does not parse,
    the planner returns the empty list without raising; [create_task] then
    appends to the active collection a task with status [pending] and no
    steps, which is the task it returns whenever it returns.  It returns it
    when the active collection can be saved and the context of the task is
    serializable.  Otherwise the save of the collection with the task
    appended raises, and what that save raises [create_task] raises to its
    caller: the log of the call then ends with the error record of the save
    and the error record of [create_task] for that exception.  (What a save
    returns depends on the tasks and on the lock of the file only, so the
    save of the collection with the task appended is taken from the state
    of the call.) *)
Theorem create_task_with_unparsable_plan (description : string)
    (context : option dict) (text : string) (s : state) :
  completions s (calls s) = Returns (PStr text) ->
  json_loads (clean_response (strip text)) = None ->
  let r := create_task description context s in
  fst (_plan_task_steps description context s) = Ok (PList []) /\
  exists (old : list dict) (task : dict),
    let appended := set_active (active_tasks s ++ [task]) s in
    active_tasks (snd r) = old ++ [task] /\
    length old = length (active_tasks s) /\
    dict_get "status" task = Some (PStr "pending") /\
    dict_get "steps" task = Some (PList []) /\
    (forall t, fst r = Ok t -> t = task) /\
    (saveable s -> is_Some (to_json (PDict (context_or_empty context))) ->
     fst r = Ok task) /\
    (forall e, fst (_save_active_tasks appended) = Raise e -> fst r = Raise e) /\
    (~ (saveable s /\ is_Some (to_json (PDict (context_or_empty context)))) ->
     exists e, fst (_save_active_tasks appended) = Raise e) /\
    (forall e, fst r = Raise e ->
     exists before,
       log (snd r) =
       before ++ [("ERROR", "Error saving active tasks: " +:+ str_exn e);
                  ("ERROR", "Error creating task: " +:+ str_exn e)]).
Proof.
  intros Hreply Hparse r.
  pose proof (plan_unparsable description context text s Hreply Hparse) as Hplan.
  split; [exact Hplan|].
  destruct (plan_task_steps_memory description context s) as (Ha & Hh & _ & Hw).
  subst r. unfold create_task. unfold_monad. simpl.
  destruct (_plan_task_steps description context s) as [o s1].
  simpl in Hplan, Ha, Hh, Hw. subst o.
  match goal with
  | |- context [_save_active_tasks ?S] =>
      destruct (save_after_append S (active_tasks s1) _ description context
                  _ _ eq_refl) as [Hact Hok];
      pose proof (save_active_tasks_outcome S) as Hout;
      pose proof (save_active_tasks_raise_log S) as Hlog;
      destruct (_save_active_tasks S) as [[[]|e] s2]
  end; simpl in Hact, Hok, Hout |- *.
  all: eexists _, _; cbv zeta; split; [exact Hact|];
    rewrite active_rows_length, Ha; split; [reflexivity|];
    split; [reflexivity|]; split; [reflexivity|].
  all: match goal with
       | |- context [set_active (_ ++ [?t]) _] =>
           pose proof (save_active_tasks_outcome
                         (set_active (active_tasks s ++ [t]) s)) as Hout';
           pose proof (saveable_with_new_task s
                         (task_name (length (active_tasks s) + length (task_history s) + 1))
                         description context
                         (wallclock s1 (ticks s1)) (wallclock s1 (S (ticks s1))))
             as Hiff
       end; cbv zeta in Hiff; state_simpl_in Hout';
    rewrite Hw, Ha in Hout; rewrite Hw, Ha in Hok; unfold dict in *;
    rewrite <- Hout in Hout'.
  - rewrite Hact, last_snoc. cbn [default from_option id].
    split; [congruence|]. split; [reflexivity|]. split; [|split].
    + intros e He. rewrite Hout' in He. discriminate.
    + intros Hnot. exfalso. apply Hnot, Hiff, save_active_tasks_saveable.
      exact Hout'.
    + discriminate.
  - split; [discriminate|]. split.
    + intros [Hwr Hrows] Hctx. specialize (Hok Hwr Hrows Hctx). discriminate.
    + split; [|split].
      * intros e' He'. rewrite Hout' in He'. congruence.
      * intros _. exists e. exact Hout'.
      * intros e' [= <-]. destruct (Hlog s2 e eq_refl) as [before Hb].
        exists before. rewrite Hb, <- app_assoc. reflexivity.
Qed.
End Degrade.

(** ** Persistence during execution *)

Section Persistence.
Context `{Builtins}.

Lemma get_task_state (task_id : string) (s : state) :
  snd (get_task task_id s) = s.
Proof.
  unfold get_task. unfold_monad.
  destruct (find_task task_id 0 (active_tasks s)) as [[i|]|e]; try reflexivity.
  destruct (find_task task_id 0 (task_history s)) as [[i|]|e]; reflexivity.
Qed.

End Persistence.

(** ** Storage *)

Section Storage.
Context `{Builtins}.

(** A corrupt active-tasks file is moved aside and replaced by an empty
    one. *)
Lemma load_active_tasks_recovers (s : state) (raw : string) :
  fs s !! tasks_file = Some (BadText raw) ->
  unwritable s tasks_file = false ->
  let r := _load_active_tasks s in
  fst r = Ok tt /\ active_tasks (snd r) = [] /\
  fs (snd r) !! tasks_file = Some (JsonDoc []) /\
  fs (snd r) !! (tasks_file +:+ ".bak") = Some (BadText raw).
Proof.
  intros Hfile Hw. unfold _load_active_tasks. unfold_monad.
  repeat first
    [ rewrite Hfile | rewrite Hw | rewrite bool_decide_eq_true_2 by eauto
    | progress state_simpl
    | progress cbn [is_json_decode_error to_jobjects] ].
  repeat split.
  - apply lookup_insert_eq.
  - rewrite lookup_insert_ne by discriminate. apply lookup_insert_eq.
Qed.

(** A corrupt history file is left where it is: the loader only empties the
    collection in memory. *)
Lemma load_task_history_keeps_file (s : state) (raw : string) :
  fs s !! history_file = Some (BadText raw) ->
  let r := _load_task_history s in
  fst r = Ok tt /\ task_history (snd r) = [] /\ fs (snd r) = fs s.
Proof.
  intros Hfile. unfold _load_task_history. unfold_monad.
  repeat first
    [ rewrite Hfile | rewrite bool_decide_eq_true_2 by eauto
    | progress state_simpl ].
  auto.
Qed.

(** Saving the active tasks to a file that refuses writes raises;
    [save_task_history_effect] shows that saving the history never does. *)
Lemma save_active_tasks_raises_write_failure (s : state) :
  unwritable s tasks_file = true ->
  exists e, fst (_save_active_tasks s) = Raise e.
Proof.
  intros Hw. unfold _save_active_tasks. unfold_monad.
  state_simpl.
  destruct (active_rows (active_tasks s)) as [tasks' [rows|e]]; simpl; eauto.
  state_simpl. rewrite Hw. simpl. eauto.
Qed.
End Storage.

(** ** The scenarios *)

Section Scenarios.
Import Demo Scenario.

(** C1. A task is created with three steps and executed; the first step's
    model call succeeds and the second raises.  Afterwards the task is still
    the only active task, nothing is archived and the third call was never
    made, but the steps carry the statuses [success], [error] and [pending]
    and the task is still [pending]: the statuses [completed] and [failed]
    that [execute_task] passes to the update methods are never stored. *)
Theorem sequential_halt_leaves_other_statuses :
  map step_statuses (active_tasks halt1) =
    [[Some (PStr "pending"); Some (PStr "pending"); Some (PStr "pending")]] /\
  value (execute_task "task_1") halt1 = Ok (result_error "timeout") /\
  map (dict_get "task_id") (active_tasks halt2) = [Some (PStr "task_1")] /\
  task_history halt2 = [] /\
  map step_statuses (active_tasks halt2) =
    [[Some (PStr "success"); Some (PStr "error"); Some (PStr "pending")]] /\
  map (dict_get "status") (active_tasks halt2) = [Some (PStr "pending")] /\
  calls halt1 = 1 /\ calls halt2 = 3.
Proof. vm_compute. repeat split; reflexivity. Qed.

(** C2. A task is created with two steps whose model calls both succeed
    and is executed.  It leaves the active collection, enters the history
    and gets a [completed_at] that is not before its [created_at], but its
    status is still [pending], not [completed]. *)
Theorem all_success_leaves_status_pending :
  value (execute_task "task_1") fine1 =
    Ok [("status", PStr "success"); ("task_id", PStr "task_1");
        ("message", PStr "Task completed successfully")] /\
  active_tasks fine2 = [] /\
  map (dict_get "task_id") (task_history fine2) = [Some (PStr "task_1")] /\
  map step_statuses (task_history fine2) =
    [[Some (PStr "success"); Some (PStr "success")]] /\
  map (dict_get "status") (task_history fine2) = [Some (PStr "pending")] /\
  map (dict_get "created_at") (task_history fine2) =
    [Some (PDatetime (demo_clock 4))] /\
  map (dict_get "completed_at") (task_history fine2) =
    [Some (PDatetime (demo_clock 8))] /\
  datetime_le (demo_clock 4) (demo_clock 8) = true.
Proof. vm_compute. repeat split; reflexivity. Qed.



(** C5. Both backing files hold text that is not JSON when the service
    starts.  Loading raises nothing and leaves both collections empty; the
    active-tasks file is renamed to its [.bak] name and recreated empty,
    but the history file stays as it was, with no backup and no new file. *)
Theorem corrupt_history_is_left_in_place :
  value init corrupt0 = Ok tt /\
  active_tasks corrupt1 = [] /\ task_history corrupt1 = [] /\
  fs corrupt1 !! tasks_file = Some (JsonDoc []) /\
  fs corrupt1 !! (tasks_file +:+ ".bak") = Some garbage /\
  fs corrupt1 !! history_file = Some garbage /\
  fs corrupt1 !! (history_file +:+ ".bak") = None.
Proof. vm_compute. repeat split; reflexivity. Qed.

(** C6. On a disk that refuses every write, saving the active tasks raises
    the write error, but saving the history returns normally: the error is
    logged, the file is not written and the caller is not told. *)
Theorem history_save_failure_is_swallowed :
  unwritable readonly0 tasks_file = true /\
  unwritable readonly0 history_file = true /\
  value _save_active_tasks readonly0 = Raise (OSError "Permission denied") /\
  value _save_task_history readonly0 = Ok tt /\
  fs (after _save_task_history readonly0) = fs readonly0 /\
  log (after _save_task_history readonly0) =
    [("INFO", "Saving task history to: task_history.json");
     ("ERROR", "Error saving task history: Permission denied")].
Proof. vm_compute. repeat split; reflexivity. Qed.

(** C7. A task with one step is saved and loaded back.  As an active task
    its own timestamps come back as the datetimes they were, but the step's
    [created_at] and [updated_at] come back as strings (and the save has
    already turned them into strings in memory).  As an archived task it
    is not written at all: the save stops at the step's datetimes, leaves
    the file cut short and reports nothing, and loading yields no task. *)
Theorem step_timestamps_do_not_round_trip :
  value _save_active_tasks trip0 = Ok tt /\
  map (dict_get "created_at") (active_tasks trip2) =
    map (dict_get "created_at") (active_tasks trip0) /\
  map (dict_get "updated_at") (active_tasks trip2) =
    map (dict_get "updated_at") (active_tasks trip0) /\
  map (fun t => map (field "created_at") (steps_of t)) (active_tasks trip0) =
    [[Some (PDatetime (demo_clock 0))]] /\
  map (fun t => map (field "created_at") (steps_of t)) (active_tasks trip2) =
    [[Some (PStr "2024-03-01T12:00:00")]] /\
  map (fun t => map (field "updated_at") (steps_of t)) (active_tasks trip0) =
    [[Some (PDatetime (demo_clock 1))]] /\
  map (fun t => map (field "updated_at") (steps_of t)) (active_tasks trip2) =
    [[Some (PStr "2024-03-01T12:00:00.000001")]] /\
  active_tasks trip1 = active_tasks trip2 /\
  value _save_task_history past0 = Ok tt /\
  fs past1 !! history_file = Some TornWrite /\
  task_history past1 = task_history past0 /\
  task_history past2 = [].
Proof. vm_compute. repeat split; reflexivity. Qed.

(** Against C8 as stated: the model's answer does not parse, yet
    [create_task] raises.  Once after a first task with one step was
    created (the save meets the step timestamps it turned into strings the
    time before), once because the active-tasks file cannot be written. *)
Lemma create_task_raises_on_unparsable_plan :
  completions chat1 (calls chat1) = Returns (PStr chatter) /\
  json_loads (clean_response (strip chatter)) = None /\
  value (create_task "Second task" None) chat1 =
    Raise (AttributeError "'str' object has no attribute 'isoformat'") /\
  completions locked0 (calls locked0) = Returns (PStr chatter) /\
  value (create_task "Second task" None) locked0 =
    Raise (OSError "Permission denied").
Proof. vm_compute. repeat split; reflexivity. Qed.

(** The amended C8 on a service that holds a first task and whose model
    answers with chatter. *)
Lemma create_task_with_unparsable_plan_witness :
  let r := create_task "Second task" None mute1 in
  fst (_plan_task_steps "Second task" None mute1) = Ok (PList []) /\
  exists (old : list dict) (task : dict),
    let appended := set_active (active_tasks mute1 ++ [task]) mute1 in
    active_tasks (snd r) = old ++ [task] /\
    length old = length (active_tasks mute1) /\
    dict_get "status" task = Some (PStr "pending") /\
    dict_get "steps" task = Some (PList []) /\
    (forall t, fst r = Ok t -> t = task) /\
    (saveable mute1 -> is_Some (to_json (PDict (context_or_empty None))) ->
     fst r = Ok task) /\
    (forall e, fst (_save_active_tasks appended) = Raise e -> fst r = Raise e) /\
    (~ (saveable mute1 /\ is_Some (to_json (PDict (context_or_empty None)))) ->
     exists e, fst (_save_active_tasks appended) = Raise e) /\
    (forall e, fst r = Raise e ->
     exists before,
       log (snd r) =
       before ++ [("ERROR", "Error saving active tasks: " +:+ str_exn e);
                  ("ERROR", "Error creating task: " +:+ str_exn e)]).
Proof.
  refine (create_task_with_unparsable_plan "Second task" None chatter mute1 _ _).
  - vm_compute. reflexivity.
  - vm_compute. reflexivity.
Defined.

(** Against C9 as stated: a service is started on the files its own run
    left.  That run archived an executed task, which left the history file
    cut short, so the history loads empty while task [task_2] is still
    active; the next task created is given the id [task_2] again. *)
Lemma restarted_service_reuses_an_id :
  ids (active_tasks first_run) = [Some (PStr "task_2")] /\
  ids (task_history first_run) = [Some (PStr "task_1"); Some (PStr "task_3")] /\
  fs first_run !! history_file = Some TornWrite /\
  ids (active_tasks restarted) = [Some (PStr "task_2")] /\
  task_history restarted = [] /\
  exists task other : dict,
    value (create_task "File the report" None) restarted = Ok task /\
    other ∈ active_tasks restarted ++ task_history restarted /\
    dict_get "task_id" other = dict_get "task_id" task /\
    ~ NoDup (all_ids restarted1).
Proof.
  split; [vm_compute; reflexivity|]. split; [vm_compute; reflexivity|].
  split; [vm_compute; reflexivity|]. split; [vm_compute; reflexivity|].
  split; [vm_compute; reflexivity|].
  eexists _, _. split; [vm_compute; reflexivity|].
  split; [|split].
  - vm_compute. apply list_elem_of_here.
  - vm_compute. reflexivity.
  - intros Hnd.
    assert (Hids : all_ids restarted1 = [Some (PStr "task_2"); Some (PStr "task_2")])
      by (vm_compute; reflexivity).
    rewrite Hids in Hnd. apply NoDup_cons_1_1 in Hnd. apply Hnd. left.
Qed.

(** The amended C9 on a service that holds one active and one archived
    task. *)
Lemma created_task_id_is_fresh_witness :
  dict_get "task_id" (new_task "task_3" "Send the report" None (PList [])
                        (PDatetime (demo_clock 6)) (PDatetime (demo_clock 7))) =
    Some (PStr (task_name (length (active_tasks busy) +
                           length (task_history busy) + 1))) /\
  (forall other, other ∈ active_tasks busy ++ task_history busy ->
     dict_get "task_id" other <>
     dict_get "task_id" (new_task "task_3" "Send the report" None (PList [])
                           (PDatetime (demo_clock 6)) (PDatetime (demo_clock 7)))) /\
  NoDup (all_ids (snd (create_task "Send the report" None busy))).
Proof.
  refine (created_task_id_is_fresh busy "Send the report" None _ _ _ _).
  - apply (reach_step _ (Archive "task_1")).
    apply (reach_step _ (Create "Rotate the logs" None)).
    apply (reach_step _ (Create "Collect the logs" None)).
    apply reach_start. unfold counted. vm_compute. reflexivity.
  - vm_compute. reflexivity.
Defined.

(** Against C10 as stated: in the service started again, two active tasks
    carry the id [task_2].  The first call archives the older one and
    returns normally; the second call is no no-op: it archives the other
    task. *)
Lemma second_archive_takes_the_other_task :
  let once := after (archive_task "task_2") restarted1 in
  let twice := after (archive_task "task_2") once in
  ids (active_tasks restarted1) = [Some (PStr "task_2"); Some (PStr "task_2")] /\
  value (archive_task "task_2") restarted1 = Ok tt /\
  map (dict_get "description") (active_tasks once) =
    [Some (PStr "File the report")] /\
  map (dict_get "description") (task_history once) =
    [Some (PStr "Rotate the logs")] /\
  value (archive_task "task_2") once = Ok tt /\
  active_tasks twice = [] /\
  map (dict_get "description") (task_history twice) =
    [Some (PStr "Rotate the logs"); Some (PStr "File the report")] /\
  archive_task "task_2" once <> (Ok tt, warned "task_2" once).
Proof.
  cbv zeta. repeat (split; [vm_compute; reflexivity|]).
  intros Hsame.
  assert (Hlen : length (active_tasks (snd (archive_task "task_2"
                   (after (archive_task "task_2") restarted1)))) = 1).
  { rewrite Hsame. vm_compute. reflexivity. }
  vm_compute in Hlen. discriminate.
Qed.

(** The amended C10 on a service with two active tasks: an id that is not
    there, and the id of the first task archived twice. *)
Lemma archive_task_idempotent_witness :
  archive_task "task_9" pair = (Ok tt, warned "task_9" pair) /\
  archive_task "task_1" (snd (archive_task "task_1" pair)) =
    (Ok tt, warned "task_1" (snd (archive_task "task_1" pair))).
Proof.
  split.
  - refine (proj1 (archive_task_idempotent pair "task_9") _).
    vm_compute. repeat constructor.
    + exists (PStr "task_1"). split; reflexivity.
    + exists (PStr "task_2"). split; reflexivity.
  - refine (proj2 (archive_task_idempotent pair "task_1") _ _ _).
    + apply unique_ids_carried_once. exists ["task_1"; "task_2"].
      split; [vm_compute; reflexivity|].
      apply NoDup_cons. split; [|apply NoDup_singleton].
      rewrite list_elem_of_singleton. discriminate.
    + vm_compute. reflexivity.
Defined.

End Scenarios.

(** * Further properties of the service *)

(** ** Postconditions and normal return *)

Section Post.

Lemma ensures_ret {A : Type} (Q : A -> Prop) (a : A) : Q a -> ensures Q (ret a).
Proof. intros Hq s a' s' Hrun. inversion Hrun; subst. exact Hq. Qed.

Lemma ensures_bind {A B : Type} (P : A -> Prop) (Q : B -> Prop)
    (m : M A) (k : A -> M B) :
  ensures P m -> (forall a, P a -> ensures Q (k a)) -> ensures Q (bind m k).
Proof.
  intros Hm Hk s b s' Hrun. unfold bind in Hrun.
  destruct (m s) as [[a|e] s1] eqn:Hms; [|discriminate].
  eapply Hk; eauto.
Qed.

Lemma ensures_any {A : Type} (m : M A) : ensures (fun _ => True) m.
Proof. intros s a s' _. exact I. Qed.

Lemma ensures_try_except {A : Type} (Q : A -> Prop) (m : M A)
    (handler : exn -> M A) :
  ensures Q m -> (forall e, ensures Q (handler e)) -> ensures Q (try_except m handler).
Proof.
  intros Hm Hh s a s' Hrun. unfold try_except in Hrun.
  destruct (m s) as [[a0|e] s1] eqn:Hms.
  - inversion Hrun; subst. eapply Hm; eauto.
  - eapply Hh; eauto.
Qed.

Lemma returns_ret {A : Type} (a : A) : returns (ret a).
Proof. intros s. exists a. reflexivity. Qed.

Lemma returns_bind {A B : Type} (m : M A) (k : A -> M B) :
  returns m -> (forall a, returns (k a)) -> returns (bind m k).
Proof.
  intros Hm Hk s. unfold bind. destruct (Hm s) as [a Ha].
  destruct (m s) as [[a0|e] s1]; simpl in Ha; [|discriminate].
  apply Hk.
Qed.

Lemma returns_try_except {A : Type} (m : M A) (handler : exn -> M A) :
  (forall e, returns (handler e)) -> returns (try_except m handler).
Proof.
  intros Hh s. unfold try_except.
  destruct (m s) as [[a|e] s1]; [exists a; reflexivity|apply Hh].
Qed.

Lemma returns_logger (level msg : string) : returns (logger level msg).
Proof. intros s. exists tt. reflexivity. Qed.



Lemma dict_set_absent {V : Type} (k : string) (v : V) (d : list (string * V)) :
  dict_get k d = None -> dict_set k v d = d ++ [(k, v)].
Proof.
  induction d as [|[k' v'] d IH]; simpl; [reflexivity|].
  destruct (String.eqb k k'); [discriminate|].
  intros Hd. rewrite IH by exact Hd. reflexivity.
Qed.

Lemma dict_has_get {V : Type} (k : string) (d : list (string * V)) :
  dict_has k d = true -> exists v, dict_get k d = Some v.
Proof.
  unfold dict_has. destruct (dict_get k d) as [v|]; [eauto|discriminate].
Qed.

End Post.

(** ** Looking a task up *)

Section Lookup.
Context `{Builtins}.

(** X1. [get_task_status] raises [ValueError: Task <id> not found] for every
    task id and every state, also for the id of an active task: its guard
    looks for the id string among the task dicts of the active list.  The
    state is left as it was. *)
Theorem get_task_status_always_raises (task_id : string) (s : state) :
  get_task_status task_id s =
  (Raise (ValueError ("Task " +:+ task_id +:+ " not found")), s).
Proof.
  unfold get_task_status, bind, get_state.
  rewrite py_in_str_dicts. reflexivity.
Qed.

Lemma get_task_unknown (task_id : string) (s : state) :
  absent task_id (active_tasks s) -> absent task_id (task_history s) ->
  get_task task_id s = (Ok None, s).
Proof.
  intros Ha Hh. unfold get_task. unfold_monad.
  rewrite (find_task_absent _ _ 0 Ha), (find_task_absent _ _ 0 Hh). reflexivity.
Qed.

Lemma find_task_at (task_id : string) (tasks : list dict) :
  forall (i k : nat) (t : dict),
    tasks !! i = Some t ->
    dict_get "task_id" t = Some (PStr task_id) ->
    absent task_id (take i tasks) ->
    find_task task_id k tasks = Ok (Some (k + i)).
Proof.
  induction tasks as [|t0 tasks IH]; intros i k t Hi Hid Habs; [discriminate|].
  destruct i as [|i]; cbn [find_task py_getitem].
  - simpl in Hi. inversion Hi; subst. rewrite Hid. cbn [and_then].
    rewrite py_eq_str_refl, Nat.add_0_r. reflexivity.
  - cbn [take] in Habs. inversion Habs as [|? ? (v & Hv & Hne) Hrest]; subst.
    rewrite Hv. cbn [and_then]. rewrite Hne.
    rewrite (IH i (S k) t Hi Hid Hrest). f_equal. f_equal. lia.
Qed.

(** X2. [get_task] searches the active tasks before the history and yields
    the first task carrying the id: a task at position [i] of the active
    list with no earlier active task of that id is found there, whatever the
    history holds; a task of the history is found only when no active task
    carries the id.  The state is not touched. *)
Theorem get_task_prefers_active (task_id : string) (s : state) (i : nat) (t : dict) :
  dict_get "task_id" t = Some (PStr task_id) ->
  (active_tasks s !! i = Some t -> absent task_id (take i (active_tasks s)) ->
   get_task task_id s = (Ok (Some (InActive i)), s)) /\
  (absent task_id (active_tasks s) ->
   task_history s !! i = Some t -> absent task_id (take i (task_history s)) ->
   get_task task_id s = (Ok (Some (InHistory i)), s)).
Proof.
  intros Hid. split.
  - intros Hi Habs. unfold get_task. unfold_monad.
    rewrite (find_task_at task_id _ i 0 t Hi Hid Habs). reflexivity.
  - intros Ha Hi Habs. unfold get_task. unfold_monad.
    rewrite (find_task_absent _ _ 0 Ha).
    rewrite (find_task_at task_id _ i 0 t Hi Hid Habs). reflexivity.
Qed.

End Lookup.

(** ** Executing steps and tasks *)

Section Execution.
Context `{Builtins}.

(** X3. For an id that neither collection holds, [execute_task] and
    [execute_step] return the error record [Task not found] without
    raising, and change nothing: no step runs, no completion call is made,
    nothing is logged or written. *)
Theorem unknown_task_id_is_reported (task_id : string) (step : pyval) (s : state) :
  absent task_id (active_tasks s) -> absent task_id (task_history s) ->
  execute_task task_id s = (Ok (result_error "Task not found"), s) /\
  execute_step task_id step s = (Ok (result_error "Task not found", step), s).
Proof.
  intros Ha Hh. unfold execute_task, execute_step, try_except, bind.
  rewrite (get_task_unknown task_id s Ha Hh). split; reflexivity.
Qed.

(** X4. A step whose [type] is neither [analysis] nor [action] (or is
    missing, which reads as [unknown]) is not sent to the model:
    [execute_step] returns the error record [Unknown step type: <type>],
    stores it in the step as its [result], sets the step's status to
    [error] and its [updated_at] to the one clock reading it takes; the
    rest of the state is as before. *)
Theorem unknown_step_type_makes_no_call (task_id : string) (p : place)
    (d : dict) (s : state) :
  fst (get_task task_id s) = Ok (Some p) ->
  let kind := dict_get_default "type" (PStr "unknown") d in
  py_eq kind (PStr "analysis") = false ->
  py_eq kind (PStr "action") = false ->
  let result := result_error ("Unknown step type: " +:+ str_of kind) in
  execute_step task_id (PDict d) s =
  (Ok (result,
       PDict (dict_set "updated_at" (PDatetime (wallclock s (ticks s)))
                (dict_set "status" (PStr "error")
                   (dict_set "result" (PDict result) d)))),
   set_ticks (S (ticks s)) s).
Proof.
  intros Hget kind Hanalysis Haction result.
  pose proof (get_task_state task_id s) as Hstate.
  unfold execute_step, try_except, bind.
  destruct (get_task task_id s) as [o s0]. simpl in Hget, Hstate. subst o s0.
  unfold get_state, lift, py_as_dict. fold kind.
  rewrite Hanalysis, Haction. reflexivity.
Qed.

Lemma returns_update_task_status (task_id status : string) :
  returns (update_task_status task_id status).
Proof. intros s. rewrite update_task_status_skips. exists tt. reflexivity. Qed.

Lemma execute_analysis_step_shape (step : dict) (context : pyval) :
  ensures step_result (_execute_analysis_step step context).
Proof.
  unfold _execute_analysis_step.
  apply ensures_try_except.
  - eapply ensures_bind; [apply ensures_any|]. intros _ _.
    eapply ensures_bind; [apply ensures_any|]. intros v _.
    apply ensures_ret. left. eauto.
  - intros e. eapply ensures_bind; [apply ensures_any|]. intros _ _.
    apply ensures_ret. right. eauto.
Qed.

Lemma execute_action_step_shape (step : dict) (context : pyval) :
  ensures step_result (_execute_action_step step context).
Proof.
  unfold _execute_action_step.
  apply ensures_try_except.
  - eapply ensures_bind; [apply ensures_any|]. intros _ _.
    eapply ensures_bind; [apply ensures_any|]. intros v _.
    apply ensures_ret. left. eauto.
  - intros e. eapply ensures_bind; [apply ensures_any|]. intros _ _.
    apply ensures_ret. right. eauto.
Qed.

Lemma execute_step_shape (task_id : string) (step : pyval) :
  ensures (fun executed => step_result (fst executed)) (execute_step task_id step).
Proof.
  unfold execute_step. apply ensures_try_except.
  - eapply ensures_bind; [apply ensures_any|]. intros [p|] _.
    2: { apply ensures_ret. right. eauto. }
    eapply ensures_bind; [apply ensures_any|]. intros s0 _.
    eapply ensures_bind; [apply ensures_any|]. intros d _.
    eapply (ensures_bind step_result).
    + destruct (py_eq _ (PStr "analysis")).
      * eapply ensures_bind; [apply ensures_any|]. intros context _.
        apply execute_analysis_step_shape.
      * destruct (py_eq _ (PStr "action")).
        -- eapply ensures_bind; [apply ensures_any|]. intros context _.
           apply execute_action_step_shape.
        -- apply ensures_ret. right. eauto.
    + intros r Hr. eapply ensures_bind; [apply ensures_any|]. intros t _.
      apply ensures_ret. exact Hr.
  - intros e. eapply ensures_bind; [apply ensures_any|]. intros _ _.
    apply ensures_ret. right. eauto.
Qed.

(** A step's result that is not a success is an error record. *)
Lemma step_result_not_success (r : dict) :
  step_result r ->
  py_eq (dict_get_default "status" PNone r) (PStr "success") = false ->
  exists msg, r = result_error msg.
Proof.
  intros [[v ->]|[msg ->]] Hstatus; [discriminate|eauto].
Qed.

Lemma run_steps_halts_on_error (task_id : string) (p : place) (steps : list pyval) :
  forall k,
    ensures (fun halted => forall r, halted = Some r -> exists msg, r = result_error msg)
            (run_steps task_id p k steps).
Proof.
  induction steps as [|step rest IH]; intros k; cbn [run_steps].
  - apply ensures_ret. discriminate.
  - eapply ensures_bind; [apply execute_step_shape|]. intros [r step'] Hr.
    cbn [fst snd] in *.
    eapply ensures_bind; [apply ensures_any|]. intros _ _.
    destruct (py_eq (dict_get_default "status" PNone r) (PStr "success")) eqn:Hs.
    + eapply ensures_bind; [apply ensures_any|]. intros step_id _.
      eapply ensures_bind; [apply ensures_any|]. intros _ _. apply IH.
    + eapply ensures_bind; [apply ensures_any|]. intros step_id _.
      eapply ensures_bind; [apply ensures_any|]. intros _ _.
      eapply ensures_bind; [apply ensures_any|]. intros _ _.
      apply ensures_ret. intros r0 Hr0. inversion Hr0; subst.
      apply step_result_not_success; assumption.
Qed.

(** X5. [execute_task] never raises, whatever the state and the id: it
    returns either the success record naming the task, or an error record
    [{status: error, error: <text>}] (the result of the step that stopped
    the loop, [Task not found], or the text of an exception caught on the
    way). *)
Theorem execute_task_always_reports (task_id : string) (s : state) :
  exists r, fst (execute_task task_id s) = Ok r /\
            (r = success_record task_id \/ exists msg, r = result_error msg).
Proof.
  assert (Hret : returns (execute_task task_id)).
  { unfold execute_task. apply returns_try_except. intros e.
    apply returns_bind; [apply returns_logger|]. intros _.
    apply returns_bind; [apply returns_update_task_status|]. intros _.
    apply returns_ret. }
  destruct (Hret s) as [r Hr]. exists r. split; [exact Hr|].
  assert (Hens : ensures (fun r => r = success_record task_id \/
                                   exists msg, r = result_error msg)
                         (execute_task task_id)).
  { unfold execute_task. apply ensures_try_except.
    - eapply ensures_bind; [apply ensures_any|]. intros [p|] _.
      2: { apply ensures_ret. right. eauto. }
      eapply ensures_bind; [apply ensures_any|]. intros _ _.
      eapply ensures_bind; [apply ensures_any|]. intros s0 _.
      eapply ensures_bind; [apply ensures_any|]. intros steps _.
      eapply ensures_bind; [apply run_steps_halts_on_error|].
      intros [result|] Hhalt.
      + apply ensures_ret. right. apply Hhalt. reflexivity.
      + eapply ensures_bind; [apply ensures_any|]. intros _ _.
        eapply ensures_bind; [apply ensures_any|]. intros _ _.
        eapply ensures_bind; [apply ensures_any|]. intros _ _.
        apply ensures_ret. left. reflexivity.
    - intros e. eapply ensures_bind; [apply ensures_any|]. intros _ _.
      eapply ensures_bind; [apply ensures_any|]. intros _ _.
      apply ensures_ret. right. eauto. }
  destruct (execute_task task_id s) as [o s'] eqn:Hrun. simpl in Hr. subst o.
  eapply Hens. exact Hrun.
Qed.



(** X7. Whatever [execute_task] and [archive_task] do and however they
    end, no task is lost, duplicated or invented: the ids held by the two
    collections together are afterwards a rearrangement of those held
    before. *)
Theorem tasks_are_conserved (task_id : string) (s : state) :
  all_ids (snd (execute_task task_id s)) ≡ₚ all_ids s /\
  all_ids (snd (archive_task task_id s)) ≡ₚ all_ids s.
Proof.
  split.
  - apply (execute_task_moves task_id s).
  - apply (archive_task_moves task_id s).
Qed.

(** X8. The prompt of the step executor [_execute_step] reads the keys
    [name], [description], [action] and [parameters] of the step, in this
    order; the first of them the step lacks is raised to the caller as a
    [KeyError], before any completion call and with the state unchanged
    (the method has no handler for it). *)
Theorem execute_step_prompt_missing_key (step context : dict) (s : state)
    (before after : list string) (k : string) :
  prompt_keys = before ++ k :: after ->
  Forall (fun k' => dict_has k' step = true) before ->
  dict_get k step = None ->
  _execute_step step context s = (Raise (KeyError k), s).
Proof.
  intros Hkeys Hbefore Hk. unfold prompt_keys in Hkeys.
  unfold _execute_step. unfold_monad. unfold py_getitem.
  destruct before as [|b1 [|b2 [|b3 [|b4 before]]]]; simpl in Hkeys;
    inversion Hkeys; subst;
    repeat match goal with
           | Hf : Forall _ (_ :: _) |- _ => apply Forall_cons in Hf as [? ?]
           | Hh : dict_has ?k' step = true |- _ =>
               destruct (dict_has_get _ _ Hh) as [? ->]; clear Hh
           end;
    try (rewrite Hk; reflexivity).
  destruct before; discriminate.
Qed.

(** X9. When the step has the four keys and its parameters and the context
    are serializable, [_execute_step] makes exactly one completion call and
    returns what [json.loads] reads from the answer; an answer that does
    not parse is not an error but comes back as the record
    [{error: Failed to parse result, raw_response: <answer>}]. *)
Theorem execute_step_prompt_answer (step context : dict) (s : state)
    (parameters : pyval) (text : string) :
  Forall (fun k => dict_has k step = true) ["name"; "description"; "action"] ->
  dict_get "parameters" step = Some parameters ->
  is_Some (to_json parameters) ->
  is_Some (to_json (PDict context)) ->
  completions s (calls s) = Returns (PStr text) ->
  _execute_step step context s =
  (Ok (match json_loads text with
       | Some j => of_json j
       | None => PDict [("error", PStr "Failed to parse result");
                        ("raw_response", PStr text)]
       end),
   set_calls (S (calls s)) s).
Proof.
  intros Hkeys Hp [jp Hjp] [jc Hjc] Hreply.
  repeat match goal with
         | Hf : Forall _ (_ :: _) |- _ => apply Forall_cons in Hf as [? ?]
         | Hh : dict_has ?k' step = true |- _ =>
             destruct (dict_has_get _ _ Hh) as [? ?]; clear Hh
         end.
  unfold _execute_step. unfold_monad. unfold py_getitem, json_dumps, py_json_loads.
  repeat match goal with Hg : dict_get _ step = Some _ |- _ => rewrite Hg; clear Hg end.
  rewrite Hjp, Hjc, Hreply.
  destruct (json_loads text); reflexivity.
Qed.

End Execution.

(** ** Planning and creating tasks *)

Section Planning.
Context `{Builtins}.

(** X10. The planner [_plan_task_steps] never raises and touches neither
    collection nor any file; when the completion call raises, it returns
    the empty list of steps. *)
Theorem planner_never_raises (description : string) (context : option dict)
    (s : state) :
  let r := _plan_task_steps description context s in
  (exists steps, fst r = Ok steps) /\
  active_tasks (snd r) = active_tasks s /\
  task_history (snd r) = task_history s /\
  fs (snd r) = fs s /\
  (forall msg, completions s (calls s) = Raises msg -> fst r = Ok (PList [])).
Proof.
  cbv zeta.
  destruct (plan_task_steps_memory description context s) as (Ha & Hh & Hfs & _).
  split; [apply plan_task_steps_returns|].
  repeat split; auto.
  intros msg Hreply. unfold _plan_task_steps. unfold_monad.
  destruct (json_dumps _); [|reflexivity].
  rewrite Hreply. reflexivity.
Qed.

Lemma stamp_steps_dicts (ds : list dict) :
  forall i s,
    stamp_steps i (map PDict ds) s =
    (Ok (planned_steps (wallclock s) i (ticks s) ds),
     set_ticks (ticks s + 2 * length ds) s).
Proof.
  induction ds as [|d ds IH]; intros i s.
  - cbn [map stamp_steps planned_steps length]. unfold ret.
    rewrite Nat.mul_0_r, Nat.add_0_r. destruct s; reflexivity.
  - cbn [map stamp_steps planned_steps length]. unfold stamp_step.
    unfold_monad. cbn [py_setitem]. state_simpl.
    rewrite IH. state_simpl.
    replace (S (S (ticks s)) + 2 * length ds) with (ticks s + 2 * S (length ds)) by lia.
    reflexivity.
Qed.

Lemma of_json_objects (objs : list jobject) :
  map of_json (map JObj objs) = map PDict (map of_jobject objs).
Proof. induction objs as [|o objs IH]; simpl; [reflexivity|]. rewrite IH. reflexivity. Qed.

Lemma planned_steps_lookup (clock : nat -> datetime) (ds : list dict) :
  forall i t n d,
    ds !! n = Some d ->
    planned_steps clock i t ds !! n = Some (planned_step clock (i + n) (t + 2 * n) d).
Proof.
  induction ds as [|d0 ds IH]; intros i t n d Hn; [discriminate|].
  destruct n as [|n]; cbn [planned_steps].
  - simpl in Hn. inversion Hn; subst. rewrite !Nat.add_0_r. reflexivity.
  - simpl in Hn. simpl. rewrite (IH (S i) (S (S t)) n d Hn).
    f_equal. f_equal; lia.
Qed.

Lemma planned_steps_length (clock : nat -> datetime) (ds : list dict) :
  forall i t, length (planned_steps clock i t ds) = length ds.
Proof. induction ds as [|d ds IH]; intros i t; simpl; auto. Qed.

(** X11. When the model answers with a JSON array of objects, the planner
    returns one step for each object, in the same order: step number [n]
    (from 0) has the id [step_<n+1>], the status [pending], and as
    [created_at] and [updated_at] two successive clock readings of its own
    (readings [2n] and [2n+1] after the call started); every other key has
    the value the model gave.  An [id], [status], [created_at] or
    [updated_at] the model supplied is overwritten. *)
Theorem planner_stamps_every_step (description : string) (context : option dict)
    (text : string) (objs : list jobject) (s : state) :
  is_Some (to_json (PDict (context_or_empty context))) ->
  completions s (calls s) = Returns (PStr text) ->
  json_loads (clean_response (strip text)) = Some (JArr (map JObj objs)) ->
  exists steps,
    fst (_plan_task_steps description context s) = Ok (PList steps) /\
    length steps = length objs /\
    forall n obj, objs !! n = Some obj ->
      exists d,
        steps !! n = Some (PDict d) /\
        dict_get "id" d = Some (PStr ("step_" +:+ pretty (S n))) /\
        dict_get "status" d = Some (PStr "pending") /\
        dict_get "created_at" d = Some (PDatetime (wallclock s (ticks s + 2 * n))) /\
        dict_get "updated_at" d = Some (PDatetime (wallclock s (ticks s + 2 * n + 1))) /\
        forall k, k <> "id" -> k <> "status" -> k <> "created_at" ->
                  k <> "updated_at" ->
                  dict_get k d = dict_get k (of_jobject obj).
Proof.
  intros [jc Hjc] Hreply Hparse.
  exists (planned_steps (wallclock s) 1 (ticks s) (map of_jobject objs)).
  split; [|split].
  - unfold _plan_task_steps. unfold try_except, bind at 1.
    unfold lift at 1, json_dumps. rewrite Hjc.
    unfold bind at 1. unfold get_completion. rewrite Hreply.
    unfold bind at 1. unfold lift at 1. cbn [py_strip].
    rewrite Hparse. unfold bind at 1. unfold ret at 1.
    unfold bind at 1. unfold lift at 1. cbn [of_json py_iter].
    rewrite of_json_objects. unfold bind.
    rewrite stamp_steps_dicts. reflexivity.
  - rewrite planned_steps_length. apply length_map.
  - intros n obj Hn.
    assert (Hn' : map of_jobject objs !! n = Some (of_jobject obj)).
    { rewrite map_lookup, Hn. reflexivity. }
    rewrite (planned_steps_lookup _ _ 1 (ticks s) n _ Hn').
    eexists. split; [reflexivity|].
    repeat split.
    + rewrite !dict_get_set_ne by discriminate. apply dict_get_set_eq.
    + rewrite !dict_get_set_ne by discriminate. apply dict_get_set_eq.
    + rewrite !dict_get_set_ne by discriminate. apply dict_get_set_eq.
    + replace (ticks s + 2 * n + 1) with (S (ticks s + 2 * n)) by lia.
      apply dict_get_set_eq.
    + intros k H1 H2 H3 H4. rewrite !dict_get_set_ne by auto. reflexivity.
Qed.

(** X12. [create_task] appends exactly one task to the active list,
    carrying the id [task_<active + archived + 1>], and leaves the ids of
    the history alone; this holds however the call ends, so a task whose
    save failed (and whose creation was reported as an exception) is in the
    active list all the same. *)
Theorem create_task_always_appends (description : string)
    (context : option dict) (s : state) :
  let s' := snd (create_task description context s) in
  ids (active_tasks s') =
    ids (active_tasks s) ++
    [Some (PStr (task_name (length (active_tasks s) + length (task_history s) + 1)))] /\
  length (active_tasks s') = S (length (active_tasks s)) /\
  ids (task_history s') = ids (task_history s).
Proof.
  cbv zeta.
  destruct (create_task_effect description context s) as (Ha & Hh & _).
  split; [exact Ha|]. split; [|exact Hh].
  apply (f_equal length) in Ha. unfold ids in Ha.
  rewrite length_app, !length_map in Ha. simpl in Ha. unfold dict in *. lia.
Qed.

End Planning.

(** ** Storage *)

Section Store.
Context `{Builtins}.

(** X13. [_save_task_history] returns normally whatever happens and changes
    neither collection; when the history file cannot be opened for writing,
    no file changes either. *)
Theorem history_save_is_silent (s : state) :
  fst (_save_task_history s) = Ok tt /\
  active_tasks (snd (_save_task_history s)) = active_tasks s /\
  task_history (snd (_save_task_history s)) = task_history s /\
  (unwritable s history_file = true ->
   fs (snd (_save_task_history s)) = fs s).
Proof.
  destruct (save_task_history_effect s) as (Hok & Ha & Hh).
  repeat split; auto.
  intros Hw. unfold _save_task_history. unfold_monad. state_simpl.
  destruct (history_rows (task_history s)); state_simpl; [|reflexivity].
  rewrite Hw. reflexivity.
Qed.

Lemma load_task_history_returns (s : state) : fst (_load_task_history s) = Ok tt.
Proof.
  unfold _load_task_history, try_except.
  match goal with
  | |- context [match ?m s with _ => _ end] => destruct (m s) as [[[]|e] s1]
  end; reflexivity.
Qed.

Lemma load_active_tasks_returns (s : state) : fst (_load_active_tasks s) = Ok tt.
Proof.
  unfold _load_active_tasks, try_except.
  match goal with
  | |- context [match ?m s with _ => _ end] => destruct (m s) as [[[]|e] s1]
  end; reflexivity.
Qed.

(** X14. Constructing the service never raises, whatever the disk holds.
    When neither backing file exists and both paths can be written, it
    starts with two empty collections and creates both files, each holding
    an empty JSON array. *)
Theorem init_never_raises (s : state) :
  fst (init s) = Ok tt /\
  (fs s !! history_file = None -> fs s !! tasks_file = None ->
   unwritable s history_file = false -> unwritable s tasks_file = false ->
   active_tasks (snd (init s)) = [] /\ task_history (snd (init s)) = [] /\
   fs (snd (init s)) !! history_file = Some (JsonDoc []) /\
   fs (snd (init s)) !! tasks_file = Some (JsonDoc [])).
Proof.
  split.
  - unfold init, bind, modify.
    pose proof (load_task_history_returns (set_history [] (set_active [] s))) as Hh.
    destruct (_load_task_history _) as [o s1]. simpl in Hh. subst o.
    apply load_active_tasks_returns.
  - intros Hhf Htf Hhw Htw.
    unfold init, _load_task_history, _load_active_tasks. unfold_monad.
    unfold history_file, tasks_file in *.
    repeat first
      [ rewrite Hhf | rewrite Htf | rewrite Hhw | rewrite Htw
      | rewrite bool_decide_eq_false_2 by (intros [? ?]; discriminate)
      | rewrite lookup_insert_ne by discriminate
      | progress state_simpl
      | progress cbn [to_jobjects] ].
    repeat split; apply lookup_insert_eq.
Qed.

End Store.

(** ** Log analysis *)

Section LogAnalysis.
Context `{Builtins}.

Lemma now_iso_run (s : state) :
  now_iso s = (Ok (PStr (isoformat (wallclock s (ticks s)))), set_ticks (S (ticks s)) s).
Proof. reflexivity. Qed.

(** X15. [analyze_logs] never raises and always returns a dict with a
    [timestamp] entry holding a string, whatever the logs, the model's
    answer and the state: on the parsed answer, on the summary built from an
    answer that does not parse, and on the error record. *)
Theorem analyze_logs_always_timestamped (prompt : string) (logs : list dict)
    (s : state) :
  exists (d : dict) (stamp : string),
    fst (analyze_logs prompt logs s) = Ok (PDict d) /\
    dict_get "timestamp" d = Some (PStr stamp).
Proof.
  unfold analyze_logs, try_except, try_except_json, bind, lift.
  destruct (log_prompt logs) as [[]|e].
  2: { unfold logger, modify. rewrite now_iso_run. eexists _, _. split; reflexivity. }
  destruct (get_completion s) as [[response|e] s1].
  2: { unfold logger, modify. rewrite now_iso_run. eexists _, _. split; reflexivity. }
  destruct (py_json_loads response) as [analysis|e].
  - rewrite now_iso_run.
    destruct analysis; cbn [py_setitem];
      try (unfold logger, modify; rewrite now_iso_run;
           eexists _, _; split; reflexivity).
    eexists _, _. split; [reflexivity|]. apply dict_get_set_eq.
  - destruct (is_json_decode_error e).
    + rewrite now_iso_run. unfold ret. eexists _, _. split; reflexivity.
    + unfold logger, modify. rewrite now_iso_run. eexists _, _. split; reflexivity.
Qed.

(** X16. When formatting the prompt raises (the list of logs is empty, its
    first or last entry has no [timestamp], or a log value is not
    serializable), neither method calls the model: [analyze_logs] returns
    [{error, timestamp}] and [detect_anomalies] a single anomaly of type
    [error] and severity [high], each with the text of the exception; one
    error is logged and one clock reading is taken. *)
Theorem unformattable_logs_are_an_error (prompt : string) (logs : list dict)
    (e : exn) (s : state) :
  log_prompt logs = Raise e ->
  let stamp := PStr (isoformat (wallclock s (ticks s))) in
  let s' := set_ticks (S (ticks s)) s in
  analyze_logs prompt logs s =
    (Ok (PDict [("error", PStr (str_exn e)); ("timestamp", stamp)]),
     set_log (log s ++ [("ERROR", "Error analyzing logs: " +:+ str_exn e)]) s')
  /\
  detect_anomalies prompt logs s =
    (Ok (error_anomaly ("Error in anomaly detection: " +:+ str_exn e)
                       "Check system logs for more details" stamp),
     set_log (log s ++ [("ERROR", "Error in anomaly detection: " +:+ str_exn e)]) s').
Proof.
  intros Hprompt. unfold analyze_logs, detect_anomalies. unfold_monad.
  rewrite Hprompt. split; reflexivity.
Qed.

(** X17. When the model's answer is not JSON, [analyze_logs] returns it as
    the [summary] of a record with empty [key_events], [issues] and
    [recommendations] and the current time; one completion call and one
    clock reading are made and nothing is logged. *)
Theorem analyze_logs_keeps_unparsable_answer (prompt : string) (logs : list dict)
    (text : string) (s : state) :
  log_prompt logs = Ok tt ->
  completions s (calls s) = Returns (PStr text) ->
  json_loads text = None ->
  analyze_logs prompt logs s =
  (Ok (PDict [("summary", PStr text); ("key_events", PList []);
              ("issues", PList []); ("recommendations", PList []);
              ("timestamp", PStr (isoformat (wallclock s (ticks s))))]),
   set_ticks (S (ticks s)) (set_calls (S (calls s)) s)).
Proof.
  intros Hprompt Hreply Hparse.
  unfold analyze_logs. unfold_monad. unfold py_json_loads.
  rewrite Hprompt, Hreply, Hparse. reflexivity.
Qed.

Lemma stamp_anomalies_dicts (anomalies : list pyval) :
  Forall (fun a => exists d, a = PDict d) anomalies ->
  forall s, exists out s',
    stamp_anomalies anomalies s = (Ok out, s') /\
    Forall2 stamped anomalies out /\ calls s' = calls s.
Proof.
  induction 1 as [|a rest [d ->] _ IH]; intros s.
  - exists [], s. repeat split. constructor.
  - cbn [stamp_anomalies]. unfold bind at 1. unfold lift at 1.
    cbn [py_contains].
    destruct (dict_has "timestamp" d) eqn:Hhas.
    + unfold bind at 1. unfold ret at 1.
      destruct (IH s) as (out & s' & Hrun & Hout & Hcalls).
      unfold bind. rewrite Hrun. exists (PDict d :: out), s'.
      repeat split; [|exact Hcalls].
      constructor; [|exact Hout]. exists d. split; [reflexivity|]. left. auto.
    + unfold bind at 1. unfold bind at 1. rewrite now_iso_run.
      unfold lift at 1. cbn [py_setitem].
      destruct (IH (set_ticks (S (ticks s)) s)) as (out & s' & Hrun & Hout & Hcalls).
      unfold bind. rewrite Hrun. eexists (_ :: out), s'.
      repeat split; [|exact Hcalls].
      constructor; [|exact Hout]. exists d. split; [reflexivity|]. right.
      split; [exact Hhas|]. eexists.
      rewrite dict_set_absent; [reflexivity|].
      unfold dict_has in Hhas. destruct (dict_get "timestamp" d); [discriminate|reflexivity].
Qed.

(** X18. When the model answers with a JSON array of objects,
    [detect_anomalies] returns them in order, one for one: an anomaly that
    has a [timestamp] comes back unchanged, one that has none gets a
    [timestamp] string as its last entry; exactly one completion call is
    made. *)
Theorem detect_anomalies_stamps_each_anomaly (prompt : string) (logs : list dict)
    (text : string) (items : list json) (s : state) :
  log_prompt logs = Ok tt ->
  completions s (calls s) = Returns (PStr text) ->
  json_loads text = Some (JArr items) ->
  Forall (fun j => exists members, j = JObj members) items ->
  exists out,
    fst (detect_anomalies prompt logs s) = Ok (PList out) /\
    Forall2 stamped (map of_json items) out /\
    calls (snd (detect_anomalies prompt logs s)) = S (calls s).
Proof.
  intros Hprompt Hreply Hparse Hobjects.
  assert (Hdicts : Forall (fun a => exists d, a = PDict d) (map of_json items)).
  { clear Hparse. induction Hobjects as [|j items [members ->] _ IH]; simpl.
    - constructor.
    - constructor; [eexists; reflexivity|exact IH]. }
  destruct (stamp_anomalies_dicts _ Hdicts (set_calls (S (calls s)) s))
    as (out & s' & Hrun & Hout & Hcalls).
  exists out.
  unfold detect_anomalies. unfold try_except, try_except_json, bind, lift.
  rewrite Hprompt. unfold get_completion. rewrite Hreply.
  unfold py_json_loads. rewrite Hparse. cbn [of_json py_iter].
  rewrite Hrun. unfold ret. simpl. auto.
Qed.


End LogAnalysis.

(** ** Saving twice, round trips, archiving and loading *)

Section Resave.
Context `{Builtins}.

Lemma dict_set_twice {V : Type} (k : string) (v v' : V) (d : list (string * V)) :
  dict_set k v (dict_set k v' d) = dict_set k v d.
Proof.
  induction d as [|[k0 v0] d IH]; simpl.
  - rewrite String.eqb_refl. reflexivity.
  - destruct (String.eqb k k0) eqn:E; simpl; rewrite E; [reflexivity|].
    rewrite IH. reflexivity.
Qed.

Lemma iso_key_cases (k : string) (d c : dict) :
  iso_key k d = Ok c ->
  (dict_get k d = None /\ c = d) \/
  (exists t, dict_get k d = Some (PDatetime t) /\
             c = dict_set k (PStr (isoformat t)) d).
Proof.
  unfold iso_key. destruct (dict_get k d) as [v|]; [|intros [= <-]; auto].
  destruct v; simpl; intros Hc; try discriminate.
  inversion Hc; subst. right. eauto.
Qed.

Lemma iso_key_other (k k0 : string) (d c : dict) :
  iso_key k d = Ok c -> k0 <> k -> dict_get k0 c = dict_get k0 d.
Proof.
  intros Hc Hne.
  destruct (iso_key_cases k d c Hc) as [[_ ->]|(t & _ & ->)]; [reflexivity|].
  apply dict_get_set_ne. exact Hne.
Qed.

Lemma iso_key_same_entry (k : string) (d d' c : dict) :
  iso_key k d = Ok c -> dict_get k d' = dict_get k d ->
  exists c', iso_key k d' = Ok c'.
Proof.
  unfold iso_key. intros Hc ->.
  destruct (dict_get k d) as [v|]; [|eauto].
  destruct (py_isoformat v); simpl in *; [eauto|discriminate].
Qed.

Lemma iso_key_on_string (k s : string) (d : dict) :
  dict_get k d = Some (PStr s) -> iso_key k d = Raise str_isoformat_error.
Proof. unfold iso_key. intros ->. reflexivity. Qed.

Lemma iso_key_on_none (k : string) (d : dict) :
  dict_get k d = None -> iso_key k d = Ok d.
Proof. unfold iso_key. intros ->. reflexivity. Qed.

(** A step that is not a dict passes the loop only unchanged. *)
Lemma iso_step_key_not_dict (k : string) (e e' : pyval) :
  (forall d, e <> PDict d) -> iso_step_key k e = Ok e' -> e' = e.
Proof.
  intros Hnd. destruct e; simpl; try discriminate.
  - destruct (substring_of k s); simpl; [discriminate|]. intros [= <-]. reflexivity.
  - destruct (py_in (PStr k) items); simpl; [discriminate|]. intros [= <-]. reflexivity.
  - destruct (Hnd entries eq_refl).
Qed.

Lemma dict_has_false {V : Type} (k : string) (d : list (string * V)) :
  dict_get k d = None -> dict_has k d = false.
Proof. unfold dict_has. intros ->. reflexivity. Qed.

Lemma step_after_save (e e1 e2 : pyval) :
  iso_step_key "created_at" e = Ok e1 ->
  iso_step_key "updated_at" e1 = Ok e2 ->
  (step_passes e2 \/ step_stops e2) /\
  (forall d, e = PDict d ->
     dict_has "created_at" d = true \/ dict_has "updated_at" d = true ->
     step_stops e2).
Proof.
  intros H1 H2.
  assert (Hdict : (exists d, e = PDict d) \/ (forall d, e <> PDict d)).
  { destruct e; try (right; intros ?; discriminate). left. eauto. }
  destruct Hdict as [[d ->]|Hnd].
  - simpl in H1. destruct (iso_key "created_at" d) as [d1|] eqn:Hc; [|discriminate].
    simpl in H1. inversion H1; subst e1. clear H1.
    simpl in H2. destruct (iso_key "updated_at" d1) as [d2|] eqn:Hu; [|discriminate].
    simpl in H2. inversion H2; subst e2. clear H2.
    unfold step_passes, step_stops. cbn [iso_step_key].
    destruct (iso_key_cases _ _ _ Hc) as [[Hc0 ->]|(tc & Hc0 & ->)];
      destruct (iso_key_cases _ _ _ Hu) as [[Hu0 ->]|(tu & Hu0 & ->)].
    + split.
      * left. rewrite (iso_key_on_none _ _ Hc0), (iso_key_on_none _ _ Hu0).
        split; reflexivity.
      * intros d' [= <-]. rewrite (dict_has_false _ _ Hc0), (dict_has_false _ _ Hu0).
        intros [?|?]; discriminate.
    + assert (Hstop : step_stops (PDict (dict_set "updated_at" (PStr (isoformat tu)) d))).
      { right. cbn [iso_step_key].
        rewrite (iso_key_on_none "created_at").
        2: { rewrite dict_get_set_ne by discriminate. exact Hc0. }
        rewrite (iso_key_on_string "updated_at" (isoformat tu)).
        2: { apply dict_get_set_eq. }
        split; reflexivity. }
      split; [right; exact Hstop|intros; exact Hstop].
    + assert (Hstop : step_stops (PDict (dict_set "created_at" (PStr (isoformat tc)) d))).
      { left. cbn [iso_step_key].
        rewrite (iso_key_on_string "created_at" (isoformat tc)).
        2: { apply dict_get_set_eq. }
        reflexivity. }
      split; [right; exact Hstop|intros; exact Hstop].
    + assert (Hstop : step_stops
                (PDict (dict_set "updated_at" (PStr (isoformat tu))
                          (dict_set "created_at" (PStr (isoformat tc)) d)))).
      { left. cbn [iso_step_key].
        rewrite (iso_key_on_string "created_at" (isoformat tc)).
        2: { rewrite dict_get_set_ne by discriminate. apply dict_get_set_eq. }
        reflexivity. }
      split; [right; exact Hstop|intros; exact Hstop].
  - pose proof (iso_step_key_not_dict _ _ _ Hnd H1) as ->.
    pose proof (iso_step_key_not_dict _ _ _ Hnd H2) as ->.
    split.
    + left. split; assumption.
    + intros d ->. destruct (Hnd d eq_refl).
Qed.

Lemma iso_steps_after_save (items : list pyval) :
  forall items',
    iso_steps items = (items', None) ->
    (iso_steps items' = (items', None) \/
     iso_steps items' = (items', Some str_isoformat_error)) /\
    (forall j d, items !! j = Some (PDict d) ->
       dict_has "created_at" d = true \/ dict_has "updated_at" d = true ->
       iso_steps items' = (items', Some str_isoformat_error)).
Proof.
  induction items as [|e rest IH]; intros items' Hrun.
  - simpl in Hrun. inversion Hrun; subst. split; [left; reflexivity|].
    intros j d Hj. discriminate.
  - cbn [iso_steps] in Hrun.
    destruct (iso_step_key "created_at" e) as [e1|] eqn:H1; [|discriminate].
    destruct (iso_step_key "updated_at" e1) as [e2|] eqn:H2; [|discriminate].
    destruct (iso_steps rest) as [rest' r] eqn:Hrest.
    inversion Hrun; subst items' r. clear Hrun.
    destruct (IH rest' eq_refl) as [Hagain Hflag].
    destruct (step_after_save e e1 e2 H1 H2) as [Hstep Hstepflag].
    assert (Hstops : step_stops e2 ->
              iso_steps (e2 :: rest') = (e2 :: rest', Some str_isoformat_error)).
    { intros [Hc|[Hc Hu]]; cbn [iso_steps]; rewrite Hc; [reflexivity|].
      rewrite Hu. reflexivity. }
    assert (Hpasses : step_passes e2 ->
              iso_steps (e2 :: rest') =
              (e2 :: fst (iso_steps rest'), snd (iso_steps rest'))).
    { intros [Hc Hu]. cbn [iso_steps]. rewrite Hc, Hu.
      destruct (iso_steps rest'); reflexivity. }
    split.
    + destruct Hstep as [Hp|Hs]; [|right; auto].
      rewrite (Hpasses Hp).
      destruct Hagain as [-> | ->]; [left|right]; reflexivity.
    + intros [|j] d Hj Hd; simpl in Hj.
      * inversion Hj; subst e. apply Hstops. apply (Hstepflag d eq_refl Hd).
      * destruct Hstep as [Hp|Hs]; [|auto].
        rewrite (Hpasses Hp), (Hflag j d Hj Hd). reflexivity.
Qed.

Lemma iso_steps_value_after_save (v v' : pyval) :
  iso_steps_value v = (v', None) ->
  (iso_steps_value v' = (v', None) \/
   iso_steps_value v' = (v', Some str_isoformat_error)) /\
  (forall steps j d, v = PList steps -> steps !! j = Some (PDict d) ->
     dict_has "created_at" d = true \/ dict_has "updated_at" d = true ->
     iso_steps_value v' = (v', Some str_isoformat_error)).
Proof.
  intros Hrun.
  destruct v; unfold iso_steps_value in Hrun; cbn [py_iter] in Hrun;
    try discriminate.
  - (* a string: its characters *)
    destruct (iso_steps _) as [items' r] eqn:Hitems.
    inversion Hrun; subst v' r. split.
    + left. unfold iso_steps_value. cbn [py_iter]. rewrite Hitems. reflexivity.
    + intros steps j d Hv. discriminate.
  - (* a list *)
    destruct (iso_steps items) as [items' r] eqn:Hitems.
    inversion Hrun; subst v' r.
    destruct (iso_steps_after_save items items' Hitems) as [Hagain Hflag].
    split.
    + unfold iso_steps_value. cbn [py_iter].
      destruct Hagain as [-> | ->]; [left|right]; reflexivity.
    + intros steps j d [= <-] Hj Hd.
      unfold iso_steps_value. cbn [py_iter]. rewrite (Hflag j d Hj Hd). reflexivity.
  - (* a dict: its keys *)
    destruct (iso_steps _) as [items' r] eqn:Hitems.
    inversion Hrun; subst v' r. split.
    + left. unfold iso_steps_value. cbn [py_iter]. rewrite Hitems. reflexivity.
    + intros steps j d Hv. discriminate.
Qed.

Lemma active_row_after_save (t t' row : dict) :
  active_row t = (t', Ok row) ->
  resaves t' /\ (has_stamped_step t -> active_row t' = (t', Raise str_isoformat_error)).
Proof.
  intros Hrun. unfold active_row in Hrun.
  destruct (iso_key "created_at" t) as [c1|] eqn:Hc; [|discriminate].
  destruct (iso_key "updated_at" c1) as [c2|] eqn:Hu; [|discriminate].
  assert (Hsteps : dict_get "steps" c2 = dict_get "steps" t).
  { rewrite (iso_key_other _ "steps" _ _ Hu) by discriminate.
    apply (iso_key_other _ "steps" _ _ Hc). discriminate. }
  destruct (dict_get "steps" c2) as [v|] eqn:Hv.
  - destruct (iso_steps_value v) as [v' r] eqn:Hval.
    destruct r as [e|]; [discriminate|].
    inversion Hrun; subst t' row. clear Hrun.
    destruct (iso_steps_value_after_save v v' Hval) as [Hagain Hflag].
    (* the second pass over the task as the first one left it *)
    destruct (iso_key_same_entry "created_at" t (dict_set "steps" v' t) c1 Hc)
      as [c1' Hc'].
    { apply dict_get_set_ne. discriminate. }
    destruct (iso_key_same_entry "updated_at" c1 c1' c2 Hu) as [c2' Hu'].
    { rewrite (iso_key_other _ "updated_at" _ _ Hc') by discriminate.
      rewrite (iso_key_other _ "updated_at" _ _ Hc) by discriminate.
      apply dict_get_set_ne. discriminate. }
    assert (Hsteps' : dict_get "steps" c2' = Some v').
    { rewrite (iso_key_other _ "steps" _ _ Hu') by discriminate.
      rewrite (iso_key_other _ "steps" _ _ Hc') by discriminate.
      apply dict_get_set_eq. }
    assert (Hrow : forall r',
              iso_steps_value v' = (v', r') ->
              active_row (dict_set "steps" v' t) =
              (dict_set "steps" v' t,
               match r' with
               | Some e => Raise e
               | None => Ok (dict_set "steps" v' c2')
               end)).
    { intros r' Hr'. unfold active_row. rewrite Hc', Hu', Hsteps', Hr'.
      rewrite dict_set_twice. reflexivity. }
    split.
    + destruct Hagain as [Hn|He].
      * left. eexists. apply (Hrow None Hn).
      * right. apply (Hrow _ He).
    + intros (steps & j & d & Hs & Hj & Hd).
      rewrite <- Hsteps in Hs. inversion Hs; subst v.
      apply (Hrow _ (Hflag steps j d eq_refl Hj Hd)).
  - inversion Hrun; subst t' row. clear Hrun. split.
    + left. exists c2. unfold active_row. rewrite Hc, Hu, Hv. reflexivity.
    + intros (steps & j & d & Hs & _). rewrite <- Hsteps in Hs. discriminate.
Qed.

Lemma active_rows_after_save (tasks : list dict) :
  forall tasks' rows,
    active_rows tasks = (tasks', Ok rows) ->
    Forall resaves tasks' /\
    (forall i t, tasks !! i = Some t -> has_stamped_step t ->
       exists t', tasks' !! i = Some t' /\
                  active_row t' = (t', Raise str_isoformat_error)).
Proof.
  induction tasks as [|t rest IH]; intros tasks' rows Hrun.
  - simpl in Hrun. inversion Hrun; subst. split; [constructor|].
    intros i t Hi. discriminate.
  - cbn [active_rows] in Hrun.
    destruct (active_row t) as [t' [row|e]] eqn:Hrow; [|discriminate].
    destruct (active_rows rest) as [rest' r] eqn:Hrest.
    destruct r as [rows'|e]; simpl in Hrun; [|discriminate].
    inversion Hrun; subst tasks' rows. clear Hrun.
    destruct (IH rest' rows' eq_refl) as [Hall Hflag].
    destruct (active_row_after_save t t' row Hrow) as [Hre Hstop].
    split; [constructor; assumption|].
    intros [|i] t0 Hi Hst; simpl in Hi.
    + inversion Hi; subst t0. exists t'. split; [reflexivity|auto].
    + apply (Hflag i t0 Hi Hst).
Qed.

(** A list of saved tasks one of which stops the save: the save stops
    there, whatever follows, and changes nothing in memory. *)
Lemma active_rows_stop (tasks : list dict) :
  Forall resaves tasks ->
  forall i t, tasks !! i = Some t ->
    active_row t = (t, Raise str_isoformat_error) ->
    forall more, active_rows (tasks ++ more) =
                 (tasks ++ more, Raise str_isoformat_error).
Proof.
  induction 1 as [|t0 rest Ht0 _ IH]; intros i t Hi Hstop more; [discriminate|].
  cbn [app active_rows].
  destruct Ht0 as [[row Hrow]|Hraise].
  - rewrite Hrow. destruct i as [|i]; simpl in Hi.
    + inversion Hi; subst t0. rewrite Hrow in Hstop. discriminate.
    + rewrite (IH i t Hi Hstop more). reflexivity.
  - rewrite Hraise. reflexivity.
Qed.

Lemma save_active_tasks_ok (s : state) :
  fst (_save_active_tasks s) = Ok tt ->
  exists rows, active_rows (active_tasks s) =
               (active_tasks (snd (_save_active_tasks s)), Ok rows).
Proof.
  destruct (save_active_tasks_effect s) as [Ha _]. cbv zeta in Ha.
  rewrite Ha. clear Ha.
  unfold _save_active_tasks. unfold_monad. state_simpl.
  destruct (active_rows (active_tasks s)) as [tasks' [rows|e]]; state_simpl.
  - intros _. eauto.
  - discriminate.
Qed.

Lemma save_active_tasks_stop (s : state) :
  active_rows (active_tasks s) = (active_tasks s, Raise str_isoformat_error) ->
  _save_active_tasks s =
  (Raise str_isoformat_error,
   set_log (log s ++ [("INFO", "Saving active tasks to: " +:+ tasks_file);
                      ("ERROR", "Error saving active tasks: " +:+
                                str_exn str_isoformat_error)])
           s).
Proof.
  intros Hrows. unfold _save_active_tasks. unfold_monad. state_simpl.
  rewrite Hrows. state_simpl. unfold set_log, set_active. state_simpl.
  rewrite <- app_assoc. destruct s; reflexivity.
Qed.

(** X20. The active tasks can be saved once.  After a save that went
    through, if an active task holds a step dict with a [created_at] or an
    [updated_at] (as every planned step does), the next save raises
    [AttributeError: 'str' object has no attribute 'isoformat']: the first
    save turned the timestamps of the shared step objects into strings.  The
    failed save changes neither the collections nor any file. *)
Theorem second_save_raises (s : state) (i : nat) (t : dict) :
  fst (_save_active_tasks s) = Ok tt ->
  active_tasks s !! i = Some t -> has_stamped_step t ->
  let s1 := snd (_save_active_tasks s) in
  fst (_save_active_tasks s1) = Raise str_isoformat_error /\
  active_tasks (snd (_save_active_tasks s1)) = active_tasks s1 /\
  task_history (snd (_save_active_tasks s1)) = task_history s1 /\
  fs (snd (_save_active_tasks s1)) = fs s1.
Proof.
  intros Hok Hi Hst s1.
  destruct (save_active_tasks_ok s Hok) as [rows Hrows]. fold s1 in Hrows.
  destruct (active_rows_after_save _ _ _ Hrows) as [Hall Hflag].
  destruct (Hflag i t Hi Hst) as (t' & Hi' & Hstop).
  pose proof (active_rows_stop _ Hall i t' Hi' Hstop []) as Hagain.
  rewrite app_nil_r in Hagain.
  rewrite (save_active_tasks_stop s1 Hagain). repeat split.
Qed.

(** The same for [create_task] on a service holding such a list: the new
    task is appended, the save raises and the file is not written. *)
Lemma create_task_raises_after_saved_steps (s0 s : state) (i : nat) (t : dict)
    (description : string) (context : option dict) :
  fst (_save_active_tasks s0) = Ok tt ->
  active_tasks s0 !! i = Some t -> has_stamped_step t ->
  active_tasks s = active_tasks (snd (_save_active_tasks s0)) ->
  let r := create_task description context s in
  fst r = Raise str_isoformat_error /\
  fs (snd r) = fs s /\
  length (active_tasks (snd r)) = S (length (active_tasks s)).
Proof.
  intros Hok Hi Hst Hsame r.
  destruct (save_active_tasks_ok s0 Hok) as [rows Hrows].
  destruct (active_rows_after_save _ _ _ Hrows) as [Hall Hflag].
  destruct (Hflag i t Hi Hst) as (t' & Hi' & Hstop).
  rewrite <- Hsame in Hall, Hi'.
  destruct (plan_task_steps_returns description context s) as [steps Hsteps].
  destruct (plan_task_steps_memory description context s) as (Ha & Hh & Hfs & _).
  assert (Hrun : exists s2,
            create_task description context s = (Raise str_isoformat_error, s2) /\
            fs s2 = fs s /\
            length (active_tasks s2) = S (length (active_tasks s))).
  { unfold create_task. unfold try_except, bind, get_state.
    destruct (_plan_task_steps description context s) as [o s1].
    simpl in Hsteps, Ha, Hh, Hfs. subst o.
    unfold now, modify. state_simpl.
    match goal with
    | |- context [_save_active_tasks ?S] =>
        assert (Hstale : active_rows (active_tasks S) =
                         (active_tasks S, Raise str_isoformat_error))
    end.
    { state_simpl. rewrite Ha. apply (active_rows_stop _ Hall i t' Hi' Hstop). }
    rewrite (save_active_tasks_stop _ Hstale).
    unfold logger, modify, raise. state_simpl.
    eexists. split; [reflexivity|]. state_simpl.
    rewrite length_app, Ha, Hfs. simpl. split; [reflexivity|lia]. }
  destruct Hrun as (s2 & Hrun & Hfs2 & Hlen).
  subst r. rewrite Hrun. auto.
Qed.

End Resave.

Section Once.
Context `{Builtins}.

Lemma stamp_steps_stamped (items : list pyval) :
  forall i,
    ensures (Forall (fun e => exists d, e = PDict d /\
                                        dict_has "created_at" d = true))
            (stamp_steps i items).
Proof.
  induction items as [|e rest IH]; intros i s out s' Hrun.
  - cbn [stamp_steps] in Hrun. inversion Hrun; subst. constructor.
  - cbn [stamp_steps] in Hrun. unfold bind in Hrun.
    destruct (stamp_step i e s) as [[e'|err] s1] eqn:Hstep; [|discriminate].
    destruct (stamp_steps (S i) rest s1) as [[rest'|err] s2] eqn:Hrest;
      [|discriminate].
    inversion Hrun; subst out s'. constructor; [|apply (IH _ _ _ _ Hrest)].
    clear Hrun Hrest IH.
    destruct e; unfold stamp_step in Hstep; unfold_monad; simpl in Hstep;
      try discriminate.
    inversion Hstep; subst. eexists. split; [reflexivity|].
    unfold dict_has. rewrite dict_get_set_ne by discriminate.
    rewrite dict_get_set_eq. reflexivity.
Qed.

(** A non-empty list of steps from the planner starts with a dict that has a
    [created_at]. *)
Lemma planned_steps_are_stamped (description : string) (context : option dict) :
  ensures (fun v => forall x rest, v = PList (x :: rest) ->
                    exists d, x = PDict d /\ dict_has "created_at" d = true)
          (_plan_task_steps description context).
Proof.
  unfold _plan_task_steps. apply ensures_try_except.
  - eapply ensures_bind; [apply ensures_any|]. intros _ _.
    eapply ensures_bind; [apply ensures_any|]. intros response _.
    eapply ensures_bind; [apply ensures_any|]. intros text _.
    eapply ensures_bind; [apply ensures_any|]. intros steps _.
    eapply ensures_bind; [apply ensures_any|]. intros items _.
    eapply ensures_bind; [apply stamp_steps_stamped|]. intros items' Hitems.
    apply ensures_ret. intros x rest Hv.
    destruct steps; try discriminate.
    inversion Hv; subst items'. inversion Hitems; subst. assumption.
  - intros e. eapply ensures_bind; [apply ensures_any|]. intros _ _.
    apply ensures_ret. intros x rest Hv. discriminate.
Qed.

Lemma iso_steps_nil (items items' : list pyval) (r : option exn) :
  iso_steps items = (items', r) -> items' <> [] -> items <> [].
Proof. intros Hrun Hne ->. simpl in Hrun. inversion Hrun; subst. auto. Qed.

Lemma active_row_keeps_steps (t : dict) :
  steps_of (fst (active_row t)) <> [] ->
  exists x rest, dict_get "steps" t = Some (PList (x :: rest)).
Proof.
  assert (Hsame : steps_of t <> [] ->
            exists x rest, dict_get "steps" t = Some (PList (x :: rest))).
  { unfold steps_of. destruct (dict_get "steps" t) as [[]|]; try congruence.
    destruct items; [congruence|eauto]. }
  unfold active_row.
  destruct (iso_key "created_at" t) as [c1|] eqn:Hc; [|exact Hsame].
  destruct (iso_key "updated_at" c1) as [c2|] eqn:Hu; [|exact Hsame].
  assert (Hsteps : dict_get "steps" c2 = dict_get "steps" t).
  { rewrite (iso_key_other _ "steps" _ _ Hu) by discriminate.
    apply (iso_key_other _ "steps" _ _ Hc). discriminate. }
  destruct (dict_get "steps" c2) as [v|] eqn:Hv; [|exact Hsame].
  destruct (iso_steps_value v) as [v' r] eqn:Hval. cbn [fst].
  unfold steps_of. rewrite dict_get_set_eq. intros Hne.
  destruct v' as [| | | | | |items'|]; try congruence.
  unfold iso_steps_value in Hval.
  destruct v; cbn [py_iter] in Hval; try (inversion Hval; fail).
  - destruct (iso_steps _) as [l r0]. inversion Hval.
  - destruct (iso_steps items) as [l r0] eqn:Hitems. inversion Hval; subst l r0.
    pose proof (iso_steps_nil _ _ _ Hitems Hne) as Hitems0.
    destruct items as [|x rest]; [congruence|]. eauto.
  - destruct (iso_steps _) as [l r0]. inversion Hval.
Qed.

(** X21. [create_task] works once for tasks with steps.  When a call has
    returned a task with at least one step, every later [create_task] on the
    state it left raises [AttributeError: 'str' object has no attribute
    'isoformat'] and leaves the files as they were (the new task is in the
    active list all the same, see X12). *)
Theorem create_task_works_once (description : string) (context : option dict)
    (s : state) (task : dict) (s1 : state) :
  create_task description context s = (Ok task, s1) ->
  steps_of task <> [] ->
  forall description' context',
    fst (create_task description' context' s1) = Raise str_isoformat_error /\
    fs (snd (create_task description' context' s1)) = fs s1.
Proof.
  intros Hcreate Hsteps description' context'.
  pose proof (planned_steps_are_stamped description context s) as Hplan.
  unfold create_task in Hcreate. unfold try_except, bind, get_state in Hcreate.
  destruct (_plan_task_steps description context s) as [[steps|e] sp] eqn:Hp;
    [|discriminate].
  specialize (Hplan steps sp eq_refl).
  unfold now, modify in Hcreate. state_simpl_in Hcreate.
  match type of Hcreate with
  | context [_save_active_tasks ?S] => set (mid := S) in *
  end.
  match type of Hcreate with
  | context [new_task ?a ?b ?c ?d ?e ?f] => set (new := new_task a b c d e f) in *
  end.
  pose proof (save_active_tasks_ok mid) as Hrows.
  destruct (_save_active_tasks mid) as [[[]|e] s2] eqn:Hsave; [|discriminate].
  destruct (Hrows eq_refl) as [rows Hrows']. clear Hrows. cbn [snd] in Hrows'.
  unfold logger, modify, ret in Hcreate. state_simpl_in Hcreate.
  inversion Hcreate; subst task s1. clear Hcreate.
  assert (Hmid : active_tasks mid = active_tasks sp ++ [new]) by reflexivity.
  (* the task returned is the new task as the save left it *)
  rewrite Hmid, active_rows_snoc in Hrows'.
  destruct (active_rows (active_tasks sp)) as [old' [oldrows|e]] eqn:Hold;
    cbn [fst snd] in Hrows'; [|inversion Hrows'].
  inversion Hrows' as [[Hactive Hnewrow]]. clear Hrows'.
  rewrite <- Hactive, last_snoc in Hsteps. cbn [default] in Hsteps.
  destruct (active_row_keeps_steps new Hsteps) as (x & rest & Hnew).
  assert (Hst : has_stamped_step new).
  { assert (Hval : steps = PList (x :: rest)).
    { unfold new, new_task in Hnew. simpl in Hnew. congruence. }
    destruct (Hplan x rest Hval) as (d & -> & Hd).
    exists (PDict d :: rest), 0, d. repeat split; [exact Hnew|auto]. }
  assert (Hlook : active_tasks mid !! length (active_tasks sp) = Some new).
  { rewrite Hmid. apply list_lookup_middle. reflexivity. }
  assert (Hok : fst (_save_active_tasks mid) = Ok tt) by (rewrite Hsave; reflexivity).
  match goal with
  | |- context [create_task _ _ ?S] =>
      destruct (create_task_raises_after_saved_steps mid S _ new
                  description' context' Hok Hlook Hst)
        as (Hraise & Hfs & _)
  end.
  { rewrite Hsave. reflexivity. }
  split; assumption.
Qed.

End Once.

Section RoundTrip.
Context `{Builtins}.

(** *** JSON *)

Lemma of_to_json (v : pyval) : forall j, to_json v = Some j -> of_json j = v.
Proof.
  induction v as [| | | | | |items IH|entries IH] using pyval_nested_ind;
    intros j; cbn [to_json]; try (intros [= <-]; reflexivity); try discriminate.
  - match goal with
    | |- option_map JArr (?each items) = _ -> _ =>
        assert (Heach : forall js, each items = Some js -> map of_json js = items)
    end.
    { induction IH as [|x l Hx _ IHl]; intros js.
      - intros [= <-]. reflexivity.
      - destruct (to_json x) as [jx|] eqn:Hjx; [|discriminate].
        match goal with
        | |- match ?e with _ => _ end = _ -> _ => destruct e as [js'|] eqn:Hjs
        end; [|discriminate].
        intros [= <-]. simpl. rewrite (Hx jx eq_refl), (IHl js' eq_refl).
        reflexivity. }
    match goal with
    | |- option_map JArr ?e = _ -> _ => destruct e as [js|]
    end; [|discriminate].
    intros [= <-]. cbn [of_json]. rewrite (Heach js eq_refl). reflexivity.
  - match goal with
    | |- option_map JObj (?each entries) = _ -> _ =>
        assert (Heach : forall js, each entries = Some js ->
                  map (fun kv => (fst kv, of_json (snd kv))) js = entries)
    end.
    { induction IH as [|[k x] l Hx _ IHl]; intros js.
      - intros [= <-]. reflexivity.
      - simpl in Hx.
        destruct (to_json x) as [jx|] eqn:Hjx; [|discriminate].
        match goal with
        | |- match ?e with _ => _ end = _ -> _ => destruct e as [js'|] eqn:Hjs
        end; [|discriminate].
        intros [= <-]. simpl. rewrite (Hx jx eq_refl), (IHl js' eq_refl).
        reflexivity. }
    match goal with
    | |- option_map JObj ?e = _ -> _ => destruct e as [js|]
    end; [|discriminate].
    intros [= <-]. cbn [of_json]. rewrite (Heach js eq_refl). reflexivity.
Qed.

Lemma of_to_jobject (d : dict) (o : jobject) :
  to_jobject d = Some o -> of_jobject o = d.
Proof.
  unfold to_jobject. destruct (to_json (PDict d)) as [j|] eqn:Hj; [|discriminate].
  destruct j; try discriminate. intros [= <-].
  apply of_to_json in Hj. cbn [of_json] in Hj. inversion Hj. reflexivity.
Qed.

Lemma of_to_jobjects (rows : list dict) :
  forall docs, to_jobjects rows = Some docs -> map of_jobject docs = rows.
Proof.
  induction rows as [|row rows IH]; intros docs; cbn [to_jobjects].
  - intros [= <-]. reflexivity.
  - destruct (to_jobject row) as [o|] eqn:Ho; [|discriminate].
    destruct (to_jobjects rows) as [os|]; [|discriminate].
    intros [= <-]. simpl. rewrite (of_to_jobject _ _ Ho), (IH os eq_refl).
    reflexivity.
Qed.

(** *** Changing one entry of a dict *)

Lemma alter_key_ext {V : Type} (f g : V -> V) (k : string) (d : list (string * V)) :
  (forall v, dict_get k d = Some v -> f v = g v) ->
  alter_key f k d = alter_key g k d.
Proof.
  induction d as [|[k' v'] d IH]; simpl; [reflexivity|].
  destruct (String.eqb k k'); intros Hfg.
  - rewrite (Hfg v' eq_refl). reflexivity.
  - rewrite (IH Hfg). reflexivity.
Qed.

Lemma alter_key_id {V : Type} (f : V -> V) (k : string) (d : list (string * V)) :
  (forall v, dict_get k d = Some v -> f v = v) -> alter_key f k d = d.
Proof.
  induction d as [|[k' v'] d IH]; simpl; [reflexivity|].
  destruct (String.eqb k k'); intros Hf.
  - rewrite (Hf v' eq_refl). reflexivity.
  - rewrite (IH Hf). reflexivity.
Qed.

Lemma alter_key_compose {V : Type} (f g : V -> V) (k : string)
    (d : list (string * V)) :
  alter_key g k (alter_key f k d) = alter_key (fun v => g (f v)) k d.
Proof.
  induction d as [|[k' v'] d IH]; simpl; [reflexivity|].
  destruct (String.eqb k k') eqn:E; simpl; rewrite E; [reflexivity|].
  rewrite IH. reflexivity.
Qed.

Lemma alter_key_comm {V : Type} (f g : V -> V) (k k' : string)
    (d : list (string * V)) :
  k <> k' ->
  alter_key f k (alter_key g k' d) = alter_key g k' (alter_key f k d).
Proof.
  intros Hne. induction d as [|[k0 v0] d IH]; simpl; [reflexivity|].
  destruct (String.eqb k' k0) eqn:E'; destruct (String.eqb k k0) eqn:E;
    simpl; rewrite ?E, ?E'; try reflexivity.
  - apply String.eqb_eq in E, E'. congruence.
  - rewrite IH. reflexivity.
Qed.

Lemma dict_get_alter_key_eq {V : Type} (f : V -> V) (k : string)
    (d : list (string * V)) :
  dict_get k (alter_key f k d) = option_map f (dict_get k d).
Proof.
  induction d as [|[k' v'] d IH]; simpl; [reflexivity|].
  destruct (String.eqb k k') eqn:E; simpl; rewrite E; [reflexivity|exact IH].
Qed.

Lemma dict_get_alter_key_ne {V : Type} (f : V -> V) (k k0 : string)
    (d : list (string * V)) :
  k0 <> k -> dict_get k0 (alter_key f k d) = dict_get k0 d.
Proof.
  intros Hne. induction d as [|[k' v'] d IH]; simpl; [reflexivity|].
  destruct (String.eqb k k') eqn:E; simpl.
  - apply String.eqb_eq in E. subst k'.
    destruct (String.eqb k0 k) eqn:E0; [|reflexivity].
    apply String.eqb_eq in E0. congruence.
  - destruct (String.eqb k0 k'); [reflexivity|exact IH].
Qed.

Lemma dict_set_alter_key {V : Type} (k : string) (v v0 : V) (d : list (string * V)) :
  dict_get k d = Some v0 -> dict_set k v d = alter_key (fun _ => v) k d.
Proof.
  induction d as [|[k' v'] d IH]; simpl; [discriminate|].
  destruct (String.eqb k k'); [reflexivity|].
  intros Hd. rewrite (IH Hd). reflexivity.
Qed.

(** *** One task *)

Lemma iso_key_alter (k : string) (d c : dict) :
  iso_key k d = Ok c ->
  c = alter_key rendered k d /\
  (dict_get k d = None \/ exists t, dict_get k d = Some (PDatetime t)).
Proof.
  intros Hc.
  destruct (iso_key_cases k d c Hc) as [[Hn ->]|(t & Ht & ->)].
  - split; [|left; exact Hn]. symmetry. apply alter_key_id.
    intros v Hv. congruence.
  - split; [|right; eauto].
    rewrite (dict_set_alter_key _ _ _ _ Ht). apply alter_key_ext.
    intros v Hv. rewrite Ht in Hv. inversion Hv; subst. reflexivity.
Qed.

Lemma parse_stamp_alter (k : string) (task row : dict) :
  (forall t, dict_get k task = Some (PDatetime t) ->
             fromisoformat (isoformat t) = Some t) ->
  (dict_get k task = None \/ exists t, dict_get k task = Some (PDatetime t)) ->
  dict_get k row = option_map rendered (dict_get k task) ->
  parse_stamp k row = Ok (alter_key reread k row).
Proof.
  intros Hback Hcases Hrow. unfold parse_stamp.
  destruct Hcases as [Hn|[t Ht]].
  - rewrite Hn in Hrow. simpl in Hrow. rewrite Hrow.
    rewrite alter_key_id; [reflexivity|]. intros v Hv. congruence.
  - rewrite Ht in Hrow. simpl in Hrow. rewrite Hrow.
    cbn [py_fromisoformat]. rewrite (Hback t Ht). cbn [and_then].
    rewrite (dict_set_alter_key _ _ _ _ Hrow). f_equal. apply alter_key_ext.
    intros v Hv. rewrite Hrow in Hv. inversion Hv; subst.
    simpl. rewrite (Hback t Ht). reflexivity.
Qed.

Lemma reread_rendered (k : string) (task : dict) :
  (forall t, dict_get k task = Some (PDatetime t) ->
             fromisoformat (isoformat t) = Some t) ->
  (dict_get k task = None \/ exists t, dict_get k task = Some (PDatetime t)) ->
  alter_key (fun v => reread (rendered v)) k task = task.
Proof.
  intros Hback Hcases. apply alter_key_id. intros v Hv.
  destruct Hcases as [Hn|[t Ht]]; [congruence|].
  rewrite Ht in Hv. inversion Hv; subst. simpl. rewrite (Hback t Ht). reflexivity.
Qed.

(** The row written for a task parses back to the task as the save left it
    in memory. *)
Lemma active_row_parses_back (task task' row : dict) :
  active_row task = (task', Ok row) ->
  stamps_reread ["created_at"; "updated_at"] task ->
  parse_stamps ["created_at"; "updated_at"] row = Ok task'.
Proof.
  intros Hrun Hback. unfold active_row in Hrun.
  destruct (iso_key "created_at" task) as [c1|] eqn:Hc; [|discriminate].
  destruct (iso_key "updated_at" c1) as [c2|] eqn:Hu; [|discriminate].
  destruct (iso_key_alter _ _ _ Hc) as [-> Hccases].
  destruct (iso_key_alter _ _ _ Hu) as [-> Hucases].
  rewrite dict_get_alter_key_ne in Hucases by discriminate.
  assert (Hbc : forall t, dict_get "created_at" task = Some (PDatetime t) ->
                          fromisoformat (isoformat t) = Some t).
  { intros t. apply Hback. repeat constructor. }
  assert (Hbu : forall t, dict_get "updated_at" task = Some (PDatetime t) ->
                          fromisoformat (isoformat t) = Some t).
  { intros t. apply Hback. repeat constructor. }
  set (both := alter_key rendered "updated_at"
                 (alter_key rendered "created_at" task)) in *.
  assert (Hrows : forall (g : pyval -> pyval),
            parse_stamps ["created_at"; "updated_at"] (alter_key g "steps" both) =
            Ok (alter_key g "steps" task)).
  { intros g. cbn [parse_stamps].
    rewrite (parse_stamp_alter "created_at" task _ Hbc Hccases).
    2: { unfold both. rewrite !dict_get_alter_key_ne by discriminate.
         apply dict_get_alter_key_eq. }
    cbn [and_then].
    rewrite (parse_stamp_alter "updated_at" task _ Hbu Hucases).
    2: { unfold both. rewrite !dict_get_alter_key_ne by discriminate.
         rewrite dict_get_alter_key_eq.
         rewrite dict_get_alter_key_ne by discriminate. reflexivity. }
    cbn [and_then]. f_equal. unfold both.
    rewrite (alter_key_comm reread g "created_at" "steps") by discriminate.
    rewrite (alter_key_comm reread g "updated_at" "steps") by discriminate.
    f_equal.
    rewrite (alter_key_comm reread rendered "created_at" "updated_at") by discriminate.
    rewrite alter_key_compose, (alter_key_compose rendered reread "created_at").
    rewrite (reread_rendered "created_at" task Hbc Hccases).
    apply (reread_rendered "updated_at" task Hbu Hucases). }
  destruct (dict_get "steps" both) as [v|] eqn:Hv.
  - destruct (iso_steps_value v) as [v' r] eqn:Hval.
    destruct r as [e|]; [discriminate|].
    inversion Hrun; subst task' row. clear Hrun.
    assert (Hv0 : dict_get "steps" task = Some v).
    { unfold both in Hv. rewrite !dict_get_alter_key_ne in Hv by discriminate.
      exact Hv. }
    rewrite (dict_set_alter_key _ _ _ _ Hv), (dict_set_alter_key _ _ _ _ Hv0).
    apply Hrows.
  - inversion Hrun; subst task' row. clear Hrun.
    specialize (Hrows (fun v => v)).
    rewrite !(alter_key_id (fun v => v)) in Hrows by reflexivity.
    exact Hrows.
Qed.

Lemma active_rows_parse_back (tasks : list dict) :
  forall tasks' rows,
    active_rows tasks = (tasks', Ok rows) ->
    Forall (stamps_reread ["created_at"; "updated_at"]) tasks ->
    parse_tasks ["created_at"; "updated_at"] rows = Ok tasks'.
Proof.
  induction tasks as [|t rest IH]; intros tasks' rows Hrun Hback.
  - simpl in Hrun. inversion Hrun; subst. reflexivity.
  - cbn [active_rows] in Hrun.
    destruct (active_row t) as [t' [row|e]] eqn:Hrow; [|discriminate].
    destruct (active_rows rest) as [rest' r] eqn:Hrest.
    destruct r as [rows'|e]; simpl in Hrun; [|discriminate].
    inversion Hrun; subst tasks' rows. clear Hrun.
    inversion Hback; subst.
    cbn [parse_tasks].
    rewrite (active_row_parses_back t t' row Hrow) by assumption.
    cbn [and_then]. rewrite (IH rest' rows' eq_refl) by assumption.
    reflexivity.
Qed.

Lemma save_active_tasks_written (s : state) :
  fst (_save_active_tasks s) = Ok tt ->
  exists rows docs,
    active_rows (active_tasks s) = (active_tasks (snd (_save_active_tasks s)), Ok rows) /\
    to_jobjects rows = Some docs /\
    fs (snd (_save_active_tasks s)) !! tasks_file = Some (JsonDoc docs).
Proof.
  unfold _save_active_tasks. unfold_monad. state_simpl.
  destruct (active_rows (active_tasks s)) as [tasks' [rows|e]]; state_simpl;
    [|discriminate].
  destruct (unwritable s tasks_file); state_simpl; [discriminate|].
  destruct (to_jobjects rows) as [docs|] eqn:Hdocs; state_simpl; [|discriminate].
  intros _. exists rows, docs.
  split; [reflexivity|]. split; [exact Hdocs|]. apply lookup_insert_eq.
Qed.

(** X22. Round trip of the active tasks.  When [_save_active_tasks] went
    through and [datetime.fromisoformat] reads the tasks' own [created_at]
    and [updated_at] back from their ISO text, a service that loads the file
    the save wrote gets exactly the active list as the save left it in
    memory (task timestamps as datetimes; step timestamps as the strings the
    save turned them into), and does not touch the files. *)
Theorem saved_active_tasks_load_back (s fresh : state) :
  fst (_save_active_tasks s) = Ok tt ->
  Forall (stamps_reread ["created_at"; "updated_at"]) (active_tasks s) ->
  fs fresh !! tasks_file = fs (snd (_save_active_tasks s)) !! tasks_file ->
  fst (_load_active_tasks fresh) = Ok tt /\
  active_tasks (snd (_load_active_tasks fresh)) =
    active_tasks (snd (_save_active_tasks s)) /\
  fs (snd (_load_active_tasks fresh)) = fs fresh.
Proof.
  intros Hok Hback Hfile.
  destruct (save_active_tasks_written s Hok) as (rows & docs & Hrows & Hdocs & Hfs).
  rewrite Hfs in Hfile.
  pose proof (active_rows_parse_back _ _ _ Hrows Hback) as Hparse.
  unfold _load_active_tasks. unfold_monad.
  repeat first
    [ rewrite Hfile | rewrite bool_decide_eq_true_2 by eauto
    | progress state_simpl ].
  rewrite (of_to_jobjects rows docs Hdocs), Hparse. state_simpl.
  repeat split.
Qed.

End RoundTrip.

Section Archive.
Context `{Builtins}.

(** X23. [archive_task] on the first active task carrying the id sets its
    [completed_at] and then its [updated_at] to two successive clock
    readings, appends it to the history and takes it out of the active list,
    whose other tasks keep their order.  This is done in memory whether or
    not the two saves that follow succeed. *)
Theorem archive_task_stamps_and_moves (s : state) (task_id : string) (i : nat)
    (t : dict) :
  active_tasks s !! i = Some t ->
  dict_get "task_id" t = Some (PStr task_id) ->
  absent task_id (take i (active_tasks s)) ->
  let archived :=
    dict_set "updated_at" (PDatetime (wallclock s (S (ticks s))))
      (dict_set "completed_at" (PDatetime (wallclock s (ticks s))) t) in
  let s' := snd (archive_task task_id s) in
  task_history s' = task_history s ++ [archived] /\
  ids (active_tasks s') = delete i (ids (active_tasks s)) /\
  length (active_tasks s') = length (active_tasks s) - 1.
Proof.
  intros Hi Hid Habs archived s'.
  pose proof (find_task_at task_id _ i 0 t Hi Hid Habs) as Hfind. simpl in Hfind.
  assert (Hlen : i < length (active_tasks s)) by (eapply lookup_lt_Some; eauto).
  subst s'. unfold archive_task. unfold_monad. rewrite Hfind. state_simpl.
  cbn [alter_task task_at]. state_simpl.
  rewrite alter_twice. unfold dict in *.
  match goal with
  | |- context [alter ?f i (active_tasks s)] =>
      destruct (archive_move task_id f (active_tasks s) i t Hi Hid Habs)
        as (Hmoved & Hremove & Hids);
      [intros t0; rewrite !dict_get_set_ne by discriminate; reflexivity|];
      assert (Hat : alter f i (active_tasks s) !! i = Some archived)
        by (rewrite list_lookup_alter_eq, Hi; reflexivity)
  end.
  unfold dict in *. rewrite Hat in Hremove |- *. cbn [default] in Hremove |- *.
  rewrite Hremove.
  match goal with
  | |- context [_save_task_history ?S] =>
      destruct (save_task_history_effect S) as (Hok & Ha1 & Hh1);
      destruct (_save_task_history S) as [o1 s1]
  end.
  cbn [fst snd] in Hok, Ha1, Hh1. state_simpl_in Ha1. state_simpl_in Hh1. subst o1.
  pose proof (save_active_tasks_effect s1) as [Ha2 Hh2].
  pose proof (active_rows_ids (active_tasks s1)) as Hrows.
  pose proof (active_rows_length (active_tasks s1)) as Hrlen.
  assert (Hdel : length (active_tasks s1) = length (active_tasks s) - 1).
  { rewrite Ha1, length_delete; [rewrite length_alter; reflexivity|].
    unfold dict in *. rewrite Hat. eauto. }
  destruct (_save_active_tasks s1) as [[[]|e] s2]; cbn [fst snd] in Ha2, Hh2 |- *;
    state_simpl; unfold dict in *;
    rewrite Ha2, Hh2, Hrows, Hrlen, Hdel, Ha1, Hh1, Hids; auto.
Qed.

Lemma find_task_ids (task_id : string) (l l' : list dict) :
  ids l = ids l' ->
  forall k, find_task task_id k l = find_task task_id k l'.
Proof.
  revert l'. induction l as [|t l IH]; intros [|t' l'] Hids k;
    try discriminate; [reflexivity|].
  simpl in Hids. inversion Hids as [[Ht Hl]].
  cbn [find_task py_getitem]. rewrite Ht.
  destruct (dict_get "task_id" t') as [v|]; [|reflexivity].
  cbn [and_then]. rewrite (IH l' Hl). reflexivity.
Qed.

(** X24. When the step loop of [execute_task] runs through for an active
    task, the task leaves the active list and its id is appended to the
    history, whatever the archival's saves do afterwards. *)
Theorem completed_task_is_archived (s : state) (task_id : string) (i : nat)
    (steps : list pyval) :
  fst (get_task task_id s) = Ok (Some (InActive i)) ->
  py_iter (dict_get_default "steps" (PList []) (task_at (InActive i) s)) = Ok steps ->
  fst (run_steps task_id (InActive i) 0 steps s) = Ok None ->
  let s' := snd (execute_task task_id s) in
  ids (active_tasks s') = delete i (ids (active_tasks s)) /\
  ids (task_history s') = ids (task_history s) ++ [Some (PStr task_id)].
Proof.
  intros Hget Hiter Hrun s'.
  pose proof (get_task_state task_id s) as Hs.
  assert (Hfind : find_task task_id 0 (active_tasks s) = Ok (Some i)).
  { unfold get_task in Hget. unfold_monad.
    destruct (find_task task_id 0 (active_tasks s)) as [[j|]|e]; simpl in Hget.
    - congruence.
    - destruct (find_task task_id 0 (task_history s)) as [[j|]|e];
        simpl in Hget; congruence.
    - discriminate. }
  pose proof (run_steps_ids task_id (InActive i) 0 steps s) as Hids.
  subst s'. unfold execute_task. unfold try_except, bind.
  destruct (get_task task_id s) as [o s0]. simpl in Hget, Hs. subst o s0.
  rewrite update_task_status_skips. unfold get_state, lift. rewrite Hiter.
  destruct (run_steps task_id (InActive i) 0 steps s) as [o s1].
  simpl in Hrun, Hids. subst o.
  rewrite update_task_status_skips.
  unfold collection_ids in Hids. inversion Hids as [[Ha Hh]].
  assert (Hfind1 : find_task task_id 0 (active_tasks s1) = Ok (Some i)).
  { rewrite (find_task_ids task_id _ _ Ha). exact Hfind. }
  destruct (archive_task_found s1 task_id i Hfind1) as [Ha' Hh'].
  destruct (archive_task task_id s1) as [[[]|e] s2]; simpl in Ha', Hh' |- *;
    try rewrite update_task_status_skips; simpl;
    rewrite Ha', Hh', Ha, Hh; auto.
Qed.

(** X25. [execute_step] on a step of type [analysis] or [action] of a
    task whose context is serializable makes one completion call and takes
    one clock reading.  The answer [v] gives the result
    [{status: success, result: v}] and the step status [success]; a call
    that raises is not propagated: it gives [{status: error, error: msg}],
    the step status [error] and one logged error.  In both cases the result
    is stored in the step under [result] and [updated_at] is set. *)
Theorem execute_step_records_outcome (s : state) (task_id : string) (p : place)
    (d : dict) (kind : string) (context : pyval) :
  fst (get_task task_id s) = Ok (Some p) ->
  dict_get "type" d = Some (PStr kind) ->
  kind = "analysis" \/ kind = "action" ->
  dict_get "context" (task_at p s) = Some context ->
  is_Some (to_json context) ->
  let stamp := PDatetime (wallclock s (ticks s)) in
  let record (result : dict) (status : string) :=
    PDict (dict_set "updated_at" stamp
             (dict_set "status" (PStr status)
                (dict_set "result" (PDict result) d))) in
  let called := set_calls (S (calls s)) s in
  execute_step task_id (PDict d) s =
  match completions s (calls s) with
  | Returns v =>
      (Ok (result_success v, record (result_success v) "success"),
       set_ticks (S (ticks s)) called)
  | Raises msg =>
      (Ok (result_error msg, record (result_error msg) "error"),
       set_ticks (S (ticks s))
         (set_log (log s ++ [("ERROR", "Error executing " +:+ kind +:+
                                       " step: " +:+ msg)]) called))
  end.
Proof.
  intros Hget Htype Hkind Hctx [j Hj] stamp record called.
  pose proof (get_task_state task_id s) as Hstate.
  unfold execute_step, try_except, bind.
  destruct (get_task task_id s) as [o s0]. simpl in Hget, Hstate. subst o s0.
  unfold get_state, lift, py_as_dict. unfold dict_get_default at 1 2.
  rewrite Htype. unfold py_getitem. rewrite Hctx.
  unfold _execute_analysis_step, _execute_action_step.
  unfold try_except, bind, lift, json_dumps. rewrite Hj.
  unfold get_completion.
  destruct Hkind as [-> | ->]; cbn [py_eq String.eqb Ascii.eqb Bool.eqb];
    destruct (completions s (calls s)) as [v|msg]; reflexivity.
Qed.

End Archive.

Section Fences.

Lemma chars_append (a b : string) : chars (a +:+ b) = chars a ++ chars b.
Proof.
  unfold chars. induction a as [|c a IH]; simpl; [reflexivity|].
  rewrite IH. reflexivity.
Qed.

Lemma text_chars (s : string) : text (chars s) = s.
Proof. apply String.string_of_list_ascii_of_string. Qed.

Lemma length_chars (s : string) : length (chars s) = String.length s.
Proof. unfold chars. induction s as [|c s IH]; simpl; auto. Qed.

Lemma prefix_empty (s : string) : String.prefix "" s = true.
Proof. destruct s; reflexivity. Qed.

Lemma clean_response_fenced (body : string) :
  clean_response ("```json" +:+ body +:+ "```") = strip body.
Proof.
  unfold clean_response.
  assert (Hstart : startswith "```json" ("```json" +:+ body +:+ "```") = true).
  { unfold startswith. simpl. apply prefix_empty. }
  rewrite Hstart.
  assert (Hdrop : drop_prefix 7 ("```json" +:+ body +:+ "```") = body +:+ "```").
  { unfold drop_prefix. change (chars ("```json" +:+ body +:+ "```"))
      with (chars "```json" ++ chars (body +:+ "```")).
    change (drop 7 (chars "```json" ++ chars (body +:+ "```")))
      with (chars (body +:+ "```")).
    apply text_chars. }
  rewrite Hdrop.
  assert (Hend : endswith "```" (body +:+ "```") = true).
  { unfold endswith. rewrite chars_append, rev_app_distr. simpl.
    apply prefix_empty. }
  rewrite Hend.
  assert (Hcut : drop_suffix 3 (body +:+ "```") = body).
  { unfold drop_suffix. rewrite <- length_chars, chars_append, length_app.
    replace (length (chars body) + length (chars "```") - 3)
      with (length (chars body)) by (simpl; lia).
    rewrite take_app_length. apply text_chars. }
  rewrite Hcut. reflexivity.
Qed.

Lemma lstrip_chars_cons (a : ascii) (l1 : list ascii) :
  lstrip_chars (a :: l1) =
  if is_space a then lstrip_chars l1 else
  match l1 with
  | b :: l2 =>
      if is_space2 a b then lstrip_chars l2 else
      match l2 with
      | c :: l3 => if is_space3 a b c then lstrip_chars l3 else a :: l1
      | [] => a :: l1
      end
  | [] => a :: l1
  end.
Proof. reflexivity. Qed.

Lemma rstrip_rev_cons (a : ascii) (l1 : list ascii) :
  rstrip_rev (a :: l1) =
  if is_space a then rstrip_rev l1 else
  match l1 with
  | b :: l2 =>
      if is_space2 b a then rstrip_rev l2 else
      match l2 with
      | c :: l3 => if is_space3 c b a then rstrip_rev l3 else a :: l1
      | [] => a :: l1
      end
  | [] => a :: l1
  end.
Proof. reflexivity. Qed.

(** White space in front of a text goes, whatever follows it. *)
Lemma lstrip_chars_white (l rest : list ascii) :
  lstrip_chars l = [] -> lstrip_chars (l ++ rest) = lstrip_chars rest.
Proof.
  remember (length l) as n eqn:Hn. revert l Hn.
  induction n as [n IH] using lt_wf_ind. intros l Hn Hl.
  destruct l as [|a l1]; [reflexivity|].
  change ((a :: l1) ++ rest) with (a :: (l1 ++ rest)).
  rewrite lstrip_chars_cons in Hl |- *. simpl in Hn.
  destruct (is_space a).
  { apply (IH (length l1)); [lia|reflexivity|exact Hl]. }
  destruct l1 as [|b l2]; [discriminate|].
  cbn [app]. cbv iota in Hl |- *. simpl in Hn.
  destruct (is_space2 a b).
  { apply (IH (length l2)); [lia|reflexivity|exact Hl]. }
  destruct l2 as [|c l3]; [discriminate|].
  cbn [app]. cbv iota in Hl |- *. simpl in Hn.
  destruct (is_space3 a b c); [|discriminate].
  apply (IH (length l3)); [lia|reflexivity|exact Hl].
Qed.

Lemma rstrip_rev_white (l rest : list ascii) :
  rstrip_rev l = [] -> rstrip_rev (l ++ rest) = rstrip_rev rest.
Proof.
  remember (length l) as n eqn:Hn. revert l Hn.
  induction n as [n IH] using lt_wf_ind. intros l Hn Hl.
  destruct l as [|a l1]; [reflexivity|].
  change ((a :: l1) ++ rest) with (a :: (l1 ++ rest)).
  rewrite rstrip_rev_cons in Hl |- *. simpl in Hn.
  destruct (is_space a).
  { apply (IH (length l1)); [lia|reflexivity|exact Hl]. }
  destruct l1 as [|b l2]; [discriminate|].
  cbn [app]. cbv iota in Hl |- *. simpl in Hn.
  destruct (is_space2 b a).
  { apply (IH (length l2)); [lia|reflexivity|exact Hl]. }
  destruct l2 as [|c l3]; [discriminate|].
  cbn [app]. cbv iota in Hl |- *. simpl in Hn.
  destruct (is_space3 c b a); [|discriminate].
  apply (IH (length l3)); [lia|reflexivity|exact Hl].
Qed.

(** A backquote is no white space and ends no white-space character. *)
Lemma lstrip_chars_backquote (l : list ascii) :
  lstrip_chars ("`"%char :: l) = "`"%char :: l.
Proof. destruct l as [|b [|c l]]; reflexivity. Qed.

Lemma rstrip_rev_backquote (l : list ascii) :
  rstrip_rev ("`"%char :: l) = "`"%char :: l.
Proof.
  assert (H2 : forall b, is_space2 b "`" = false).
  { intros b. unfold is_space2. apply andb_false_iff. right. reflexivity. }
  assert (H3 : forall c b, is_space3 c b "`" = false).
  { intros c b. unfold is_space3.
    change (between 128 128 "`") with false.
    change (between 159 159 "`") with false.
    change (between 128 138 "`" || between 168 169 "`" || between 175 175 "`")
      with false.
    rewrite !andb_false_r. reflexivity. }
  rewrite rstrip_rev_cons. change (is_space "`") with false. cbv iota.
  destruct l as [|b [|c l]]; [reflexivity|rewrite H2; reflexivity|].
  rewrite H2, H3. reflexivity.
Qed.

(** A text between backquotes, with white space around it, is what
    [strip] leaves. *)
Lemma strip_between_backquotes (lead mid trail whole : string)
    (front back : list ascii) :
  white lead -> white trail ->
  chars mid = "`"%char :: front ->
  rev (chars mid) = "`"%char :: back ->
  chars whole = chars lead ++ chars mid ++ chars trail ->
  strip whole = mid.
Proof.
  intros [Hlead _] [_ Htrail] Hfront Hback Hwhole. unfold strip.
  rewrite Hwhole, lstrip_chars_white by exact Hlead.
  rewrite Hfront. change (("`"%char :: front) ++ chars trail)
    with ("`"%char :: (front ++ chars trail)).
  rewrite lstrip_chars_backquote.
  change ("`"%char :: (front ++ chars trail))
    with (("`"%char :: front) ++ chars trail).
  rewrite <- Hfront, rev_app_distr, rstrip_rev_white by exact Htrail.
  rewrite Hback, rstrip_rev_backquote, <- Hback, rev_involutive.
  apply text_chars.
Qed.

(** X26. The cleaning of the planner's answer removes a Markdown fence.
    Of an answer that is a fence [```json], a body and a fence [```], with
    white space before and after, the first [strip] leaves the fenced text;
    and the fenced text is reduced to its body with the white space around
    the body stripped.  White space is what [str.strip()] removes, U+00A0
    and the other white-space characters beyond ASCII included. *)
Theorem clean_response_unwraps_fence (lead body trail : string) :
  white lead -> white trail ->
  strip (lead +:+ "```json" +:+ body +:+ "```" +:+ trail) =
    "```json" +:+ body +:+ "```" /\
  clean_response ("```json" +:+ body +:+ "```") = strip body.
Proof.
  intros Hlead Htrail. split; [|apply clean_response_fenced].
  apply (strip_between_backquotes lead _ trail _
           (chars ("``json" +:+ body +:+ "```"))
           (chars "``" ++ rev (chars body) ++ rev (chars "```json")));
    try assumption.
  - reflexivity.
  - rewrite !chars_append, !rev_app_distr, <- !app_assoc. reflexivity.
  - rewrite !chars_append, <- !app_assoc. reflexivity.
Qed.

End Fences.

Section Loading.
Context `{Builtins}.

Lemma py_fromisoformat_error (v : pyval) (e : exn) :
  py_fromisoformat v = Raise e -> is_json_decode_error e = false.
Proof.
  destruct v; simpl; try (intros [= <-]; reflexivity).
  destruct (fromisoformat s); [discriminate|]. intros [= <-]. reflexivity.
Qed.

Lemma parse_stamp_error (k : string) (task : dict) (e : exn) :
  parse_stamp k task = Raise e -> is_json_decode_error e = false.
Proof.
  unfold parse_stamp. destruct (dict_get k task) as [v|]; [|discriminate].
  destruct (py_fromisoformat v) as [v'|e'] eqn:Hv; simpl; [discriminate|].
  intros [= <-]. apply (py_fromisoformat_error _ _ Hv).
Qed.

Lemma parse_stamp_other (k k0 : string) (task task' : dict) :
  parse_stamp k task = Ok task' -> k0 <> k -> dict_get k0 task' = dict_get k0 task.
Proof.
  unfold parse_stamp. destruct (dict_get k task) as [v|]; [|intros [= <-]; auto].
  destruct (py_fromisoformat v) as [v'|e']; simpl; [|discriminate].
  intros [= <-] Hne. apply dict_get_set_ne. exact Hne.
Qed.

Lemma parse_stamps_error (keys : list string) :
  forall task e, parse_stamps keys task = Raise e -> is_json_decode_error e = false.
Proof.
  induction keys as [|k keys IH]; intros task e; cbn [parse_stamps]; [discriminate|].
  destruct (parse_stamp k task) as [task'|e'] eqn:Hk; cbn [and_then].
  - apply IH.
  - intros [= <-]. apply (parse_stamp_error _ _ _ Hk).
Qed.

Lemma parse_stamps_bad (keys : list string) :
  forall task, bad_stamp keys task -> exists e, parse_stamps keys task = Raise e.
Proof.
  induction keys as [|k0 keys IH]; intros task (k & v & e & Hin & Hv & He).
  - inversion Hin.
  - cbn [parse_stamps].
    destruct (parse_stamp k0 task) as [task'|e'] eqn:Hk0; cbn [and_then]; [|eauto].
    assert (Hne : k <> k0).
    { intros ->. unfold parse_stamp in Hk0. rewrite Hv, He in Hk0. discriminate. }
    apply IH. exists k, v, e. split; [|split; [|exact He]].
    + apply elem_of_cons in Hin as [?|?]; [contradiction|assumption].
    + rewrite (parse_stamp_other _ k _ _ Hk0 Hne). exact Hv.
Qed.

Lemma parse_tasks_error (keys : list string) (tasks : list dict) :
  forall e, parse_tasks keys tasks = Raise e -> is_json_decode_error e = false.
Proof.
  induction tasks as [|t rest IH]; intros e; cbn [parse_tasks]; [discriminate|].
  destruct (parse_stamps keys t) as [t'|e'] eqn:Ht; cbn [and_then].
  - destruct (parse_tasks keys rest) as [rest'|e'']; cbn [and_then]; [discriminate|].
    intros [= <-]. apply IH. reflexivity.
  - intros [= <-]. apply (parse_stamps_error _ _ _ Ht).
Qed.

Lemma parse_tasks_bad (keys : list string) (tasks : list dict) :
  Exists (bad_stamp keys) tasks ->
  exists e, parse_tasks keys tasks = Raise e /\ is_json_decode_error e = false.
Proof.
  intros Hbad.
  assert (Hraise : exists e, parse_tasks keys tasks = Raise e).
  { induction Hbad as [t rest Ht|t rest _ IH]; cbn [parse_tasks].
    - destruct (parse_stamps_bad keys t Ht) as [e ->]. cbn [and_then]. eauto.
    - destruct (parse_stamps keys t) as [t'|e']; cbn [and_then]; [|eauto].
      destruct IH as [e ->]. cbn [and_then]. eauto. }
  destruct Hraise as [e He]. exists e. split; [exact He|].
  apply (parse_tasks_error _ _ _ He).
Qed.

(** X27. Loading is all or nothing.  When the file parses as JSON but one
    task in it has a timestamp that [datetime.fromisoformat] rejects, the
    loader returns normally with an empty collection (none of the other
    tasks is kept) and leaves the file as it is; this holds for the active
    tasks and for the history. *)
Theorem load_is_all_or_nothing (s : state) (docs : list jobject) :
  (fs s !! tasks_file = Some (JsonDoc docs) ->
   Exists (bad_stamp ["created_at"; "updated_at"]) (map of_jobject docs) ->
   fst (_load_active_tasks s) = Ok tt /\
   active_tasks (snd (_load_active_tasks s)) = [] /\
   fs (snd (_load_active_tasks s)) = fs s) /\
  (fs s !! history_file = Some (JsonDoc docs) ->
   Exists (bad_stamp ["created_at"; "completed_at"; "updated_at"])
          (map of_jobject docs) ->
   fst (_load_task_history s) = Ok tt /\
   task_history (snd (_load_task_history s)) = [] /\
   fs (snd (_load_task_history s)) = fs s).
Proof.
  split; intros Hfile Hbad;
    destruct (parse_tasks_bad _ _ Hbad) as (e & Hparse & Hjson).
  - unfold _load_active_tasks. unfold_monad.
    repeat first
      [ rewrite Hfile | rewrite bool_decide_eq_true_2 by eauto
      | progress state_simpl ].
    rewrite Hparse, Hjson. state_simpl. auto.
  - unfold _load_task_history. unfold_monad.
    repeat first
      [ rewrite Hfile | rewrite bool_decide_eq_true_2 by eauto
      | progress state_simpl ].
    rewrite Hparse. state_simpl. auto.
Qed.

(** *** The history, saved and loaded *)

Lemma history_row_parses_back (task c1 c2 c3 : dict) :
  iso_key "created_at" task = Ok c1 ->
  iso_key "completed_at" c1 = Ok c2 ->
  iso_key "updated_at" c2 = Ok c3 ->
  stamps_reread ["created_at"; "completed_at"; "updated_at"] task ->
  parse_stamps ["created_at"; "completed_at"; "updated_at"] c3 = Ok task.
Proof.
  intros Hc Hm Hu Hback.
  destruct (iso_key_alter _ _ _ Hc) as [-> Hcc].
  destruct (iso_key_alter _ _ _ Hm) as [-> Hmc].
  destruct (iso_key_alter _ _ _ Hu) as [-> Huc].
  rewrite !dict_get_alter_key_ne in Huc by discriminate.
  rewrite !dict_get_alter_key_ne in Hmc by discriminate.
  assert (Hbc : forall t, dict_get "created_at" task = Some (PDatetime t) ->
                          fromisoformat (isoformat t) = Some t).
  { intros t. apply Hback. repeat constructor. }
  assert (Hbm : forall t, dict_get "completed_at" task = Some (PDatetime t) ->
                          fromisoformat (isoformat t) = Some t).
  { intros t. apply Hback. repeat constructor. }
  assert (Hbu : forall t, dict_get "updated_at" task = Some (PDatetime t) ->
                          fromisoformat (isoformat t) = Some t).
  { intros t. apply Hback. repeat constructor. }
  cbn [parse_stamps].
  rewrite (parse_stamp_alter "created_at" task _ Hbc Hcc).
  2: { rewrite !dict_get_alter_key_ne by discriminate.
       apply dict_get_alter_key_eq. }
  cbn [and_then].
  rewrite (parse_stamp_alter "completed_at" task _ Hbm Hmc).
  2: { rewrite !dict_get_alter_key_ne by discriminate.
       rewrite dict_get_alter_key_eq.
       rewrite dict_get_alter_key_ne by discriminate. reflexivity. }
  cbn [and_then].
  rewrite (parse_stamp_alter "updated_at" task _ Hbu Huc).
  2: { rewrite !dict_get_alter_key_ne by discriminate.
       rewrite dict_get_alter_key_eq.
       rewrite !dict_get_alter_key_ne by discriminate. reflexivity. }
  cbn [and_then]. f_equal.
  (* bring each reading next to its rendering *)
  rewrite (alter_key_comm reread reread "updated_at" "completed_at") by discriminate.
  rewrite (alter_key_comm reread reread "updated_at" "created_at") by discriminate.
  rewrite alter_key_compose.
  rewrite (alter_key_comm reread reread "completed_at" "created_at") by discriminate.
  rewrite (alter_key_comm reread _ "completed_at" "updated_at") by discriminate.
  rewrite alter_key_compose.
  rewrite (alter_key_comm reread _ "created_at" "updated_at") by discriminate.
  rewrite (alter_key_comm reread _ "created_at" "completed_at") by discriminate.
  rewrite alter_key_compose.
  rewrite (reread_rendered "created_at" task Hbc Hcc).
  rewrite (reread_rendered "completed_at" task Hbm Hmc).
  apply (reread_rendered "updated_at" task Hbu Huc).
Qed.

Lemma history_rows_parse_back (tasks : list dict) :
  forall rows,
    history_rows tasks = Ok rows ->
    Forall (stamps_reread ["created_at"; "completed_at"; "updated_at"]) tasks ->
    parse_tasks ["created_at"; "completed_at"; "updated_at"] rows = Ok tasks.
Proof.
  induction tasks as [|t rest IH]; intros rows Hrun Hback.
  - simpl in Hrun. inversion Hrun; subst. reflexivity.
  - cbn [history_rows] in Hrun.
    destruct (iso_key "created_at" t) as [c1|] eqn:Hc;
      cbn [and_then] in Hrun; [|discriminate].
    destruct (iso_key "completed_at" c1) as [c2|] eqn:Hm;
      cbn [and_then] in Hrun; [|discriminate].
    destruct (iso_key "updated_at" c2) as [c3|] eqn:Hu;
      cbn [and_then] in Hrun; [|discriminate].
    destruct (history_rows rest) as [rows'|] eqn:Hrest;
      cbn [and_then] in Hrun; [|discriminate].
    inversion Hrun; subst rows. clear Hrun.
    inversion Hback; subst.
    cbn [parse_tasks].
    rewrite (history_row_parses_back t c1 c2 c3 Hc Hm Hu) by assumption.
    cbn [and_then]. rewrite (IH rows' eq_refl) by assumption. reflexivity.
Qed.

(** X28. Round trip of the history.  When the history can be written
    (writable file, datetimes as task-level timestamps, serializable values)
    and [datetime.fromisoformat] reads the task-level timestamps back, a
    service that loads the file [_save_task_history] wrote gets exactly the
    history that was saved. *)
Theorem saved_history_loads_back (s fresh : state) :
  history_saveable s ->
  Forall (stamps_reread ["created_at"; "completed_at"; "updated_at"])
         (task_history s) ->
  fs fresh !! history_file = fs (snd (_save_task_history s)) !! history_file ->
  fst (_load_task_history fresh) = Ok tt /\
  task_history (snd (_load_task_history fresh)) = task_history s /\
  fs (snd (_load_task_history fresh)) = fs fresh.
Proof.
  intros (Hw & rows & docs & Hrows & Hdocs) Hback Hfile.
  pose proof (history_rows_parse_back _ _ Hrows Hback) as Hparse.
  assert (Hfs : fs (snd (_save_task_history s)) !! history_file = Some (JsonDoc docs)).
  { unfold _save_task_history. unfold_monad. state_simpl.
    rewrite Hrows. state_simpl. rewrite Hw, Hdocs. state_simpl.
    apply lookup_insert_eq. }
  rewrite Hfs in Hfile.
  unfold _load_task_history. unfold_monad.
  repeat first
    [ rewrite Hfile | rewrite bool_decide_eq_true_2 by eauto
    | progress state_simpl ].
  rewrite (of_to_jobjects rows docs Hdocs), Hparse. state_simpl.
  repeat split.
Qed.

End Loading.

(** ** The history file after a task was executed *)

Section Torn.
Context `{Builtins}.

(** *** Values that [json.dump] refuses *)

Lemma to_json_entry (entries : list (string * pyval)) (k : string) (v : pyval) :
  dict_get k entries = Some v -> to_json v = None ->
  to_json (PDict entries) = None.
Proof.
  intros Hget Hv. cbn [to_json].
  match goal with
  | |- option_map JObj (?each entries) = None =>
      assert (Heach : each entries = None); [|rewrite Heach; reflexivity]
  end.
  induction entries as [|[k' v'] entries IH]; [discriminate|].
  simpl in Hget. destruct (String.eqb k k').
  - inversion Hget; subst v'. rewrite Hv. reflexivity.
  - rewrite (IH Hget). destruct (to_json v'); reflexivity.
Qed.

Lemma to_json_item (items : list pyval) (j : nat) (x : pyval) :
  items !! j = Some x -> to_json x = None -> to_json (PList items) = None.
Proof.
  intros Hget Hx. cbn [to_json].
  match goal with
  | |- option_map JArr (?each items) = None =>
      assert (Heach : each items = None); [|rewrite Heach; reflexivity]
  end.
  revert j Hget. induction items as [|y items IH]; intros [|j] Hget;
    try discriminate; simpl in Hget.
  - inversion Hget; subst y. rewrite Hx. reflexivity.
  - rewrite (IH j Hget). destruct (to_json y); reflexivity.
Qed.

Lemma to_jobject_datetime_step (task row : dict) :
  has_datetime_step task ->
  dict_get "steps" row = dict_get "steps" task ->
  to_jobject row = None.
Proof.
  intros (steps & j & d & k & t0 & Hs & Hj & Hk) Hrow.
  unfold to_jobject.
  rewrite (to_json_entry row "steps" (PList steps)); [reflexivity|congruence|].
  apply (to_json_item steps j (PDict d) Hj).
  apply (to_json_entry d k (PDatetime t0) Hk). reflexivity.
Qed.

Lemma to_jobjects_refused (rows : list dict) :
  forall i row, rows !! i = Some row -> to_jobject row = None ->
                to_jobjects rows = None.
Proof.
  induction rows as [|r rows IH]; intros [|i] row Hi Hrow; try discriminate;
    simpl in Hi; cbn [to_jobjects].
  - inversion Hi; subst r. rewrite Hrow. reflexivity.
  - rewrite (IH i row Hi Hrow). destruct (to_jobject r); reflexivity.
Qed.

(** *** The rows of the history *)

Lemma history_rows_steps (tasks : list dict) :
  forall rows i t,
    history_rows tasks = Ok rows -> tasks !! i = Some t ->
    exists row, rows !! i = Some row /\ dict_get "steps" row = dict_get "steps" t.
Proof.
  induction tasks as [|t0 rest IH]; intros rows i t Hrun Hi; [discriminate|].
  cbn [history_rows] in Hrun.
  destruct (iso_key "created_at" t0) as [c1|] eqn:Hc;
    cbn [and_then] in Hrun; [|discriminate].
  destruct (iso_key "completed_at" c1) as [c2|] eqn:Hm;
    cbn [and_then] in Hrun; [|discriminate].
  destruct (iso_key "updated_at" c2) as [c3|] eqn:Hu;
    cbn [and_then] in Hrun; [|discriminate].
  destruct (history_rows rest) as [rows'|] eqn:Hrest;
    cbn [and_then] in Hrun; [|discriminate].
  inversion Hrun; subst rows. clear Hrun.
  destruct i as [|i]; simpl in Hi.
  - inversion Hi; subst t0. exists c3. split; [reflexivity|].
    rewrite (iso_key_other _ "steps" _ _ Hu) by discriminate.
    rewrite (iso_key_other _ "steps" _ _ Hm) by discriminate.
    apply (iso_key_other _ "steps" _ _ Hc). discriminate.
  - apply (IH rows' i t eq_refl Hi).
Qed.

Lemma history_rows_snoc (tasks : list dict) (t c1 c2 c3 : dict) :
  forall rows,
    history_rows tasks = Ok rows ->
    iso_key "created_at" t = Ok c1 ->
    iso_key "completed_at" c1 = Ok c2 ->
    iso_key "updated_at" c2 = Ok c3 ->
    history_rows (tasks ++ [t]) = Ok (rows ++ [c3]).
Proof.
  induction tasks as [|t0 rest IH]; intros rows Hrun Hc Hm Hu.
  - simpl in Hrun. inversion Hrun; subst rows.
    cbn [app history_rows]. rewrite Hc. cbn [and_then]. rewrite Hm. cbn [and_then].
    rewrite Hu. reflexivity.
  - cbn [app history_rows] in Hrun |- *.
    destruct (iso_key "created_at" t0) as [d1|]; cbn [and_then] in Hrun |- *;
      [|discriminate].
    destruct (iso_key "completed_at" d1) as [d2|]; cbn [and_then] in Hrun |- *;
      [|discriminate].
    destruct (iso_key "updated_at" d2) as [d3|]; cbn [and_then] in Hrun |- *;
      [|discriminate].
    destruct (history_rows rest) as [rows'|]; cbn [and_then] in Hrun;
      [|discriminate].
    inversion Hrun; subst rows.
    rewrite (IH rows' eq_refl Hc Hm Hu). reflexivity.
Qed.

(** *** What the two saves do to the files *)

Lemma save_task_history_fs (s : state) :
  fs (snd (_save_task_history s)) =
  match history_rows (task_history s) with
  | Raise _ => fs s
  | Ok rows =>
      if unwritable s history_file then fs s
      else match to_jobjects rows with
           | Some docs => <[history_file := JsonDoc docs]> (fs s)
           | None => <[history_file := TornWrite]> (fs s)
           end
  end.
Proof.
  unfold _save_task_history. unfold_monad. state_simpl.
  destruct (history_rows (task_history s)) as [rows|e]; state_simpl; [|reflexivity].
  destruct (unwritable s history_file); state_simpl; [reflexivity|].
  destruct (to_jobjects rows); reflexivity.
Qed.

Lemma save_active_tasks_other_file (s : state) :
  fs (snd (_save_active_tasks s)) !! history_file = fs s !! history_file.
Proof.
  unfold _save_active_tasks. unfold_monad. state_simpl.
  destruct (active_rows (active_tasks s)) as [tasks' [rows|e]]; state_simpl;
    [|reflexivity].
  destruct (unwritable s tasks_file); state_simpl; [reflexivity|].
  destruct (to_jobjects rows); state_simpl;
    apply lookup_insert_ne; discriminate.
Qed.

(** X29. When an archived task holds a step dict with a datetime among its
    values (the save of the history renders the task-level timestamps only)
    and the file can be opened for writing, [_save_task_history] returns
    normally but leaves the history file cut short, whatever it held
    before; a service that then loads that file starts with an empty
    history. *)
Theorem history_save_tears_file (s : state) (i : nat) (t : dict) :
  unwritable s history_file = false ->
  (exists rows, history_rows (task_history s) = Ok rows) ->
  task_history s !! i = Some t ->
  has_datetime_step t ->
  fst (_save_task_history s) = Ok tt /\
  fs (snd (_save_task_history s)) = <[history_file := TornWrite]> (fs s) /\
  forall fresh,
    fs fresh !! history_file = fs (snd (_save_task_history s)) !! history_file ->
    task_history (snd (_load_task_history fresh)) = [].
Proof.
  intros Hw [rows Hrows] Hi Hst.
  destruct (history_rows_steps _ _ _ _ Hrows Hi) as (row & Hrow & Hsteps).
  pose proof (to_jobjects_refused rows i row Hrow
                (to_jobject_datetime_step t row Hst Hsteps)) as Hrefused.
  assert (Hfs : fs (snd (_save_task_history s)) = <[history_file := TornWrite]> (fs s)).
  { rewrite save_task_history_fs, Hrows, Hw, Hrefused. reflexivity. }
  split; [apply save_task_history_effect|]. split; [exact Hfs|].
  intros fresh Hfile. rewrite Hfs, lookup_insert_eq in Hfile.
  unfold _load_task_history. unfold_monad.
  repeat first
    [ rewrite Hfile | rewrite bool_decide_eq_true_2 by eauto
    | progress state_simpl ].
  reflexivity.
Qed.

(** *** The steps as the loop leaves them *)

Lemma now_is_datetime : ensures (fun v => exists t0, v = PDatetime t0) now.
Proof. intros s v s' Hrun. unfold now in Hrun. inversion Hrun; subst. eauto. Qed.

(** A step that [execute_step] reports as a success carries the time of
    its execution. *)
Lemma execute_step_stamps (task_id : string) (step : pyval) :
  ensures (fun executed =>
             py_eq (dict_get_default "status" PNone (fst executed)) (PStr "success")
               = true ->
             exists d t0, snd executed = PDict d /\
                          dict_get "updated_at" d = Some (PDatetime t0))
          (execute_step task_id step).
Proof.
  unfold execute_step. apply ensures_try_except.
  - eapply ensures_bind; [apply ensures_any|]. intros [p|] _.
    2: { apply ensures_ret. simpl. discriminate. }
    eapply ensures_bind; [apply ensures_any|]. intros s0 _.
    eapply ensures_bind; [apply ensures_any|]. intros d _.
    eapply ensures_bind; [apply ensures_any|]. intros result _.
    eapply ensures_bind; [apply now_is_datetime|]. intros updated [t0 ->].
    apply ensures_ret. intros _. cbn [snd]. eexists _, t0.
    split; [reflexivity|]. apply dict_get_set_eq.
  - intros e. eapply ensures_bind; [apply ensures_any|]. intros _ _.
    apply ensures_ret. simpl. discriminate.
Qed.

Lemma execute_step_keeps_tasks (task_id : string) (step : pyval) (s : state) :
  active_tasks (snd (execute_step task_id step s)) = active_tasks s /\
  task_history (snd (execute_step task_id step s)) = task_history s.
Proof.
  split.
  - apply (quiet_execute_step active_tasks); reflexivity.
  - apply (quiet_execute_step task_history); reflexivity.
Qed.

(** The loop over the steps of the active task at [i], run to its end:
    the task's list of steps has the same length, the positions before [k]
    are as they were, each position the loop went over holds a dict with a
    datetime [updated_at]; the task's other entries and the history are
    untouched. *)
Lemma run_steps_stamps (task_id : string) (i : nat) (steps : list pyval) :
  forall k s s' items t,
    run_steps task_id (InActive i) k steps s = (Ok None, s') ->
    active_tasks s !! i = Some t ->
    dict_get "steps" t = Some (PList items) ->
    k + length steps <= length items ->
    task_history s' = task_history s /\
    exists t' items',
      active_tasks s' !! i = Some t' /\
      dict_get "steps" t' = Some (PList items') /\
      length items' = length items /\
      (forall key, key <> "steps" -> dict_get key t' = dict_get key t) /\
      (forall j, j < k -> items' !! j = items !! j) /\
      (forall j, k <= j < k + length steps ->
         exists d t0, items' !! j = Some (PDict d) /\
                      dict_get "updated_at" d = Some (PDatetime t0)).
Proof.
  induction steps as [|step rest IH]; intros k s s' items t Hrun Ht Hitems Hlen.
  - cbn [run_steps] in Hrun. inversion Hrun; subst s'.
    split; [reflexivity|]. exists t, items. repeat split; auto.
    intros j Hj. simpl in Hj. lia.
  - cbn [run_steps] in Hrun. unfold bind at 1 in Hrun.
    pose proof (execute_step_stamps task_id step s) as Hstamp.
    destruct (execute_step_keeps_tasks task_id step s) as [Ha1 Hh1].
    destruct (execute_step task_id step s) as [[[result step']|e] s1];
      [|discriminate].
    specialize (Hstamp (result, step') s1 eq_refl). cbn [fst snd] in *.
    unfold bind at 1 in Hrun. unfold store_step, modify in Hrun.
    destruct (py_eq (dict_get_default "status" PNone result) (PStr "success"))
      eqn:Hsuccess.
    2: { unfold bind, lift in Hrun.
         destruct (py_getitem step' "id") as [sid|e]; [|discriminate].
         rewrite update_step_status_skips, update_task_status_skips in Hrun.
         discriminate. }
    destruct (Hstamp eq_refl) as (d & t0 & -> & Hd).
    unfold bind at 1 in Hrun. unfold lift at 1 in Hrun.
    destruct (py_getitem (PDict d) "id") as [sid|e]; [|discriminate].
    unfold bind at 1 in Hrun. rewrite update_step_status_skips in Hrun.
    cbn [alter_task] in Hrun.
    set (t1 := dict_set "steps" (PList (<[k := PDict d]> items)) t).
    match type of Hrun with
    | run_steps _ _ _ _ ?S = _ =>
        assert (Ht1 : active_tasks S !! i = Some t1);
        [|assert (Hh : task_history S = task_history s1) by reflexivity]
    end.
    { state_simpl. rewrite list_lookup_alter_eq, Ha1. unfold dict in *.
      rewrite Ht. cbn [fmap option_fmap option_map]. rewrite Hitems. reflexivity. }
    assert (Hk : k < length items) by (simpl in Hlen; lia).
    destruct (IH (S k) _ s' (<[k := PDict d]> items) t1 Hrun Ht1)
      as (Hh' & t' & items' & Ht' & Hitems' & Hlen' & Hkeys & Hbefore & Hafter).
    { apply dict_get_set_eq. }
    { rewrite length_insert. simpl in Hlen. lia. }
    split; [congruence|].
    exists t', items'. split; [exact Ht'|]. split; [exact Hitems'|].
    split; [rewrite Hlen'; apply length_insert|].
    split.
    { intros key Hkey. rewrite (Hkeys key Hkey). apply dict_get_set_ne. exact Hkey. }
    split.
    { intros j Hj. rewrite (Hbefore j) by lia.
      apply list_lookup_insert_ne. lia. }
    intros j Hj.
    destruct (decide (j = k)) as [->|Hne].
    + rewrite (Hbefore k) by lia. rewrite list_lookup_insert_eq by exact Hk. eauto.
    + apply Hafter. simpl in Hj. lia.
Qed.

(** X30. Completing a task that has steps destroys the history file.
    When [execute_task] runs all the steps of an active task with at least
    one step, the history file accepts writes and the task-level timestamps
    in memory are datetimes, the history file is left cut short: each
    executed step carries the datetime [execute_step] put into its
    [updated_at], which the save of the history that follows does not
    render. *)
Theorem executed_task_tears_history (s : state) (task_id : string) (i : nat)
    (t : dict) (step : pyval) (rest : list pyval) :
  active_tasks s !! i = Some t ->
  dict_get "task_id" t = Some (PStr task_id) ->
  absent task_id (take i (active_tasks s)) ->
  dict_get "steps" t = Some (PList (step :: rest)) ->
  fst (run_steps task_id (InActive i) 0 (step :: rest) s) = Ok None ->
  unwritable s history_file = false ->
  (exists rows, history_rows (task_history s) = Ok rows) ->
  (exists c, iso_key "created_at" t = Ok c) ->
  fs (snd (execute_task task_id s)) !! history_file = Some TornWrite.
Proof.
  intros Ht Hid Habs Hsteps Hrun Hw [rows Hrows] [c Hc].
  pose proof (find_task_at task_id _ i 0 t Ht Hid Habs) as Hfind. simpl in Hfind.
  pose proof (run_steps_ids task_id (InActive i) 0 (step :: rest) s) as Hids.
  pose proof (run_steps_fs task_id (InActive i) 0 (step :: rest) s) as Hfs.
  assert (Hw1 : unwritable (snd (run_steps task_id (InActive i) 0 (step :: rest) s))
                = unwritable s).
  { apply (quiet_run_steps unwritable); try reflexivity.
    intros [] ? ? ?; reflexivity. }
  unfold execute_task. unfold try_except, bind at 1.
  unfold get_task, bind, get_state, lift. rewrite Hfind. unfold ret at 1.
  rewrite update_task_status_skips.
  unfold task_at, dict_get_default. unfold dict in *. rewrite Ht.
  cbn [default from_option id]. rewrite Hsteps. cbn [py_iter].
  destruct (run_steps task_id (InActive i) 0 (step :: rest) s) as [o s1] eqn:Hloop.
  cbn [fst snd] in Hrun, Hids, Hfs, Hw1. subst o.
  destruct (run_steps_stamps task_id i (step :: rest) 0 s s1 (step :: rest) t
              Hloop Ht Hsteps (le_n _))
    as (Hh & t1 & items1 & Ht1 & Hsteps1 & Hlen1 & Hkeys & _ & Hstamped).
  cbv beta iota. rewrite update_task_status_skips.
  (* the archival *)
  unfold collection_ids in Hids. injection Hids as Ha _.
  assert (Hid1 : dict_get "task_id" t1 = Some (PStr task_id)).
  { rewrite Hkeys by discriminate. exact Hid. }
  assert (Habs1 : absent task_id (take i (active_tasks s1))).
  { assert (Hfind1 : find_task task_id 0 (active_tasks s1) = Ok (Some i)).
    { rewrite (find_task_ids task_id _ _ Ha). exact Hfind. }
    destruct (find_task_Some _ _ _ _ Hfind1) as (i' & _ & Hi' & _ & _ & Habs').
    simpl in Hi'. subst i'. exact Habs'. }
  assert (Hfound : fs (snd (archive_task task_id s1)) !! history_file = Some TornWrite).
  { pose proof (find_task_at task_id _ i 0 t1 Ht1 Hid1 Habs1) as Hfind1.
    simpl in Hfind1.
    unfold archive_task. unfold try_except, bind, get_state, lift, now, modify.
    rewrite Hfind1. state_simpl. cbn [alter_task task_at]. state_simpl.
    rewrite alter_twice. unfold dict in *.
    remember (dict_set "updated_at" (PDatetime (wallclock s1 (S (ticks s1))))
                (dict_set "completed_at" (PDatetime (wallclock s1 (ticks s1))) t1))
      as archived eqn:Harch.
    match goal with
    | |- context [alter ?f i (active_tasks s1)] =>
        destruct (archive_move task_id f (active_tasks s1) i t1 Ht1 Hid1 Habs1)
          as (_ & Hremove & _);
        [intros t0; rewrite !dict_get_set_ne by discriminate; reflexivity|];
        assert (Hat : alter f i (active_tasks s1) !! i = Some archived)
          by (rewrite list_lookup_alter_eq, Ht1, Harch; reflexivity)
    end.
    unfold dict in *. rewrite Hat in Hremove |- *.
    cbn [default from_option id] in Hremove |- *.
    rewrite Hremove.
    (* the history save meets the datetimes of the executed steps *)
    assert (Hdt : has_datetime_step archived).
    { destruct (Hstamped 0) as (d & t0 & Hd0 & Hupd); [simpl; lia|].
      exists items1, 0, d, "updated_at", t0. split; [|split; assumption].
      rewrite Harch. rewrite !dict_get_set_ne by discriminate. exact Hsteps1. }
    assert (Hrows1 : exists c3, history_rows (task_history s1 ++ [archived]) =
                                Ok (rows ++ [c3]) /\
                                dict_get "steps" c3 = dict_get "steps" archived).
    { destruct (iso_key_same_entry "created_at" t archived c Hc) as [c1 Hc1].
      { rewrite Harch. rewrite !dict_get_set_ne by discriminate.
        apply Hkeys. discriminate. }
      assert (Hm : exists c2, iso_key "completed_at" c1 = Ok c2).
      { unfold iso_key.
        rewrite (iso_key_other _ "completed_at" _ _ Hc1) by discriminate.
        rewrite Harch. rewrite dict_get_set_ne by discriminate.
        rewrite dict_get_set_eq. cbn [py_isoformat and_then]. eauto. }
      destruct Hm as [c2 Hm].
      assert (Hu : exists c3, iso_key "updated_at" c2 = Ok c3).
      { unfold iso_key.
        rewrite (iso_key_other _ "updated_at" _ _ Hm) by discriminate.
        rewrite (iso_key_other _ "updated_at" _ _ Hc1) by discriminate.
        rewrite Harch. rewrite dict_get_set_eq.
        cbn [py_isoformat and_then]. eauto. }
      destruct Hu as [c3 Hu]. exists c3. split.
      - rewrite Hh. apply (history_rows_snoc _ archived c1 c2 c3 rows Hrows Hc1 Hm Hu).
      - rewrite (iso_key_other _ "steps" _ _ Hu) by discriminate.
        rewrite (iso_key_other _ "steps" _ _ Hm) by discriminate.
        apply (iso_key_other _ "steps" _ _ Hc1). discriminate. }
    destruct Hrows1 as (c3 & Hrows1 & Hsteps3).
    assert (Hrefused : to_jobjects (rows ++ [c3]) = None).
    { apply (to_jobjects_refused _ (length rows) c3).
      - apply list_lookup_middle. reflexivity.
      - apply (to_jobject_datetime_step archived c3 Hdt Hsteps3). }
    match goal with
    | |- context [_save_task_history ?S] =>
        pose proof (save_task_history_fs S) as Hsaved;
        destruct (save_task_history_effect S) as (Hok & _ & _);
        destruct (_save_task_history S) as [o1 s2]
    end.
    cbn [fst snd] in Hok, Hsaved. subst o1.
    state_simpl_in Hsaved. unfold dict in *.
    rewrite Hrows1, Hw1, Hw, Hrefused in Hsaved.
    pose proof (save_active_tasks_other_file s2) as Hother.
    destruct (_save_active_tasks s2) as [[[]|e] s3]; cbn [fst snd] in Hother |- *;
      unfold logger, modify, raise; state_simpl;
      rewrite Hother, Hsaved; apply lookup_insert_eq. }
  destruct (archive_task task_id s1) as [[[]|e] s2]; cbn [fst snd] in Hfound |- *;
    unfold logger, modify, ret; try rewrite update_task_status_skips;
    state_simpl; exact Hfound.
Qed.

End Torn.

(** ** The further properties at concrete inputs *)

Section Instances.
Import Demo Scenario Examples.

(** X2 on the service with one active task, and after that task was
    executed and archived. *)
Lemma get_task_prefers_active_witness :
  get_task "task_1" fine1 = (Ok (Some (InActive 0)), fine1) /\
  get_task "task_1" fine2 = (Ok (Some (InHistory 0)), fine2).
Proof.
  split.
  - refine (proj1 (get_task_prefers_active "task_1" fine1 0
                     (default [] (active_tasks fine1 !! 0)) _) _ _).
    + vm_compute. reflexivity.
    + vm_compute. reflexivity.
    + constructor.
  - refine (proj2 (get_task_prefers_active "task_1" fine2 0
                     (default [] (task_history fine2 !! 0)) _) _ _ _).
    + vm_compute. reflexivity.
    + vm_compute. constructor.
    + vm_compute. reflexivity.
    + constructor.
Defined.

(** X3 on a new service. *)
Lemma unknown_task_id_is_reported_witness :
  execute_task "task_7" fine0 = (Ok (result_error "Task not found"), fine0) /\
  execute_step "task_7" (PDict odd_step) fine0 =
    (Ok (result_error "Task not found", PDict odd_step), fine0).
Proof.
  apply (unknown_task_id_is_reported "task_7" (PDict odd_step) fine0);
    vm_compute; constructor.
Defined.

(** X4 on a step of type [review] of the active task. *)
Lemma unknown_step_type_makes_no_call_witness :
  execute_step "task_1" (PDict odd_step) fine1 =
  (Ok (result_error "Unknown step type: review",
       PDict (dict_set "updated_at" (PDatetime (wallclock fine1 (ticks fine1)))
                (dict_set "status" (PStr "error")
                   (dict_set "result"
                      (PDict (result_error "Unknown step type: review")) odd_step)))),
   set_ticks (S (ticks fine1)) fine1).
Proof.
  refine (unknown_step_type_makes_no_call "task_1" (InActive 0) odd_step fine1 _ _ _);
    vm_compute; reflexivity.
Defined.


(** X8 on a step without an [action]. *)
Lemma execute_step_prompt_missing_key_witness :
  _execute_step bare_step [] fine0 = (Raise (KeyError "action"), fine0).
Proof.
  apply (execute_step_prompt_missing_key bare_step [] fine0
           ["name"; "description"] ["parameters"] "action").
  - reflexivity.
  - repeat constructor.
  - vm_compute. reflexivity.
Defined.

(** X9 on a complete step, with an answer that parses. *)
Lemma execute_step_prompt_answer_witness :
  _execute_step full_step [] fine0 =
  (Ok (match json_loads plan2_text with
       | Some j => of_json j
       | None => PDict [("error", PStr "Failed to parse result");
                        ("raw_response", PStr plan2_text)]
       end),
   set_calls (S (calls fine0)) fine0).
Proof.
  apply (execute_step_prompt_answer full_step [] fine0
           (PDict [("path", PStr "/var/log")]) plan2_text).
  - repeat constructor.
  - vm_compute. reflexivity.
  - eexists. vm_compute. reflexivity.
  - eexists. vm_compute. reflexivity.
  - vm_compute. reflexivity.
Defined.

(** X10 on a service whose completion client raises. *)
Lemma planner_never_raises_witness :
  fst (_plan_task_steps "Rotate the logs" None failing0) = Ok (PList []).
Proof.
  apply (proj2 (proj2 (proj2 (proj2
           (planner_never_raises "Rotate the logs" None failing0)))) "timeout").
  vm_compute. reflexivity.
Defined.

(** X11 on the plan of two steps. *)
Lemma planner_stamps_every_step_witness :
  exists steps,
    fst (_plan_task_steps "Rotate the logs" None fine0) = Ok (PList steps) /\
    length steps = 2.
Proof.
  destruct (planner_stamps_every_step "Rotate the logs" None plan2_text
              [[("description", JStr "collect the logs"); ("type", JStr "analysis")];
               [("description", JStr "rotate the logs"); ("type", JStr "action")]]
              fine0) as (steps & Hsteps & Hlen & _).
  - eexists. vm_compute. reflexivity.
  - vm_compute. reflexivity.
  - vm_compute. reflexivity.
  - exists steps. split; [exact Hsteps|exact Hlen].
Defined.

(** X13 on a disk that refuses every write. *)
Lemma history_save_is_silent_witness :
  fs (snd (_save_task_history readonly0)) = fs readonly0.
Proof.
  apply (proj2 (proj2 (proj2 (history_save_is_silent readonly0)))).
  vm_compute. reflexivity.
Defined.

(** X14 on an empty disk. *)
Lemma init_never_raises_witness :
  active_tasks fine0 = [] /\ task_history fine0 = [] /\
  fs fine0 !! history_file = Some (JsonDoc []) /\
  fs fine0 !! tasks_file = Some (JsonDoc []).
Proof.
  apply (proj2 (init_never_raises (blank ∅ nothing_locked replies_fine)));
    vm_compute; reflexivity.
Defined.

(** X16 on an empty list of logs. *)
Lemma unformattable_logs_are_an_error_witness :
  fst (analyze_logs "What happened?" [] fine0) =
    Ok (PDict [("error", PStr "list index out of range");
               ("timestamp", PStr (isoformat (demo_clock 0)))]) /\
  calls (snd (detect_anomalies "What happened?" [] fine0)) = calls fine0.
Proof.
  destruct (unformattable_logs_are_an_error "What happened?" []
              (IndexError "list index out of range") fine0) as [Ha Hd].
  - vm_compute. reflexivity.
  - rewrite Ha, Hd. split; vm_compute; reflexivity.
Defined.

(** X17 on one log entry and an answer in plain words. *)
Lemma analyze_logs_keeps_unparsable_answer_witness :
  fst (analyze_logs "What happened?" [one_log] mute0) =
  Ok (PDict [("summary", PStr chatter); ("key_events", PList []);
             ("issues", PList []); ("recommendations", PList []);
             ("timestamp", PStr (isoformat (wallclock mute0 (ticks mute0))))]).
Proof.
  refine (f_equal fst
            (analyze_logs_keeps_unparsable_answer "What happened?" [one_log]
               chatter mute0 _ _ _));
    vm_compute; reflexivity.
Defined.

(** X18 on one log entry and an answer of two objects without timestamps. *)
Lemma detect_anomalies_stamps_each_anomaly_witness :
  exists out,
    fst (detect_anomalies "What happened?" [one_log] fine0) = Ok (PList out) /\
    length out = 2.
Proof.
  destruct (detect_anomalies_stamps_each_anomaly "What happened?" [one_log]
              plan2_text
              [step_doc "collect the logs" "analysis";
               step_doc "rotate the logs" "action"] fine0)
    as (out & Hout & Hstamped & _).
  - vm_compute. reflexivity.
  - vm_compute. reflexivity.
  - vm_compute. reflexivity.
  - repeat constructor; eexists; reflexivity.
  - exists out. split; [exact Hout|].
    apply Forall2_length in Hstamped. simpl in Hstamped. congruence.
Defined.

(** X20 on the task with one step: the second save. *)
Lemma second_save_raises_witness :
  fst (_save_active_tasks trip1) = Raise str_isoformat_error /\
  fs (snd (_save_active_tasks trip1)) = fs trip1.
Proof.
  destruct (second_save_raises trip0 0 sample_task) as (Hraise & _ & _ & Hfs).
  - vm_compute. reflexivity.
  - reflexivity.
  - exists [sample_step], 0. eexists. split; [reflexivity|].
    split; [reflexivity|]. left. reflexivity.
  - split; [exact Hraise|exact Hfs].
Defined.

(** X21 after the task with two steps was created. *)
Lemma create_task_works_once_witness :
  fst (create_task "Send the report" None fine1) = Raise str_isoformat_error /\
  fs (snd (create_task "Send the report" None fine1)) = fs fine1.
Proof.
  apply (create_task_works_once "Rotate the logs" None fine0
           (default [] (last (active_tasks fine1))) fine1).
  - vm_compute. reflexivity.
  - vm_compute. discriminate.
Defined.

(** X22 on the task with one step. *)
Lemma saved_active_tasks_load_back_witness :
  active_tasks trip2 = active_tasks trip1.
Proof.
  destruct (saved_active_tasks_load_back trip0
              (blank (fs trip1) nothing_locked replies_fine)) as (_ & Hload & _).
  - vm_compute. reflexivity.
  - constructor; [|constructor]. intros k t Hk Ht.
    apply elem_of_cons in Hk as [->|Hk].
    { vm_compute in Ht. inversion Ht; subst. vm_compute. reflexivity. }
    apply elem_of_cons in Hk as [->|Hk].
    { vm_compute in Ht. inversion Ht; subst. vm_compute. reflexivity. }
    inversion Hk.
  - reflexivity.
  - exact Hload.
Defined.

(** X23 on the service with one active task. *)
Lemma archive_task_stamps_and_moves_witness :
  length (active_tasks (snd (archive_task "task_1" fine1))) =
  length (active_tasks fine1) - 1.
Proof.
  refine (proj2 (proj2 (archive_task_stamps_and_moves fine1 "task_1" 0
                          (default [] (active_tasks fine1 !! 0)) _ _ _))).
  - vm_compute. reflexivity.
  - vm_compute. reflexivity.
  - constructor.
Defined.

(** X24 on the task whose two steps succeed. *)
Lemma completed_task_is_archived_witness :
  ids (active_tasks (snd (execute_task "task_1" fine1))) =
    delete 0 (ids (active_tasks fine1)) /\
  ids (task_history (snd (execute_task "task_1" fine1))) =
    ids (task_history fine1) ++ [Some (PStr "task_1")].
Proof.
  refine (completed_task_is_archived fine1 "task_1" 0
            (steps_of (task_at (InActive 0) fine1)) _ _ _);
    vm_compute; reflexivity.
Defined.

(** X25 on an analysis step of the active task. *)
Lemma execute_step_records_outcome_witness :
  fst (execute_step "task_1" (PDict typed_step) fine1) =
  Ok (result_success (PStr "fine"),
      PDict (dict_set "updated_at" (PDatetime (wallclock fine1 (ticks fine1)))
               (dict_set "status" (PStr "success")
                  (dict_set "result" (PDict (result_success (PStr "fine")))
                     typed_step)))).
Proof.
  rewrite (execute_step_records_outcome fine1 "task_1" (InActive 0) typed_step
             "analysis" (PDict [])).
  - vm_compute. reflexivity.
  - vm_compute. reflexivity.
  - reflexivity.
  - left. reflexivity.
  - vm_compute. reflexivity.
  - eexists. reflexivity.
Defined.

(** X27 on a file whose only task has a [created_at] in plain words. *)
Lemma load_is_all_or_nothing_witness :
  active_tasks (snd (_load_active_tasks stale0)) = [] /\
  fs (snd (_load_active_tasks stale0)) = fs stale0.
Proof.
  destruct (proj1 (load_is_all_or_nothing stale0 [stale_doc])) as (_ & Ha & Hfs).
  - vm_compute. reflexivity.
  - constructor. exists "created_at", (PStr "yesterday"). eexists.
    split; [repeat constructor|]. split; vm_compute; reflexivity.
  - split; [exact Ha|exact Hfs].
Defined.

(** X28 on an archived task without steps. *)
Lemma saved_history_loads_back_witness :
  task_history
    (snd (_load_task_history
            (blank (fs (snd (_save_task_history plain0))) nothing_locked
                   replies_fine))) =
  task_history plain0.
Proof.
  destruct (saved_history_loads_back plain0
              (blank (fs (snd (_save_task_history plain0))) nothing_locked
                     replies_fine)) as (_ & Hload & _).
  - split; [reflexivity|]. eexists _, _. split; vm_compute; reflexivity.
  - constructor; [|constructor]. intros k t Hk Ht.
    apply elem_of_cons in Hk as [->|Hk].
    { vm_compute in Ht. inversion Ht; subst. vm_compute. reflexivity. }
    apply elem_of_cons in Hk as [->|Hk].
    { vm_compute in Ht. discriminate. }
    apply elem_of_cons in Hk as [->|Hk].
    { vm_compute in Ht. inversion Ht; subst. vm_compute. reflexivity. }
    inversion Hk.
  - reflexivity.
  - exact Hload.
Defined.

(** X29 on an archived task whose step has datetime timestamps. *)
Lemma history_save_tears_file_witness :
  fs (snd (_save_task_history past0)) = <[history_file := TornWrite]> (fs past0).
Proof.
  refine (proj1 (proj2 (history_save_tears_file past0 0 sample_task _ _ _ _))).
  - vm_compute. reflexivity.
  - eexists. vm_compute. reflexivity.
  - reflexivity.
  - exists [sample_step], 0. eexists _, "created_at", _.
    split; [reflexivity|]. split; reflexivity.
Defined.

(** X30 on the task whose two steps succeed. *)
Lemma executed_task_tears_history_witness :
  fs (snd (execute_task "task_1" fine1)) !! history_file = Some TornWrite.
Proof.
  refine (executed_task_tears_history fine1 "task_1" 0
            (default [] (active_tasks fine1 !! 0))
            (default PNone (steps_of (task_at (InActive 0) fine1) !! 0))
            (drop 1 (steps_of (task_at (InActive 0) fine1))) _ _ _ _ _ _ _ _).
  - vm_compute. reflexivity.
  - vm_compute. reflexivity.
  - constructor.
  - vm_compute. reflexivity.
  - vm_compute. reflexivity.
  - vm_compute. reflexivity.
  - eexists. vm_compute. reflexivity.
  - eexists. vm_compute. reflexivity.
Defined.

(** X26 on an answer with a space and a no-break space before the fence
    and a no-break space after it, around a body that is an empty array
    between a no-break space and a space. *)
Lemma clean_response_unwraps_fence_witness :
  white (" " +:+ nbsp) /\ white nbsp /\
  (strip ((" " +:+ nbsp) +:+ "```json" +:+ (nbsp +:+ "[] ") +:+ "```" +:+ nbsp) =
     "```json" +:+ (nbsp +:+ "[] ") +:+ "```" /\
   clean_response ("```json" +:+ (nbsp +:+ "[] ") +:+ "```") =
     strip (nbsp +:+ "[] ")) /\
  strip (nbsp +:+ "[] ") = "[]".
Proof.
  assert (Hlead : white (" " +:+ nbsp)) by (split; reflexivity).
  assert (Htrail : white nbsp) by (split; reflexivity).
  split; [exact Hlead|]. split; [exact Htrail|].
  split; [|reflexivity].
  exact (clean_response_unwraps_fence (" " +:+ nbsp) (nbsp +:+ "[] ") nbsp
           Hlead Htrail).
Defined.

End Instances.
